(** * Search and AI services: a shallow embedding and its properties

    The development follows the Python packages it embeds:
    - [py]: the fragment of Python the services rely on (exceptions,
      truthiness, [min]/[max], [timedelta] normalisation, [str.split]);
    - [search_model]: [models/search_model.py];
    - [query_builder]: [utils/query_builder.py];
    - [elasticsearch_config]: [config/elasticsearch.py];
    - [search_service]: [services/search_service.py];
    - [openai_service]: [services/openai_service.py];
    - [model_utils]: [utils/model_utils.py].

    Floats are modelled as rationals [Q] (only comparisons, [min] and [max]
    are used on them), with the float nan as a value of its own where a
    value of any type is read; Python [int] as [Z], [dict] as [gmap],
    [datetime] as a number of microseconds, text as strings over the ASCII
    range.  A method is modelled by what running its body does and a
    decorator by the function it returns, applied to the function it
    decorates; calling an [async def] method runs nothing and gives a
    coroutine, which runs the body when it is awaited.  Logging and metrics
    are left out: they do not take part in the control flow. *)

From Stdlib Require Import ZArith QArith Qminmax Lqa Lia Bool List Ascii String.
From stdpp Require Import gmap strings list.
Import ListNotations.

Local Open Scope Z_scope.
Set Warnings "-register-all".

Declare Scope eff_scope.
Delimit Scope eff_scope with eff.

(* ===================================================================== *)
(** ** The Python fragment *)
(* ===================================================================== *)

Module py.

(** Exceptions raised or caught by the two services. *)
Inductive PyExn : Type :=
| ValueError (msg : string)
| ValidationError (fields : list string)
| AttributeError (attr : string)
| KeyError (key : string)
| TypeError (msg : string)
| ConnectionTimeout
| RequestError
| ConnectionError
| TimeoutError
| SearchServiceError (msg : string)
| Exception_ (msg : string)
| RetryError (last : PyExn).

(** The outcome of a call: a value or a raised exception. *)
Inductive result (A : Type) : Type :=
| Ok (a : A)
| Raise (e : PyExn).
Arguments Ok {A} a.
Arguments Raise {A} e.

Definition bind {A B : Type} (r : result A) (k : A -> result B) : result B :=
  match r with
  | Ok a => k a
  | Raise e => Raise e
  end.

Definition is_ok {A : Type} (r : result A) : bool :=
  match r with Ok _ => true | Raise _ => false end.

(** Values of type [Any]; a float is a rational or nan. *)
Inductive PyVal : Type :=
| VNone
| VBool (b : bool)
| VInt (z : Z)
| VFloat (q : Q)
| VNaN
| VStr (s : string)
| VList (l : list PyVal)
| VDict (d : list (string * PyVal)).

(** [type(v).__name__]. *)
Definition type_name (v : PyVal) : string :=
  match v with
  | VNone => "NoneType"
  | VBool _ => "bool"
  | VInt _ => "int"
  | VFloat _ | VNaN => "float"
  | VStr _ => "str"
  | VList _ => "list"
  | VDict _ => "dict"
  end.

(** Strict order on floats, as a boolean. *)
Definition Qlt_bool (x y : Q) : bool := negb (Qle_bool y x).

(** [min(a, b)] returns [a] unless [b < a]; [max(a, b)] returns [a] unless
    [a < b]. *)
Definition py_min (a b : Q) : Q := if Qlt_bool b a then b else a.
Definition py_max (a b : Q) : Q := if Qlt_bool a b then b else a.

(** Truthiness of the values tested by the services. *)
Definition truthy_list {A : Type} (v : option (list A)) : bool :=
  match v with
  | Some (_ :: _) => true
  | _ => false
  end.

Definition truthy_float (v : option Q) : bool :=
  match v with
  | Some q => negb (Qeq_bool q 0)
  | None => false
  end.

Definition truthy_str (s : string) : bool :=
  match s with
  | EmptyString => false
  | String _ _ => true
  end.

(** Truthiness of a value of type [Any]. *)
Definition truthy (v : PyVal) : bool :=
  match v with
  | VNone => false
  | VBool b => b
  | VInt z => negb (z =? 0)
  | VFloat q => negb (Qeq_bool q 0)
  | VNaN => true
  | VStr s => truthy_str s
  | VList l => match l with [] => false | _ => true end
  | VDict d => match d with [] => false | _ => true end
  end.

(** The numbers: [bool], [int] and [float] values, read for a comparison.
    Every order comparison with nan is false, and nan equals nothing. *)
Inductive Number : Type :=
| Finite (q : Q)
| NaN.

Definition as_number (v : PyVal) : option Number :=
  match v with
  | VBool b => Some (Finite (if b then 1%Q else 0%Q))
  | VInt z => Some (Finite (inject_Z z))
  | VFloat q => Some (Finite q)
  | VNaN => Some NaN
  | _ => None
  end.

Definition number_lt (x y : Number) : bool :=
  match x, y with
  | Finite a, Finite b => Qlt_bool a b
  | _, _ => false
  end.

Definition number_eq (x y : Number) : bool :=
  match x, y with
  | Finite a, Finite b => Qeq_bool a b
  | _, _ => false
  end.

(** [s < t] on strings: the order of the first character that differs,
    a proper prefix coming first. *)
Fixpoint str_ltb (s t : string) : bool :=
  match s, t with
  | EmptyString, EmptyString => false
  | EmptyString, String _ _ => true
  | String _ _, EmptyString => false
  | String a s', String b t' =>
      if (nat_of_ascii a <? nat_of_ascii b)%nat then true
      else if (nat_of_ascii b <? nat_of_ascii a)%nat then false
      else str_ltb s' t'
  end.

(** The entry of a key in the items of a dictionary. *)
Fixpoint item (d : list (string * PyVal)) (k : string) : option PyVal :=
  match d with
  | [] => None
  | (k', v) :: rest => if String.eqb k' k then Some v else item rest k
  end.

(** [a == b].  Values carry no identity here: two values are compared by
    what they hold. *)
Fixpoint py_eq (a b : PyVal) {struct a} : bool :=
  match a, b with
  | VNone, VNone => true
  | VStr s, VStr t => String.eqb s t
  | VList xs, VList ys =>
      (fix all2 (xs ys : list PyVal) {struct xs} : bool :=
         match xs, ys with
         | [], [] => true
         | x :: xs', y :: ys' => py_eq x y && all2 xs' ys'
         | _, _ => false
         end) xs ys
  | VDict d, VDict d' =>
      (length d =? length d')%nat
      && (fix all_in (d : list (string * PyVal)) : bool :=
            match d with
            | [] => true
            | (k, v) :: rest =>
                match item d' k with
                | Some v' => py_eq v v'
                | None => false
                end && all_in rest
            end) d
  | _, _ =>
      match as_number a, as_number b with
      | Some x, Some y => number_eq x y
      | _, _ => false
      end
  end.

Definition unorderable : PyExn :=
  TypeError "'<' not supported between these instances".

(** [a < b]: numbers by value, strings and lists lexicographically;
    anything else cannot be ordered.  [a > b] is [b < a]. *)
Fixpoint py_lt (a b : PyVal) {struct a} : result bool :=
  match a, b with
  | VStr s, VStr t => Ok (str_ltb s t)
  | VList xs, VList ys =>
      (fix lex (xs ys : list PyVal) {struct xs} : result bool :=
         match xs, ys with
         | [], [] => Ok false
         | [], _ :: _ => Ok true
         | _ :: _, [] => Ok false
         | x :: xs', y :: ys' => if py_eq x y then lex xs' ys' else py_lt x y
         end) xs ys
  | _, _ =>
      match as_number a, as_number b with
      | Some x, Some y => Ok (number_lt x y)
      | _, _ => Raise unorderable
      end
  end.

Definition py_gt (a b : PyVal) : result bool := py_lt b a.

(** [min(a, b)] on values of any type: [a] unless [b < a]. *)
Definition py_min_val (a b : PyVal) : result PyVal :=
  bind (py_lt b a) (fun below => Ok (if below then b else a)).

(** [any(...)] over already evaluated truth values. *)
Definition any (l : list bool) : bool := existsb (fun b => b) l.

(** A [datetime] is a number of microseconds since the epoch; the
    difference of two of them is a [timedelta], which Python keeps
    normalised as days, seconds in [0, 86400) and microseconds in
    [0, 10^6).  [td_seconds] is the [.seconds] attribute and
    [td_total_seconds] the whole duration in seconds, rounded down. *)
Definition datetime : Type := Z.

Definition td_total_seconds (delta_us : Z) : Z := delta_us / 1000000.
Definition td_days (delta_us : Z) : Z := td_total_seconds delta_us / 86400.
Definition td_seconds (delta_us : Z) : Z := td_total_seconds delta_us mod 86400.
Definition td_microseconds (delta_us : Z) : Z := delta_us mod 1000000.

(** [int(dt.timestamp())]: whole seconds since the epoch. *)
Definition timestamp_int (dt : datetime) : Z := Z.quot dt 1000000.

(** Characters of the ASCII range that [str.split()] and [str.isspace]
    treat as white space: TAB, LF, VT, FF, CR, FS, GS, RS, US and space. *)
Definition is_space (c : ascii) : bool :=
  let n := nat_of_ascii c in
  ((9 <=? n)%nat && (n <=? 13)%nat) || ((28 <=? n)%nat && (n <=? 32)%nat).

(** [c.isalnum()] on the ASCII range. *)
Definition is_alnum (c : ascii) : bool :=
  let n := nat_of_ascii c in
  ((48 <=? n)%nat && (n <=? 57)%nat)
  || ((65 <=? n)%nat && (n <=? 90)%nat)
  || ((97 <=? n)%nat && (n <=? 122)%nat).

Fixpoint chars (s : string) : list ascii :=
  match s with
  | EmptyString => []
  | String c s' => c :: chars s'
  end.

(** [s.isalnum()]: every character is alphanumeric and there is one. *)
Definition str_isalnum (s : string) : bool :=
  truthy_str s && forallb is_alnum (chars s).

(** [s.split()]: the maximal runs of non white space characters, in order.
    [cur] is the run being read, most recent character last. *)
Fixpoint split_from (cur : string) (s : string) : list string :=
  match s with
  | EmptyString => if truthy_str cur then [cur] else []
  | String c s' =>
      if is_space c
      then (if truthy_str cur then cur :: split_from EmptyString s'
            else split_from EmptyString s')
      else split_from (cur +:+ String c EmptyString) s'
  end.

Definition split (s : string) : list string := split_from EmptyString s.

(** Effectful code: a world is threaded through, and a raised exception
    keeps the effects performed before it. *)
Definition Eff (W A : Type) : Type := W -> result A * W.

Definition ret {W A : Type} (a : A) : Eff W A := fun w => (Ok a, w).

Definition raise {W A : Type} (e : PyExn) : Eff W A := fun w => (Raise e, w).

Definition lift {W A : Type} (r : result A) : Eff W A := fun w => (r, w).

Definition ebind {W A B : Type} (c : Eff W A) (k : A -> Eff W B) : Eff W B :=
  fun w =>
    match c w with
    | (Ok a, w') => k a w'
    | (Raise e, w') => (Raise e, w')
    end.

(** [try: body except Exception as e: handler]. *)
Definition try_except {W A : Type} (body : Eff W A) (handler : PyExn -> Eff W A) : Eff W A :=
  fun w =>
    match body w with
    | (Ok a, w') => (Ok a, w')
    | (Raise e, w') => handler e w'
    end.

(** [IndexError] is carried as a plain exception named after its class;
    the handlers of the services treat every exception class alike. *)
Definition IndexError : PyExn := Exception_ "IndexError".

(** [s.split(sep)] for a one-character separator: the pieces between the
    separators, empty pieces included; there is always at least one. *)
Fixpoint split_on (sep : ascii) (s : string) : list string :=
  match s with
  | EmptyString => [EmptyString]
  | String c s' =>
      if Ascii.eqb c sep
      then EmptyString :: split_on sep s'
      else match split_on sep s' with
           | piece :: rest => String c piece :: rest
           | [] => [String c EmptyString]
           end
  end.

(** [sep.join(pieces)]. *)
Fixpoint join (sep : string) (pieces : list string) : string :=
  match pieces with
  | [] => EmptyString
  | [p] => p
  | p :: rest => p +:+ sep +:+ join sep rest
  end.

(** [s.lstrip()], [s.rstrip()] and [s.strip()]. *)
Fixpoint lstrip (s : string) : string :=
  match s with
  | EmptyString => EmptyString
  | String c s' => if is_space c then lstrip s' else s
  end.

Fixpoint rstrip (s : string) : string :=
  match s with
  | EmptyString => EmptyString
  | String c s' =>
      match rstrip s' with
      | EmptyString => if is_space c then EmptyString else String c EmptyString
      | rest => String c rest
      end
  end.

Definition strip (s : string) : string := rstrip (lstrip s).

(** [min(a, b)] and [max(a, b)] on integers. *)
Definition py_min_int (a b : Z) : Z := if b <? a then b else a.
Definition py_max_int (a b : Z) : Z := if a <? b then b else a.

End py.

(* ===================================================================== *)
(** ** models/search_model.py *)
(* ===================================================================== *)

Module search_model.
Import py.

Definition MIN_QUERY_LENGTH : Z := 3.
Definition MAX_QUERY_LENGTH : Z := 500.
Definition DEFAULT_PAGE_SIZE : Z := 20.
Definition MAX_PAGE_SIZE : Z := 100.
Definition MIN_QUALITY_SCORE : Q := 0.
Definition MAX_QUALITY_SCORE : Q := 1.

(** The fields the [SearchQuery] model declares. *)
Record SearchQuery : Type := {
  query_text : string;
  platforms : option (list string);
  tags : option (list string);
  min_quality_score : option Q;
  from_ : option Z;
  size : option Z;
  sort_options : option (gmap string PyVal)
}.

(** Attribute access on a [SearchQuery] instance: a declared field gives
    its value, any other name raises [AttributeError]. *)
Definition opt_val {A : Type} (f : A -> PyVal) (v : option A) : PyVal :=
  match v with
  | Some a => f a
  | None => VNone
  end.

Definition SearchQuery_getattr (q : SearchQuery) (name : string) : result PyVal :=
  if String.eqb name "query_text" then Ok (VStr (query_text q))
  else if String.eqb name "platforms"
       then Ok (opt_val (fun l => VList (map VStr l)) (platforms q))
  else if String.eqb name "tags"
       then Ok (opt_val (fun l => VList (map VStr l)) (tags q))
  else if String.eqb name "min_quality_score"
       then Ok (opt_val VFloat (min_quality_score q))
  else if String.eqb name "from_" then Ok (opt_val VInt (from_ q))
  else if String.eqb name "size" then Ok (opt_val VInt (size q))
  else if String.eqb name "sort_options"
       then Ok (opt_val (fun d => VDict (map_to_list d)) (sort_options q))
  else Raise (AttributeError name).

Definition valid_platforms : list string := ["SIEM"; "EDR"; "NSM"].

Definition in_strings (s : string) (l : list string) : bool :=
  existsb (String.eqb s) l.

(** [validate_platforms]: a non-empty list must hold allowed platforms
    only; [None] and the empty list are returned as they are. *)
Definition validate_platforms (v : option (list string)) : result (option (list string)) :=
  if truthy_list v then
    match v with
    | Some l =>
        if forallb (fun p => in_strings p valid_platforms) l
        then Ok v
        else Raise (ValueError "Invalid platform types")
    | None => Ok v
    end
  else Ok v.

Definition tag_char_ok (c : ascii) : bool :=
  is_alnum c || in_strings (String c EmptyString) ["-"; "_"].

Fixpoint validate_tag_list (l : list string) : result unit :=
  match l with
  | [] => Ok tt
  | tag :: rest =>
      if negb (str_isalnum tag) && negb (forallb tag_char_ok (chars tag))
      then Raise (ValueError "Invalid tag format")
      else if 50 <? Z.of_nat (String.length tag)
      then Raise (ValueError "Tag too long")
      else validate_tag_list rest
  end.

Definition validate_tags (v : option (list string)) : result (option (list string)) :=
  if truthy_list v then
    match v with
    | Some l => bind (validate_tag_list l) (fun _ => Ok v)
    | None => Ok v
    end
  else Ok v.

Definition in_range_Z (lo hi : Z) (v : option Z) : bool :=
  match v with
  | Some z => (lo <=? z) && (z <=? hi)
  | None => true
  end.

Definition at_least_Z (lo : Z) (v : option Z) : bool :=
  match v with
  | Some z => lo <=? z
  | None => true
  end.

Definition in_range_Q (lo hi : Q) (v : option Q) : bool :=
  match v with
  | Some q => Qle_bool lo q && Qle_bool q hi
  | None => true
  end.

(** Construction of a [SearchQuery]: the field constraints, then the two
    validators. *)
Definition SearchQuery_new (q : SearchQuery) : result SearchQuery :=
  let n := Z.of_nat (String.length (query_text q)) in
  if negb ((MIN_QUERY_LENGTH <=? n) && (n <=? MAX_QUERY_LENGTH))
  then Raise (ValidationError ["query_text"])
  else
    bind (validate_platforms (platforms q)) (fun _ =>
    bind (validate_tags (tags q)) (fun _ =>
    if negb (in_range_Q MIN_QUALITY_SCORE MAX_QUALITY_SCORE (min_quality_score q))
    then Raise (ValidationError ["min_quality_score"])
    else if negb (at_least_Z 0 (from_ q))
    then Raise (ValidationError ["from_"])
    else if negb (in_range_Z 1 MAX_PAGE_SIZE (size q))
    then Raise (ValidationError ["size"])
    else Ok q)).

(** A query given by its text alone, the other fields at their defaults. *)
Definition SearchQuery_of_text (text : string) : SearchQuery :=
  {| query_text := text; platforms := None; tags := None;
     min_quality_score := None; from_ := Some 0;
     size := Some DEFAULT_PAGE_SIZE; sort_options := None |}.

Record SearchHit : Type := {
  id : string;
  name : string;
  description : string;
  platform_type : string;
  score : Q;
  highlights : gmap string (list string);
  created_at : datetime;
  updated_at : datetime;
  metadata : gmap string PyVal
}.

(** [normalize_score]. *)
Definition normalize_score (v : Q) : Q := py_max 0 (py_min 1 v).

(** Construction of a [SearchHit]: the bounds declared on [score] are
    checked, then the validator runs on the accepted value. *)
Definition SearchHit_new (h : SearchHit) : result SearchHit :=
  if Qle_bool 0 (score h) && Qle_bool (score h) 1
  then Ok {| id := id h; name := name h; description := description h;
             platform_type := platform_type h;
             score := normalize_score (score h);
             highlights := highlights h; created_at := created_at h;
             updated_at := updated_at h; metadata := metadata h |}
  else Raise (ValidationError ["score"]).

(** Attribute assignment on an existing instance; the model does not
    enable validation on assignment, so the value is stored as given. *)
Definition set_score (h : SearchHit) (v : Q) : SearchHit :=
  {| id := id h; name := name h; description := description h;
     platform_type := platform_type h; score := v;
     highlights := highlights h; created_at := created_at h;
     updated_at := updated_at h; metadata := metadata h |}.

Definition set_highlights (h : SearchHit) (v : gmap string (list string)) : SearchHit :=
  {| id := id h; name := name h; description := description h;
     platform_type := platform_type h; score := score h;
     highlights := v; created_at := created_at h;
     updated_at := updated_at h; metadata := metadata h |}.

Record SearchResult : Type := {
  hits : list SearchHit;
  total : Z;
  took_ms : Z;
  max_score : Q;
  aggregations : gmap string PyVal;
  performance_metrics : gmap string PyVal
}.

Definition required_metrics : gset string :=
  {[ "query_time_ms"; "total_shards"; "successful_shards" ]}.

(** [validate_performance]: the required names that are not keys of the
    record; the record is rejected when there is one. *)
Definition missing_metrics (v : gmap string PyVal) : gset string :=
  required_metrics ∖ dom v.

Definition validate_performance (v : gmap string PyVal) : result (gmap string PyVal) :=
  if decide (missing_metrics v = ∅)
  then Ok v
  else Raise (ValueError "Missing required performance metrics").

(** Construction of a [SearchResult]: [aggregations] and
    [performance_metrics] may be left out ([None]) and then take their
    default, the empty dictionary.  A validator runs on a value that is
    given, not on a default; every failing field is reported in one
    [ValidationError]. *)
Definition init_errors (total took_ms : Z) (max_score : Q)
    (performance_metrics : option (gmap string PyVal)) : list string :=
  (if 0 <=? total then [] else ["total"])
  ++ (if 0 <=? took_ms then [] else ["took_ms"])
  ++ (if Qle_bool 0 max_score then [] else ["max_score"])
  ++ match performance_metrics with
     | Some v => if is_ok (validate_performance v) then []
                 else ["performance_metrics"]
     | None => []
     end.

Definition SearchResult_init (hits : list SearchHit) (total took_ms : Z)
    (max_score : Q) (aggregations performance_metrics : option (gmap string PyVal))
    : result SearchResult :=
  match init_errors total took_ms max_score performance_metrics with
  | [] => Ok {| hits := hits; total := total; took_ms := took_ms;
                max_score := max_score;
                aggregations := default ∅ aggregations;
                performance_metrics := default ∅ performance_metrics |}
  | errs => Raise (ValidationError errs)
  end.

(** Construction with every argument given, as [search] does. *)
Definition field_errors (r : SearchResult) : list string :=
  init_errors (total r) (took_ms r) (max_score r) (Some (performance_metrics r)).

Definition SearchResult_new (r : SearchResult) : result SearchResult :=
  SearchResult_init (hits r) (total r) (took_ms r) (max_score r)
    (Some (aggregations r)) (Some (performance_metrics r)).

(** Dictionary access on [Dict[str, Any]] payloads. *)
Definition getitem (d : gmap string PyVal) (k : string) : result PyVal :=
  match d !! k with
  | Some v => Ok v
  | None => Raise (KeyError k)
  end.

(** The items of a dictionary value, read by key. *)
Abbreviation assoc := item (only parsing).

(** [v[k]] and [v.get(k, dflt)] on a value expected to be a dictionary. *)
Definition py_getitem (v : PyVal) (k : string) : result PyVal :=
  match v with
  | VDict d =>
      match assoc d k with
      | Some x => Ok x
      | None => Raise (KeyError k)
      end
  | _ => Raise (TypeError "object is not subscriptable")
  end.

Definition py_get (v : PyVal) (k : string) (dflt : PyVal) : result PyVal :=
  match v with
  | VDict d => Ok (default dflt (assoc d k))
  | _ => Raise (AttributeError "get")
  end.

Definition py_eq_str (v : PyVal) (s : string) : bool :=
  match v with
  | VStr t => String.eqb t s
  | _ => false
  end.

Record DocMetadata : Type := {
  mitre_tactics : PyVal;
  mitre_techniques : PyVal;
  severity : PyVal;
  confidence : PyVal
}.

(** [DetectionDocument]: the indexed fields and the [meta] attributes the
    services set. *)
Record DetectionDocument : Type := {
  meta_id : PyVal;
  meta_version_type : option string;
  meta_version : option Z;
  doc_id : PyVal;
  doc_name : PyVal;
  doc_description : PyVal;
  doc_content : PyVal;
  doc_platform_type : PyVal;
  doc_tags : PyVal;
  doc_quality_score : PyVal;
  doc_created_at : PyVal;
  doc_updated_at : PyVal;
  doc_metadata : DocMetadata
}.

(** [DetectionDocument.from_detection]. *)
Definition from_detection (detection_data : gmap string PyVal) : result DetectionDocument :=
  bind (getitem detection_data "id") (fun mid =>
  bind (getitem detection_data "id") (fun i =>
  bind (getitem detection_data "name") (fun n =>
  bind (getitem detection_data "description") (fun d =>
  let c := default (VStr "") (detection_data !! "content") in
  bind (getitem detection_data "platform_type") (fun p =>
  let t := default (VList []) (detection_data !! "tags") in
  let qs := default (VFloat 0) (detection_data !! "quality_score") in
  bind (getitem detection_data "created_at") (fun ca =>
  bind (getitem detection_data "updated_at") (fun ua =>
  let md := default (VDict []) (detection_data !! "metadata") in
  bind (py_get md "mitre_tactics" (VList [])) (fun mt =>
  bind (py_get md "mitre_techniques" (VList [])) (fun mq =>
  bind (py_get md "severity" (VStr "medium")) (fun sv =>
  bind (py_get md "confidence" (VFloat 0)) (fun cf =>
  Ok {| meta_id := mid; meta_version_type := None; meta_version := None;
        doc_id := i; doc_name := n; doc_description := d; doc_content := c;
        doc_platform_type := p; doc_tags := t; doc_quality_score := qs;
        doc_created_at := ca; doc_updated_at := ua;
        doc_metadata := {| mitre_tactics := mt; mitre_techniques := mq;
                           severity := sv; confidence := cf |} |}))))))))))).

Definition set_meta_version (doc : DetectionDocument) (vt : string) (v : Z) : DetectionDocument :=
  {| meta_id := meta_id doc; meta_version_type := Some vt; meta_version := Some v;
     doc_id := doc_id doc; doc_name := doc_name doc;
     doc_description := doc_description doc; doc_content := doc_content doc;
     doc_platform_type := doc_platform_type doc; doc_tags := doc_tags doc;
     doc_quality_score := doc_quality_score doc;
     doc_created_at := doc_created_at doc; doc_updated_at := doc_updated_at doc;
     doc_metadata := doc_metadata doc |}.

(** [to_search_hit]: the class [DetectionDocument] defines no such
    method, nor does it inherit one, so that the call [search] makes on a
    document raises [AttributeError]. *)
Definition to_search_hit (doc : DetectionDocument) : result SearchHit :=
  Raise (AttributeError "to_search_hit").

End search_model.

(* ===================================================================== *)
(** ** The Elasticsearch client, as the services see it *)
(* ===================================================================== *)

Module elasticsearch_client.
Import py search_model.

(** The requests a service sends to the cluster. *)
Inductive BackendCall : Type :=
| ClientInit
| ClusterHealth (index : option string)
| IndexExists (index : string)
| IndexCreate (index : string)
| ClientSearch (index : string)
| IndicesRefresh (index : string)
| IndicesStats (index : string)
| DocSave (doc : DetectionDocument) (index : string).

(** What the cluster answers to each kind of request during one
    operation: a response or a raised exception. *)
Record Backend : Type := {
  client_init : result unit;
  cluster_health : option string -> result PyVal;
  index_exists : result bool;
  index_create : result unit;
  client_search : result unit;
  indices_refresh : result unit;
  indices_stats : result PyVal;
  doc_save : result unit
}.

Definition is_write (c : BackendCall) : bool :=
  match c with
  | IndexCreate _ | IndicesRefresh _ | DocSave _ _ => true
  | _ => false
  end.

Definition is_health_check (c : BackendCall) : bool :=
  match c with
  | ClusterHealth _ => true
  | _ => false
  end.

End elasticsearch_client.

Notation "'let*' x ':=' c 'in' k" := (py.ebind c (fun x => k))
  (at level 10, x name, c at level 100, k at level 200) : eff_scope.
Notation "c ';;' k" := (py.ebind c (fun _ => k))
  (at level 100, k at level 200, right associativity) : eff_scope.

(* ===================================================================== *)
(** ** config/elasticsearch.py *)
(* ===================================================================== *)

Module elasticsearch_config.
Import py search_model elasticsearch_client.

Definition DEFAULT_INDEX_NAME : string := "detections".

Section WithCluster.
Variable index_name : string.
Variable backend : Backend.

(** A request is logged and answered by the cluster. *)
Definition request {A : Type} (c : BackendCall) (answer : result A) : Eff (list BackendCall) A :=
  fun log => (answer, log ++ [c]).

(** [ElasticsearchSettings.validate_connection]. *)
Definition validate_connection : Eff (list BackendCall) bool :=
  (try_except
    (request ClientInit (client_init backend) ;;
     let* health := request (ClusterHealth None) (cluster_health backend None) in
     let* status := lift (py_getitem health "status") in
     if py_eq_str status "red" then ret false
     else
       let* present := request (IndexExists index_name) (index_exists backend) in
       (if negb present
        then request (IndexCreate index_name) (index_create backend)
        else ret tt) ;;
       request (ClientSearch index_name) (client_search backend) ;;
       ret true)
    (fun _ => ret false))%eff.

End WithCluster.

Definition DEFAULT_SHARDS : Z := 3.
Definition DEFAULT_REPLICAS : Z := 2.
Definition DEFAULT_TIMEOUT_SECONDS : Z := 30.
Definition DEFAULT_RETRY_ON_TIMEOUT : bool := true.
Definition DEFAULT_MAX_RETRIES : Z := 3.
Definition DEFAULT_REFRESH_INTERVAL : string := "1s".

(** [ElasticsearchSettings]. *)
Record ElasticsearchSettings : Type := {
  hosts : string;
  index_name : string;
  number_of_shards : Z;
  number_of_replicas : Z;
  username : option string;
  password : option string;
  use_ssl : bool;
  timeout_seconds : Z;
  max_retries : Z;
  retry_on_timeout : bool;
  refresh_interval : string;
  ssl_config : gmap string PyVal;
  connection_pool_config : gmap string PyVal;
  monitoring_config : gmap string PyVal
}.

(** [validate_hosts]. *)
Definition validate_hosts (v : string) : result string :=
  if negb (truthy_str v)
  then Raise (ValueError "Elasticsearch hosts configuration is required")
  else Ok v.

(** The values a client configuration holds. *)
Inductive ConfigVal : Type :=
| CHosts (l : list string)
| CInt (z : Z)
| CBool (b : bool)
| CStr (s : string)
| CAuth (user pass : string)
| CDict (d : gmap string PyVal).

Definition truthy_opt_str (v : option string) : bool :=
  match v with
  | Some s => truthy_str s
  | None => false
  end.

(** [d.update(other)]: the entries of [other] replace those of [d]. *)
Definition update {V : Type} (d other : gmap string V) : gmap string V := other ∪ d.

(** [get_client_config]. *)
Definition get_client_config (self : ElasticsearchSettings) : gmap string ConfigVal :=
  let config : gmap string ConfigVal :=
    <[ "max_retries" := CInt (max_retries self) ]>
    (<[ "retry_on_timeout" := CBool (retry_on_timeout self) ]>
    (<[ "timeout" := CInt (timeout_seconds self) ]>
    (<[ "hosts" := CHosts (split_on "," (hosts self)) ]> ∅))) in
  let config :=
    if truthy_opt_str (username self) && truthy_opt_str (password self)
    then update config
           (<[ "basic_auth" := CAuth (default "" (username self))
                                     (default "" (password self)) ]> ∅)
    else config in
  let config :=
    if use_ssl self
    then
      let ssl : gmap string PyVal :=
        <[ "use_ssl" := VBool true ]> (<[ "verify_certs" := VBool true ]> ∅) in
      let ssl := update ssl (ssl_config self) in
      update config (<[ "ssl" := CDict ssl ]> ∅)
    else config in
  let config :=
    if negb (bool_decide (connection_pool_config self = ∅))
    then update config
           (<[ "pool_options" := CDict (connection_pool_config self) ]>
            (<[ "connection_class" := CStr "requests" ]> ∅))
    else config in
  let config :=
    if negb (bool_decide (monitoring_config self = ∅))
    then update config (<[ "apm_config" := CDict (monitoring_config self) ]> ∅)
    else config in
  config.

End elasticsearch_config.

(* ===================================================================== *)
(** ** utils/query_builder.py *)
(* ===================================================================== *)

Module query_builder.
Import py search_model.

Definition DEFAULT_BOOST_NAME : Q := 2.
Definition DEFAULT_BOOST_DESCRIPTION : Q := 3 # 2.
Definition DEFAULT_BOOST_CONTENT : Q := 1.
Definition MIN_SHOULD_MATCH : string := "2".
Definition DEFAULT_FRAGMENT_SIZE : Z := 150.
Definition MAX_FRAGMENTS : Z := 3.
Definition QUERY_TIMEOUT : string := "1s".

(** A boosted field ["name^2.0"] is kept as the field and its boost. *)
Record MultiMatch : Type := {
  mm_query : string;
  mm_fields : list (string * Q);
  mm_type : string;
  minimum_should_match : string;
  operator : string;
  fuzziness : string;
  prefix_length : Z;
  max_expansions : Z;
  tie_breaker : Q
}.

Inductive ScoreFunction : Type :=
| ExpDecay (field scale : string) (decay : Q)
| FieldValueFactor (field : string) (factor : Q) (modifier : string) (missing : Z).

(** [Q('function_score', ...)]. *)
Record FunctionScore : Type := {
  fs_query : MultiMatch;
  functions : list ScoreFunction;
  score_mode : string;
  boost_mode : string
}.

(** The filter clauses: [Terms(_name=.., field=values)] and
    [Range(_name=.., field={'gte': bound})]. *)
Inductive FilterClause : Type :=
| Terms (_name field : string) (values : list string)
| Range (_name field : string) (gte : Q).

(** The [Search] object, as far as the builder configures it. *)
Record Search : Type := {
  timeout : string;
  query : option FunctionScore;
  filter : list FilterClause;
  highlight_options : option PyVal;
  highlight_fields : list string;
  extra : gmap string PyVal;
  source : list string
}.

Definition Search_init (t : string) : Search :=
  {| timeout := t; query := None; filter := []; highlight_options := None;
     highlight_fields := []; extra := ∅; source := [] |}.

Definition Search_query (s : Search) (q : FunctionScore) : Search :=
  {| timeout := timeout s; query := Some q; filter := filter s;
     highlight_options := highlight_options s;
     highlight_fields := highlight_fields s; extra := extra s;
     source := source s |}.

Definition Search_filter (s : Search) (f : list FilterClause) : Search :=
  {| timeout := timeout s; query := query s; filter := filter s ++ f;
     highlight_options := highlight_options s;
     highlight_fields := highlight_fields s; extra := extra s;
     source := source s |}.

Definition Search_highlight_options (s : Search) (o : PyVal) : Search :=
  {| timeout := timeout s; query := query s; filter := filter s;
     highlight_options := Some o;
     highlight_fields := highlight_fields s; extra := extra s;
     source := source s |}.

Definition Search_highlight (s : Search) (fs : list string) : Search :=
  {| timeout := timeout s; query := query s; filter := filter s;
     highlight_options := highlight_options s;
     highlight_fields := highlight_fields s ++ fs; extra := extra s;
     source := source s |}.

(** [search.extra] with keyword arguments updates the extra parameters. *)
Definition Search_extra (s : Search) (kw : list (string * PyVal)) : Search :=
  {| timeout := timeout s; query := query s; filter := filter s;
     highlight_options := highlight_options s;
     highlight_fields := highlight_fields s;
     extra := fold_left (fun m kv => <[ kv.1 := kv.2 ]> m) kw (extra s);
     source := source s |}.

Definition Search_source (s : Search) (fs : list string) : Search :=
  {| timeout := timeout s; query := query s; filter := filter s;
     highlight_options := highlight_options s;
     highlight_fields := highlight_fields s; extra := extra s;
     source := fs |}.

(** [build_text_query]. *)
Definition query_type_of (query_text : string) : string :=
  if Z.of_nat (length (split query_text)) <=? 3
  then "best_fields" else "most_fields".

Definition build_text_query (query_text : string) : FunctionScore :=
  let query_type := query_type_of query_text in
  let fields :=
    [ ("name", DEFAULT_BOOST_NAME);
      ("description", DEFAULT_BOOST_DESCRIPTION);
      ("content", DEFAULT_BOOST_CONTENT);
      ("tags", 1%Q) ] in
  let text_query :=
    {| mm_query := query_text;
       mm_fields := fields;
       mm_type := query_type;
       minimum_should_match := MIN_SHOULD_MATCH;
       operator := "and";
       fuzziness := "AUTO";
       prefix_length := 2;
       max_expansions := 50;
       tie_breaker := 3 # 10 |} in
  {| fs_query := text_query;
     functions :=
       [ ExpDecay "updated_at" "30d" (1 # 2);
         FieldValueFactor "quality_score" (6 # 5) "sqrt" 1 ];
     score_mode := "sum";
     boost_mode := "multiply" |}.

(** [build_filter_context]. *)
Definition build_filter_context
    (platforms : option (list string)) (tags : option (list string))
    (min_quality_score : option Q) : list FilterClause :=
  let filters := [] in
  let filters :=
    if truthy_list platforms
    then filters ++ [Terms "platform_filter" "platform_type" (default [] platforms)]
    else filters in
  let filters :=
    if truthy_list tags
    then filters ++ [Terms "tags_filter" "tags" (default [] tags)]
    else filters in
  let filters :=
    match min_quality_score with
    | Some bound => filters ++ [Range "quality_filter" "quality_score" bound]
    | None => filters
    end in
  filters.

(** [build_highlight_config]. *)
Definition build_highlight_config : PyVal :=
  VDict
    [ ("pre_tags", VList [VStr "<em>"]);
      ("post_tags", VList [VStr "</em>"]);
      ("number_of_fragments", VInt MAX_FRAGMENTS);
      ("fragment_size", VInt DEFAULT_FRAGMENT_SIZE);
      ("order", VStr "score");
      ("type", VStr "unified");
      ("fields",
        VDict
          [ ("name",
              VDict [ ("number_of_fragments", VInt 1);
                      ("fragment_size", VInt 100) ]);
            ("description",
              VDict [ ("number_of_fragments", VInt 2);
                      ("fragment_size", VInt 150) ]);
            ("content",
              VDict
                [ ("number_of_fragments", VInt MAX_FRAGMENTS);
                  ("fragment_size", VInt DEFAULT_FRAGMENT_SIZE);
                  ("highlight_query",
                    VDict
                      [ ("bool",
                          VDict
                            [ ("should",
                                VList
                                  [ VDict [ ("match_phrase",
                                      VDict [ ("content",
                                        VDict [ ("query", VStr "_QUERY_") ]) ]) ];
                                    VDict [ ("match",
                                      VDict [ ("content",
                                        VDict [ ("query", VStr "_QUERY_");
                                                ("fuzziness", VStr "AUTO") ]) ]) ]
                                  ]) ]) ]) ]) ]) ].

(** Integer arithmetic on attribute values. *)
Definition py_sub (a b : PyVal) : result PyVal :=
  match a, b with
  | VInt x, VInt y => Ok (VInt (x - y))
  | _, _ => Raise (TypeError "unsupported operand type(s) for -")
  end.

Definition py_mul (a b : PyVal) : result PyVal :=
  match a, b with
  | VInt x, VInt y => Ok (VInt (x * y))
  | _, _ => Raise (TypeError "unsupported operand type(s) for *")
  end.

(** [build_search_query].  The pagination step reads the attributes
    [page_number] and [page_size] of the query it is given. *)
Definition build_search_query (search_params : SearchQuery) : result Search :=
  let search := Search_init QUERY_TIMEOUT in
  let text_query := build_text_query (query_text search_params) in
  let search := Search_query search text_query in
  let search :=
    if any [ truthy_list (platforms search_params);
             truthy_list (tags search_params);
             truthy_float (min_quality_score search_params) ]
    then Search_filter search
           (build_filter_context (platforms search_params)
              (tags search_params) (min_quality_score search_params))
    else search in
  let search := Search_highlight_options search build_highlight_config in
  let search := Search_highlight search ["name^2"; "description^1.5"; "content"] in
  bind (SearchQuery_getattr search_params "page_number") (fun page_number =>
  bind (py_sub page_number (VInt 1)) (fun pages_before =>
  bind (SearchQuery_getattr search_params "page_size") (fun page_size =>
  bind (py_mul pages_before page_size) (fun offset =>
  bind (SearchQuery_getattr search_params "page_size") (fun page_size' =>
  let search := Search_extra search [("from_", offset); ("size", page_size')] in
  let search := Search_extra search [("profile", VBool true)] in
  let search :=
    Search_source search
      [ "id"; "name"; "description"; "platform_type";
        "quality_score"; "created_at"; "updated_at"; "tags" ] in
  Ok search))))).

End query_builder.

(* ===================================================================== *)
(** ** services/search_service.py *)
(* ===================================================================== *)

Module search_service.
Import py search_model elasticsearch_client.

Definition DEFAULT_PAGE_SIZE : Z := 20.
Definition MAX_PAGE_SIZE : Z := 100.
Definition MAX_RETRIES : Z := 3.
Definition CACHE_TTL : Z := 300.

(** A cache entry: [{'result': ..., 'timestamp': ...}]. *)
Record CacheEntry : Type := {
  cached_result : SearchResult;
  cached_timestamp : datetime
}.

(** The service instance: its cache, and the requests it has sent. *)
Record Service : Type := {
  _cache : gmap string CacheEntry;
  requests : list BackendCall
}.

Definition request {A : Type} (c : BackendCall) (answer : result A) : Eff Service A :=
  fun s => (answer, {| _cache := _cache s; requests := requests s ++ [c] |}).

(** The [error_handler] decorator. *)
Definition handle_error (e : PyExn) : PyExn :=
  match e with
  | ConnectionTimeout => SearchServiceError "Search request timed out"
  | RequestError => SearchServiceError "Invalid search request"
  | _ => SearchServiceError "Internal search service error"
  end.

Definition error_handler {W A : Type} (func : Eff W A) : Eff W A :=
  try_except func (fun e => raise (handle_error e)).

(** [_get_from_cache], [_add_to_cache] and [_clear_related_caches]; [now]
    is the value [datetime.now()] returns. *)
Definition _get_from_cache (cache : gmap string CacheEntry) (now : datetime)
    (key : string) : option SearchResult :=
  match cache !! key with
  | Some cached =>
      if td_seconds (now - cached_timestamp cached) <? CACHE_TTL
      then Some (cached_result cached)
      else None
  | None => None
  end.

Definition _add_to_cache (cache : gmap string CacheEntry) (now : datetime)
    (key : string) (r : SearchResult) : gmap string CacheEntry :=
  <[ key := {| cached_result := r; cached_timestamp := now |} ]> cache.

Definition _clear_related_caches (detection_data : gmap string PyVal) : Eff Service unit :=
  fun s => (Ok tt, {| _cache := ∅; requests := requests s |}).

(** The response of the cluster to a search: hits with their [meta]
    score and optional highlights, counters, and the shard telemetry,
    whose attributes may be missing. *)
Record Hit : Type := {
  hit_dict : gmap string PyVal;
  meta_score : Q;
  meta_highlight : option (gmap string (list string))
}.

Record Response : Type := {
  resp_hits : list Hit;
  hits_total_value : Z;
  took : Z;
  hits_max_score : option Q;
  resp_aggregations : option (gmap string PyVal);
  _shards : option (gmap string PyVal)
}.

(** Attribute access on the telemetry object. *)
Definition shards_attr (r : Response) (name : string) : result PyVal :=
  match _shards r with
  | None => Raise (AttributeError "_shards")
  | Some sh =>
      match sh !! name with
      | Some v => Ok v
      | None => Raise (AttributeError name)
      end
  end.

(** [x or 0.0] on an optional float. *)
Definition or_zero (v : option Q) : Q :=
  if truthy_float v then default 0%Q v else 0%Q.

Section WithCluster.
Variable index_name : string.
Variable backend : Backend.
(** What [to_search_hit] does with a document: a parameter of this
    section, whose definitions are those of [search] from the response on,
    for whatever the method does. *)
Variable to_search_hit : DetectionDocument -> result SearchHit.

(** [search], the loop that turns the hits of the response into
    [SearchHit]s. *)
Fixpoint process_hits (hs : list Hit) : result (list SearchHit) :=
  match hs with
  | [] => Ok []
  | hit :: rest =>
      bind (from_detection (hit_dict hit)) (fun doc =>
      bind (to_search_hit doc) (fun search_hit =>
      let search_hit := set_score search_hit (meta_score hit) in
      let search_hit := set_highlights search_hit (default ∅ (meta_highlight hit)) in
      bind (process_hits rest) (fun tl => Ok (search_hit :: tl))))
  end.

(** [search], the construction of the result with its metrics. *)
Definition build_result (response : Response) (hs : list SearchHit) : result SearchResult :=
  bind (shards_attr response "total") (fun total_shards =>
  bind (shards_attr response "successful") (fun successful_shards =>
  SearchResult_new
    {| hits := hs;
       total := hits_total_value response;
       took_ms := took response;
       max_score := or_zero (hits_max_score response);
       aggregations := default ∅ (resp_aggregations response);
       performance_metrics :=
         <[ "successful_shards" := successful_shards ]>
         (<[ "total_shards" := total_shards ]>
         (<[ "query_time_ms" := VInt (took response) ]> ∅)) |})).

(** [search] from the response on: the hits are processed, the result is
    built and stored in the cache. *)
Definition assemble (now : datetime) (cache_key : string)
    (response : Response) : Eff Service SearchResult :=
  (let* hs := lift (process_hits (resp_hits response)) in
   let* r := lift (build_result response hs) in
   fun s =>
     (Ok r, {| _cache := _add_to_cache (_cache s) now cache_key r;
               requests := requests s |}))%eff.

(** The same under [error_handler]. *)
Definition search_from_response (now : datetime) (cache_key : string)
    (response : Response) : Eff Service SearchResult :=
  error_handler (assemble now cache_key response).

(** [refresh_index]. *)
Definition refresh_index : Eff Service bool :=
  error_handler
    (try_except
      (let* health := request (ClusterHealth (Some index_name))
                         (cluster_health backend (Some index_name)) in
       let* status := lift (py_getitem health "status") in
       if py_eq_str status "red" then ret false
       else
         request (IndicesRefresh index_name) (indices_refresh backend) ;;
         let* stats := request (IndicesStats index_name) (indices_stats backend) in
         let* all := lift (py_getitem stats "_all") in
         let* tot := lift (py_getitem all "total") in
         let* docs := lift (py_getitem tot "docs") in
         let* count := lift (py_getitem docs "count") in
         ret true)
      (fun _ => ret false))%eff.

(** [index_detection]. *)
Definition index_detection (now : datetime) (detection_data : gmap string PyVal)
    : Eff Service bool :=
  error_handler
    (try_except
      (let* doc := lift (from_detection detection_data) in
       let doc := set_meta_version doc "external" (timestamp_int now) in
       request (DocSave doc index_name) (doc_save backend) ;;
       _clear_related_caches detection_data ;;
       ret true)
      (fun _ => ret false))%eff.

End WithCluster.

Section Search.
Variable index_name : string.
(** [_generate_cache_key] names the entry of a query after the hash of its
    fields, which differs from one process to the next: a parameter. *)
Variable _generate_cache_key : SearchQuery -> string.
(** What the cluster answers to the search it is sent. *)
Variable execute : query_builder.Search -> result Response.

(** [search]; [now] is the time read by the cache lookup and [stored] the
    time read when the result is added to the cache. *)
Definition search (now stored : datetime) (query : SearchQuery)
    : Eff Service SearchResult :=
  error_handler
    (fun s =>
       let cache_key := _generate_cache_key query in
       match _get_from_cache (_cache s) now cache_key with
       | Some cached_result => (Ok cached_result, s)
       | None =>
           (let* search := lift (query_builder.build_search_query query) in
            let* response := request (ClientSearch index_name) (execute search) in
            assemble to_search_hit stored cache_key response)%eff s
       end).

End Search.

(** The completion request [get_suggestions] sends: the [suggest] body
    with its prefix and completion options, for an index, without source. *)
Record SuggestRequest : Type := {
  sg_index : string;
  sg_prefix : string;
  sg_field : string;
  sg_size : Z;
  sg_skip_duplicates : bool;
  sg_fuzziness : string;
  sg_min_length : Z;
  sg_source : bool
}.

(** [v[0]] on a list. *)
Definition py_first (v : PyVal) : result PyVal :=
  match v with
  | VList (x :: _) => Ok x
  | VList [] => Raise IndexError
  | VDict d =>
      Raise (KeyError "0")
  | _ => Raise (TypeError "object is not subscriptable")
  end.

(** [for x in v]: the elements of a list, the keys of a dictionary, the
    characters of a string; other values are not iterable. *)
Definition py_iter (v : PyVal) : result (list PyVal) :=
  match v with
  | VList l => Ok l
  | VDict d => Ok (map VStr (remove_dups (map fst d)))
  | VStr s => Ok (map (fun c => VStr (String c EmptyString)) (chars s))
  | _ => Raise (TypeError "object is not iterable")
  end.

(** [min(limit, 20)] for an optional limit: [None] cannot be compared. *)
Definition min_limit (limit : option Z) : result Z :=
  match limit with
  | Some n => Ok (py_min_int n 20)
  | None => Raise (TypeError "'<' not supported between 'int' and 'NoneType'")
  end.

Fixpoint suggestion_texts (options : list PyVal) : result (list PyVal) :=
  match options with
  | [] => Ok []
  | suggestion :: rest =>
      bind (py_getitem suggestion "text") (fun t =>
      bind (suggestion_texts rest) (fun ts => Ok (t :: ts)))
  end.

Section Suggestions.
Variable index_name : string.
(** What the cluster answers to a completion request. *)
Variable suggest_backend : SuggestRequest -> result PyVal.

(** [get_suggestions]; the world is the list of completion requests
    sent so far. *)
Definition get_suggestions (prefix : string) (limit : option Z)
    : Eff (list SuggestRequest) (list PyVal) :=
  error_handler
    (if negb (truthy_str prefix) || (Z.of_nat (String.length prefix) <? 2)
     then ret []
     else
       let* size := lift (min_limit limit) in
       let suggest_query :=
         {| sg_index := index_name; sg_prefix := prefix;
            sg_field := "name.suggest"; sg_size := size;
            sg_skip_duplicates := true; sg_fuzziness := "AUTO";
            sg_min_length := 3; sg_source := false |} in
       let* response :=
         (fun sent => (suggest_backend suggest_query, sent ++ [suggest_query])) in
       let* suggest := lift (py_getitem response "suggest") in
       let* suggestions := lift (py_getitem suggest "suggestions") in
       let* first := lift (py_first suggestions) in
       let* options := lift (bind (py_getitem first "options") py_iter) in
       lift (suggestion_texts options))%eff.

End Suggestions.
End search_service.

(* ===================================================================== *)
(** ** services/openai_service.py *)
(* ===================================================================== *)

Module openai_service.
Import py search_model.

(** [CircuitBreaker]: its two class attributes and its two fields. *)
Definition failure_threshold : Z := 5.
Definition reset_timeout : Q := 60.

Record CircuitBreaker : Type := {
  _failures : Z;
  _last_failure_time : Q
}.

Definition CircuitBreaker_init : CircuitBreaker :=
  {| _failures := 0; _last_failure_time := 0 |}.

(** The [is_open] property, read at time [now]: it answers and, past the
    reset timeout, clears the failure count. *)
Definition is_open (cb : CircuitBreaker) (now : Q) : bool * CircuitBreaker :=
  if Qlt_bool reset_timeout (now - _last_failure_time cb)
  then (false, {| _failures := 0; _last_failure_time := _last_failure_time cb |})
  else (failure_threshold <=? _failures cb, cb).

Definition record_failure (cb : CircuitBreaker) (now : Q) : CircuitBreaker :=
  {| _failures := _failures cb + 1; _last_failure_time := now |}.

(** The service and its surroundings: the breaker of the instance, the
    clock [time.time()] reads, the number of calls that reached the model,
    and the pauses taken between attempts. *)
Record World : Type := {
  _circuit_breaker : CircuitBreaker;
  clock : Q;
  backend_calls : nat;
  sleeps : list Q
}.

Definition set_breaker (w : World) (cb : CircuitBreaker) : World :=
  {| _circuit_breaker := cb; clock := clock w;
     backend_calls := backend_calls w; sleeps := sleeps w |}.

(** Time passing, outside a call or in a pause between attempts. *)
Definition advance (d : Q) (w : World) : World :=
  {| _circuit_breaker := _circuit_breaker w; clock := (clock w + d)%Q;
     backend_calls := backend_calls w; sleeps := sleeps w |}.

Definition sleep (d : Q) (w : World) : World :=
  {| _circuit_breaker := _circuit_breaker w; clock := (clock w + d)%Q;
     backend_calls := backend_calls w; sleeps := sleeps w ++ [d] |}.

Definition unavailable : PyExn := Exception_ "Service temporarily unavailable".

(** The [circuit_breaker] decorator around [func]. *)
Definition circuit_breaker {A : Type} (func : Eff World A) : Eff World A :=
  fun w =>
    let '(open, cb) := is_open (_circuit_breaker w) (clock w) in
    let w := set_breaker w cb in
    if open then (Raise unavailable, w)
    else
      match func w with
      | (Ok a, w') => (Ok a, w')
      | (Raise e, w') =>
          (Raise e, set_breaker w' (record_failure (_circuit_breaker w') (clock w')))
      end.

(** The [retry] decorator of tenacity, with the stop and wait policies it
    is given; no retry condition is given, and the default one retries on
    every exception. *)
Definition stop_after_attempt (max_attempt_number : nat) (attempt_number : nat) : bool :=
  (max_attempt_number <=? attempt_number)%nat.

Definition wait_exponential (multiplier min_ max_ : Q) (attempt_number : nat) : Q :=
  py_max (py_max 0 min_)
         (py_min (multiplier * 2 ^ Z.of_nat (attempt_number - 1))%Q max_).

Definition retry_if_exception_type (e : PyExn) : bool := true.

Record RetryReport : Type := {
  attempts : nat;
  waits : list Q
}.

Section Retrying.
Context {A : Type}.
Variable stop : nat -> bool.
Variable wait : nat -> Q.
Variable fn : Eff World A.

Fixpoint retrying (fuel attempt_number : nat) (w : World)
    : option (result A * RetryReport * World) :=
  match fuel with
  | O => None
  | S fuel' =>
      match fn w with
      | (Ok a, w1) => Some (Ok a, {| attempts := attempt_number; waits := [] |}, w1)
      | (Raise e, w1) =>
          if negb (retry_if_exception_type e)
          then Some (Raise e, {| attempts := attempt_number; waits := [] |}, w1)
          else if stop attempt_number
          then Some (Raise (RetryError e),
                     {| attempts := attempt_number; waits := [] |}, w1)
          else
            let d := wait attempt_number in
            match retrying fuel' (S attempt_number) (sleep d w1) with
            | Some (r, rep, w2) =>
                Some (r, {| attempts := attempts rep; waits := d :: waits rep |}, w2)
            | None => None
            end
      end
  end.

End Retrying.

(** [@retry(stop=stop_after_attempt(3),
            wait=wait_exponential(multiplier=1, min=4, max=10))]. *)
Definition retry {A : Type} (fn : Eff World A) (w : World)
    : option (result A * RetryReport * World) :=
  retrying (stop_after_attempt 3) (wait_exponential 1 4 10) fn 3 1 w.

(** Calling an [async def] function runs none of its body: the call
    returns a coroutine, and the body runs when the coroutine is awaited. *)
Definition Coroutine (A : Type) : Type := Eff World A.

Definition async_def {A : Type} (body : Eff World A) : Eff World (Coroutine A) :=
  ret body.

(** [await method(...)] on a decorated method: the decorated call is made
    first; when it returns, what it returned is awaited. *)
Definition awaited {A : Type}
    (call : World -> option (result (Coroutine A) * RetryReport * World))
    (w : World) : option (result A * RetryReport * World) :=
  match call w with
  | Some (Ok coroutine, report, w') =>
      let '(r, w'') := coroutine w' in Some (r, report, w'')
  | Some (Raise e, report, w') => Some (Raise e, report, w')
  | None => None
  end.

(** [await v] on a value that is no awaitable. *)
Definition not_awaitable (v : PyVal) : PyExn :=
  TypeError ("object " +:+ type_name v +:+ " can't be used in 'await' expression").

Definition await_value (v : PyVal) : Eff World PyVal := raise (not_awaitable v).

(** An answer of the detection model, and the time it takes to come. *)
Record ModelAnswer : Type := {
  answer : result PyVal;
  duration : Q
}.

Section Service.
(** [self._model_config['platform_settings']]. *)
Variable platform_settings : gmap string PyVal.
(** What the model answers to its n-th call. *)
Variable model : nat -> ModelAnswer.

(** A call of a method of [self._model].  The methods of [DetectionModel]
    are plain functions: the call runs the model and gives its answer. *)
Definition model_call : Eff World PyVal :=
  fun w =>
    let a := model (backend_calls w) in
    (answer a,
     {| _circuit_breaker := _circuit_breaker w;
        clock := (clock w + duration a)%Q;
        backend_calls := S (backend_calls w);
        sleeps := sleeps w |}).

Definition or_default (v : option PyVal) (dflt : result PyVal) : result PyVal :=
  match v with
  | Some x => if truthy x then Ok x else dflt
  | None => dflt
  end.

(** The body of [generate_detection_content]. *)
Definition generate_detection_content_body (description platform_type : string)
    (metadata : PyVal) (quality_thresholds : option PyVal) : Eff World PyVal :=
  (if negb (truthy_str description) || negb (truthy_str platform_type)
   then raise (ValueError "Missing required parameters")
   else
     let platform_config := default VNone (platform_settings !! platform_type) in
     if negb (truthy platform_config)
     then raise (ValueError "Unsupported platform type")
     else
       let* quality_thresholds :=
         lift (or_default quality_thresholds
                 (bind (py_getitem platform_config "accuracy_threshold") (fun a =>
                  bind (py_getitem platform_config "false_positive_threshold") (fun f =>
                  Ok (VDict [("accuracy", a); ("false_positive_rate", f)]))))) in
       let* generation_result := (let* plain := model_call in await_value plain) in
       let* metrics := lift (py_getitem generation_result "quality_metrics") in
       let* accuracy := lift (py_getitem metrics "accuracy") in
       let* threshold := lift (py_getitem quality_thresholds "accuracy") in
       let* below := lift (py_lt accuracy threshold) in
       if below
       then raise (ValueError "Generated content failed quality threshold")
       else ret generation_result)%eff.

(** The body of [optimize_detection_content]. *)
Definition optimize_detection_content_body (content platform_type : string)
    (performance_metrics : PyVal) (optimization_rules : option PyVal) : Eff World PyVal :=
  (if negb (truthy_str content) || negb (truthy_str platform_type)
      || negb (truthy performance_metrics)
   then raise (ValueError "Missing required parameters")
   else
     let platform_config := default VNone (platform_settings !! platform_type) in
     if negb (truthy platform_config)
     then raise (ValueError "Unsupported platform type")
     else
       let* optimization_rules :=
         lift (or_default optimization_rules
                 (bind (py_getitem platform_config "performance_impact_threshold") (fun t =>
                  Ok (VDict [("performance_impact_threshold", t);
                             ("optimization_target", VStr "latency")])))) in
       let* optimization_result := (let* plain := model_call in await_value plain) in
       let* improvement := lift (py_getitem optimization_result "improvement") in
       ret optimization_result)%eff.

(** The body of [validate_detection_content]. *)
Definition validate_detection_content_body (content platform_type : string)
    (validation_rules : option PyVal) : Eff World PyVal :=
  (if negb (truthy_str content) || negb (truthy_str platform_type)
   then raise (ValueError "Missing required parameters")
   else
     let platform_config := default VNone (platform_settings !! platform_type) in
     if negb (truthy platform_config)
     then raise (ValueError "Unsupported platform type")
     else
       let* validation_rules :=
         lift (or_default validation_rules
                 (py_getitem platform_config "validation_rules")) in
       let* validation_result := (let* plain := model_call in await_value plain) in
       let* is_valid := lift (py_getitem validation_result "is_valid") in
       ret validation_result)%eff.

(** The three decorated methods: [retry] is applied to the wrapper
    [circuit_breaker] returns, a plain function around the [async def]
    method.  What a call returns is the coroutine of the body. *)
Definition generate_detection_content (description platform_type : string)
    (metadata : PyVal) (quality_thresholds : option PyVal) (w : World)
    : option (result (Coroutine PyVal) * RetryReport * World) :=
  retry (circuit_breaker
           (async_def (generate_detection_content_body description platform_type
                         metadata quality_thresholds))) w.

Definition validate_detection_content (content platform_type : string)
    (validation_rules : option PyVal) (w : World)
    : option (result (Coroutine PyVal) * RetryReport * World) :=
  retry (circuit_breaker
           (async_def (validate_detection_content_body content platform_type
                         validation_rules))) w.

Definition optimize_detection_content (content platform_type : string)
    (performance_metrics : PyVal) (optimization_rules : option PyVal) (w : World)
    : option (result (Coroutine PyVal) * RetryReport * World) :=
  retry (circuit_breaker
           (async_def (optimize_detection_content_body content platform_type
                         performance_metrics optimization_rules))) w.

End Service.
End openai_service.

(* ===================================================================== *)
(** ** utils/model_utils.py *)
(* ===================================================================== *)

Module model_utils.
Import py search_model.

Definition MIN_ACCURACY_THRESHOLD : Q := 99 # 100.
Definition MAX_FALSE_POSITIVE_RATE : Q := 5 # 100.
Definition PERFORMANCE_IMPACT_LEVELS : list string := ["low"; "medium"; "high"].

(** [_clean_text]. *)
Definition _clean_text (content : string) : string :=
  let content := strip content in
  let content := join " " (split content) in
  content.

(** [_validate_preprocessing_quality]. *)
Definition _validate_preprocessing_quality (processed_content : string)
    (quality_metrics : gmap string PyVal) : result unit :=
  if negb (truthy_str processed_content)
  then Raise (ValueError "Preprocessing resulted in empty content")
  else
    bind (py_gt (VInt (Z.of_nat (String.length processed_content)))
                (default (VInt 100000) (quality_metrics !! "max_content_length")))
      (fun above =>
         if above
         then Raise (ValueError "Processed content exceeds maximum length")
         else Ok tt).

(** [ModelMetrics]: the trends hold a value and the time it was recorded,
    the history the metrics given at each update. *)
Record ModelMetrics : Type := {
  platform_type : string;
  quality_thresholds : gmap string PyVal;
  accuracy_score : PyVal;
  false_positive_rate : PyVal;
  performance_impact : PyVal;
  platform_metrics : gmap string PyVal;
  accuracy_trend : list (PyVal * datetime);
  false_positive_trend : list (PyVal * datetime);
  performance_impact_history : list PyVal;
  last_updated : datetime;
  historical_metrics : list (datetime * gmap string PyVal)
}.

(** [l[-n:]]: the last [n] elements, all of them when there are fewer. *)
Definition last_n {A : Type} (n : nat) (l : list A) : list A :=
  skipn (length l - n) l.

(** [validate_thresholds]. *)
Definition validate_thresholds (quality_thresholds : gmap string PyVal) : result unit :=
  bind (getitem quality_thresholds "accuracy_threshold") (fun a =>
  bind (py_lt a (VFloat MIN_ACCURACY_THRESHOLD)) (fun below =>
  if below
  then Raise (ValueError "Accuracy threshold must be >= 0.99")
  else
    bind (getitem quality_thresholds "false_positive_threshold") (fun f =>
    bind (py_gt f (VFloat MAX_FALSE_POSITIVE_RATE)) (fun above =>
    if above
    then Raise (ValueError "False positive rate must be <= 0.05")
    else Ok tt)))).

(** Construction: the fields at their defaults, [__post_init__] checking
    the thresholds and starting the trends at time [now]. *)
Definition ModelMetrics_new (platform : string) (thresholds : gmap string PyVal)
    (now : datetime) : result ModelMetrics :=
  bind (validate_thresholds thresholds) (fun _ =>
  Ok {| platform_type := platform; quality_thresholds := thresholds;
        accuracy_score := VFloat 0; false_positive_rate := VFloat 0;
        performance_impact := VStr "low"; platform_metrics := ∅;
        accuracy_trend := []; false_positive_trend := [];
        performance_impact_history := []; last_updated := now;
        historical_metrics := [] |}).

(** The summary [get_metrics_summary] returns. *)
Record MetricsSummary : Type := {
  current_accuracy_score : PyVal;
  current_false_positive_rate : PyVal;
  current_performance_impact : PyVal;
  summary_accuracy_trend : list (PyVal * datetime);
  summary_false_positive_trend : list (PyVal * datetime);
  platform_specific : gmap string PyVal;
  historical_data : list (datetime * gmap string PyVal)
}.

Definition get_metrics_summary (self : ModelMetrics) : MetricsSummary :=
  {| current_accuracy_score := accuracy_score self;
     current_false_positive_rate := false_positive_rate self;
     current_performance_impact := performance_impact self;
     summary_accuracy_trend := accuracy_trend self;
     summary_false_positive_trend := false_positive_trend self;
     platform_specific := platform_metrics self;
     historical_data := last_n 10 (historical_metrics self) |}.

(** The threshold checks of [update_metrics]; the message of each error
    reads the offending value from [new_metrics] by its key. *)
Definition check_new_metrics (new_metrics : gmap string PyVal) : result unit :=
  bind (py_lt (default (VInt 0) (new_metrics !! "accuracy_score"))
              (VFloat MIN_ACCURACY_THRESHOLD)) (fun below =>
  if below
  then bind (getitem new_metrics "accuracy_score") (fun _ =>
       Raise (ValueError "Accuracy score below threshold"))
  else
    bind (py_gt (default (VInt 1) (new_metrics !! "false_positive_rate"))
                (VFloat MAX_FALSE_POSITIVE_RATE)) (fun above =>
    if above
    then bind (getitem new_metrics "false_positive_rate") (fun _ =>
         Raise (ValueError "False positive rate above threshold"))
    else Ok tt)).

(** [update_metrics]; [t1], [t2] and [t3] are the times read for the two
    trend entries and the history entry. *)
Definition update_metrics (new_metrics : gmap string PyVal) (validate : bool)
    (t1 t2 t3 : datetime) : Eff ModelMetrics MetricsSummary :=
  (lift (if validate then check_new_metrics new_metrics else Ok tt) ;;
   fun self =>
     let acc := default (accuracy_score self) (new_metrics !! "accuracy_score") in
     let fpr := default (false_positive_rate self) (new_metrics !! "false_positive_rate") in
     let imp := default (performance_impact self) (new_metrics !! "performance_impact") in
     let self' :=
       {| platform_type := platform_type self;
          quality_thresholds := quality_thresholds self;
          accuracy_score := acc; false_positive_rate := fpr;
          performance_impact := imp;
          platform_metrics := platform_metrics self;
          accuracy_trend := accuracy_trend self ++ [(acc, t1)];
          false_positive_trend := false_positive_trend self ++ [(fpr, t2)];
          performance_impact_history := performance_impact_history self;
          last_updated := last_updated self;
          historical_metrics := historical_metrics self ++ [(t3, new_metrics)] |} in
     (Ok (get_metrics_summary self'), self'))%eff.

Section WithPlatforms.
(** [AI_SERVICE_CONFIG["platform_settings"]]. *)
Variable platform_settings : gmap string PyVal.

(** [_validate_model_config]. *)
Definition _validate_model_config (model_config : gmap string PyVal)
    (platform : string) : result unit :=
  if negb (forallb (fun key => bool_decide (is_Some (model_config !! key)))
             ["base_model"; "detection_head"; "translation_model"])
  then Raise (ValueError "Missing required model configuration components")
  else if negb (truthy (default VNone (platform_settings !! platform)))
  then Raise (ValueError "Invalid platform type")
  else Ok tt.

(** The parameters [_get_optimized_parameters] returns. *)
Record OptimizedParameters : Type := {
  base_model : PyVal;
  temperature : PyVal;
  max_tokens : PyVal;
  accuracy_threshold : PyVal;
  false_positive_threshold : PyVal
}.

(** [v.copy()]: dictionaries and lists have the method. *)
Definition py_copy (v : PyVal) : result PyVal :=
  match v with
  | VDict _ | VList _ => Ok v
  | _ => Raise (AttributeError "copy")
  end.

(** [_get_optimized_parameters]. *)
Definition _get_optimized_parameters (model_config : gmap string PyVal)
    (platform : string) : result OptimizedParameters :=
  bind (bind (getitem model_config "base_model") py_copy) (fun base_params =>
  bind (getitem platform_settings platform) (fun platform_params =>
  bind (py_get base_params "temperature" (VFloat (7 # 10))) (fun t =>
  bind (py_min_val t (VFloat (8 # 10))) (fun temperature =>
  bind (py_get base_params "max_tokens" (VInt 2048)) (fun m =>
  bind (py_min_val m (VInt 4096)) (fun max_tokens =>
  bind (py_getitem platform_params "accuracy_threshold") (fun a =>
  bind (py_getitem platform_params "false_positive_threshold") (fun f =>
  Ok {| base_model := base_params;
        temperature := temperature;
        max_tokens := max_tokens;
        accuracy_threshold := a;
        false_positive_threshold := f |})))))))).

End WithPlatforms.
End model_utils.

(* ===================================================================== *)
(** ** Sample data *)
(* ===================================================================== *)

Module samples.
Import py search_model elasticsearch_client.

(** A detection payload, as the indexing caller sends it and as the
    cluster returns it in a hit. *)
Definition detection : gmap string PyVal :=
  <[ "id" := VStr "det-1" ]>
  (<[ "name" := VStr "Mimikatz usage" ]>
  (<[ "description" := VStr "Detects credential dumping" ]>
  (<[ "platform_type" := VStr "EDR" ]>
  (<[ "created_at" := VInt 1700000000000000 ]>
  (<[ "updated_at" := VInt 1700000500000000 ]> ∅))))).

(** The document built from that payload. *)
Definition detection_document : DetectionDocument :=
  {| meta_id := VStr "det-1"; meta_version_type := None; meta_version := None;
     doc_id := VStr "det-1"; doc_name := VStr "Mimikatz usage";
     doc_description := VStr "Detects credential dumping";
     doc_content := VStr ""; doc_platform_type := VStr "EDR";
     doc_tags := VList []; doc_quality_score := VFloat 0;
     doc_created_at := VInt 1700000000000000;
     doc_updated_at := VInt 1700000500000000;
     doc_metadata := {| mitre_tactics := VList []; mitre_techniques := VList [];
                        severity := VStr "medium"; confidence := VFloat 0 |} |}.

(** A cluster whose health is [status] and whose other requests succeed. *)
Definition cluster (status : string) : Backend :=
  {| client_init := Ok tt;
     cluster_health := fun _ => Ok (VDict [("status", VStr status)]);
     index_exists := Ok true;
     index_create := Ok tt;
     client_search := Ok tt;
     indices_refresh := Ok tt;
     indices_stats :=
       Ok (VDict [("_all", VDict [("total", VDict [("docs",
             VDict [("count", VInt 42)])])])]);
     doc_save := Ok tt |}.

(** The same cluster, refusing to save documents. *)
Definition cluster_rejecting_saves (status : string) : Backend :=
  {| client_init := Ok tt;
     cluster_health := cluster_health (cluster status);
     index_exists := Ok true;
     index_create := Ok tt;
     client_search := Ok tt;
     indices_refresh := Ok tt;
     indices_stats := indices_stats (cluster status);
     doc_save := Raise ConnectionTimeout |}.

(** A query whose platform list is passed explicitly and is empty. *)
Definition query_with_empty_platforms : SearchQuery :=
  {| query_text := "lateral movement"; platforms := Some []; tags := None;
     min_quality_score := None; from_ := Some 0; size := Some 20;
     sort_options := None |}.

Definition empty_result : SearchResult :=
  {| hits := []; total := 0; took_ms := 3; max_score := 0;
     aggregations := ∅;
     performance_metrics :=
       <[ "successful_shards" := VInt 3 ]>
       (<[ "total_shards" := VInt 3 ]>
       (<[ "query_time_ms" := VInt 3 ]> ∅)) |}.

(** A result whose metrics lack the two shard counts, and a response of
    the cluster that carries no shard telemetry. *)
Definition result_without_shards : SearchResult :=
  {| hits := []; total := 0; took_ms := 3; max_score := 0;
     aggregations := ∅;
     performance_metrics := <[ "query_time_ms" := VInt 3 ]> ∅ |}.

Definition response_without_telemetry : search_service.Response :=
  {| search_service.resp_hits := [];
     search_service.hits_total_value := 0;
     search_service.took := 3;
     search_service.hits_max_score := None;
     search_service.resp_aggregations := None;
     search_service._shards := None |}.

(** A response with one hit, which the cluster scored 7.5. *)
Definition scored_response : search_service.Response :=
  {| search_service.resp_hits :=
       [ {| search_service.hit_dict := detection;
            search_service.meta_score := 15 # 2;
            search_service.meta_highlight := None |} ];
     search_service.hits_total_value := 1;
     search_service.took := 3;
     search_service.hits_max_score := Some (15 # 2);
     search_service.resp_aggregations := None;
     search_service._shards :=
       Some (<[ "total" := VInt 3 ]> (<[ "successful" := VInt 3 ]> ∅)) |}.

(** A completion answer with the given options, and a cluster that
    answers every completion request with three options. *)
Definition completion_answer (options : list PyVal) : PyVal :=
  VDict [("suggest",
          VDict [("suggestions", VList [VDict [("options", VList options)]])])].

Definition completing_cluster (request : search_service.SuggestRequest) : result PyVal :=
  Ok (completion_answer
        [ VDict [("text", VStr "ransomware detection")];
          VDict [("text", VStr "ransomware encryption")];
          VDict [("text", VStr "ransomware detection")] ]).





(** A cluster that answers every search with a response without hits,
    and a response with one hit scored 7.5 by the cluster. *)
Definition empty_response : search_service.Response :=
  {| search_service.resp_hits := [];
     search_service.hits_total_value := 0;
     search_service.took := 3;
     search_service.hits_max_score := None;
     search_service.resp_aggregations := None;
     search_service._shards :=
       Some (<[ "total" := VInt 3 ]> (<[ "successful" := VInt 3 ]> ∅)) |}.

(** A service whose cache holds one entry. *)
Definition warm_service : search_service.Service :=
  {| search_service._cache :=
       <[ "search:1" :=
            {| search_service.cached_result := empty_result;
               search_service.cached_timestamp := 1700000000000000 |} ]> ∅;
     search_service.requests := [] |}.

(** A model whose backend times out at every call, after one second (the
    input decorator of the model reports every failure as a [ValueError]);
    a model that answers; and a service just created, its clock at some
    date. *)
Definition timed_out : PyExn := ValueError "Invalid input: Request timed out".

Definition failing_model (n : nat) : openai_service.ModelAnswer :=
  {| openai_service.answer := Raise timed_out;
     openai_service.duration := 1 |}.

Definition generated : PyVal :=
  VDict [("content", VStr "process where commandline contains mimikatz");
         ("quality_metrics", VDict [("accuracy", VFloat (995 # 1000))])].

Definition answering_model (n : nat) : openai_service.ModelAnswer :=
  {| openai_service.answer := Ok generated;
     openai_service.duration := 1 |}.

Definition fresh_world : openai_service.World :=
  {| openai_service._circuit_breaker := openai_service.CircuitBreaker_init;
     openai_service.clock := 1700000000;
     openai_service.backend_calls := 0;
     openai_service.sleeps := [] |}.

(** A service with failures on record, the last one 5 seconds ago: 3 of
    them, and 5 of them. *)
Definition strained_world : openai_service.World :=
  {| openai_service._circuit_breaker :=
       {| openai_service._failures := 3;
          openai_service._last_failure_time := 1700000000 |};
     openai_service.clock := 1700000005;
     openai_service.backend_calls := 0;
     openai_service.sleeps := [] |}.

Definition tripped_world : openai_service.World :=
  {| openai_service._circuit_breaker :=
       {| openai_service._failures := 5;
          openai_service._last_failure_time := 1700000000 |};
     openai_service.clock := 1700000005;
     openai_service.backend_calls := 0;
     openai_service.sleeps := [] |}.

(** A plain function that fails whenever it is called, after one second. *)
Definition failing_function : Eff openai_service.World PyVal :=
  fun w => (Raise ConnectionError, openai_service.advance 1 w).

Definition platform_settings : gmap string PyVal :=
  <[ "EDR" := VDict [("accuracy_threshold", VFloat (99 # 100));
                     ("false_positive_threshold", VFloat (5 # 100));
                     ("performance_impact_threshold", VStr "low")] ]> ∅.

(** A model configuration asking for more than the caps allow, metrics
    that meet the thresholds, and a tracker with an empty history. *)
Definition eager_model_config : gmap string PyVal :=
  <[ "base_model" := VDict [("temperature", VFloat (9 # 10));
                            ("max_tokens", VInt 8000)] ]> ∅.

Definition good_metrics : gmap string PyVal :=
  <[ "accuracy_score" := VFloat (995 # 1000) ]>
  (<[ "false_positive_rate" := VFloat (1 # 100) ]> ∅).

Definition nan_metrics : gmap string PyVal :=
  <[ "accuracy_score" := VNaN ]> (<[ "false_positive_rate" := VNaN ]> ∅).

Definition nan_model_config : gmap string PyVal :=
  <[ "base_model" := VDict [("temperature", VNaN)] ]> ∅.

Definition fresh_metrics : model_utils.ModelMetrics :=
  {| model_utils.platform_type := "EDR";
     model_utils.quality_thresholds :=
       <[ "accuracy_threshold" := VFloat (99 # 100) ]>
       (<[ "false_positive_threshold" := VFloat (5 # 100) ]> ∅);
     model_utils.accuracy_score := VFloat 0;
     model_utils.false_positive_rate := VFloat 0;
     model_utils.performance_impact := VStr "low";
     model_utils.platform_metrics := ∅;
     model_utils.accuracy_trend := [];
     model_utils.false_positive_trend := [];
     model_utils.performance_impact_history := [];
     model_utils.last_updated := 0;
     model_utils.historical_metrics := [] |}.

End samples.

(* ===================================================================== *)
(** ** Notions the properties are stated with *)
(* ===================================================================== *)

Module notions.
Import py.

(** The number of white-space delimited tokens of a text, counted without
    splitting it: a token starts at each character that is not white
    space and that starts the text or follows white space. *)
Fixpoint count_token_starts (after_space : bool) (s : string) : nat :=
  match s with
  | EmptyString => 0
  | String c s' =>
      ((if after_space && negb (is_space c) then 1 else 0)
       + count_token_starts (is_space c) s')%nat
  end.

Definition token_count (s : string) : nat := count_token_starts true s.

(** A token is not empty and holds no white space. *)
Definition is_token (t : string) : Prop :=
  truthy_str t = true /\ forallb (fun c => negb (is_space c)) (chars t) = true.

(** A response of the cluster lacks shard telemetry when it has no
    [_shards] object, or one without the total or the successful count. *)
Definition lacks_shard_telemetry (response : search_service.Response) : Prop :=
  search_service._shards response = None
  \/ exists sh, search_service._shards response = Some sh
               /\ (sh !! "total" = None \/ sh !! "successful" = None).

(** Consecutive calls of a function through the breaker, the n-th one
    made [delays !! n] seconds after the previous one ended. *)
Fixpoint run_calls {A : Type} (func : Eff openai_service.World A)
    (delays : list Q) (w : openai_service.World) : openai_service.World :=
  match delays with
  | [] => w
  | d :: rest =>
      run_calls func rest
        (snd (openai_service.circuit_breaker func (openai_service.advance d w)))
  end.

(** The world in which the breaker lets a call through: the one the
    [is_open] test leaves. *)
Definition let_through (w : openai_service.World) : openai_service.World :=
  openai_service.set_breaker w
    (snd (openai_service.is_open (openai_service._circuit_breaker w)
            (openai_service.clock w))).

(** Every call of such a run is a failure of the function: the breaker
    lets the call through, and the function raises. *)
Fixpoint all_fail {A : Type} (func : Eff openai_service.World A)
    (delays : list Q) (w : openai_service.World) : bool :=
  match delays with
  | [] => true
  | d :: rest =>
      let w1 := openai_service.advance d w in
      negb (fst (openai_service.is_open (openai_service._circuit_breaker w1)
                   (openai_service.clock w1)))
      && negb (is_ok (fst (func (let_through w1))))
      && all_fail func rest (snd (openai_service.circuit_breaker func w1))
  end.

(** Consecutive awaited calls of a decorated method, the n-th one made
    [delays !! n] seconds after the previous one ended; the outcome of
    each, and the world they leave. *)
Fixpoint run_awaited {A : Type}
    (method : openai_service.World
              -> option (result (openai_service.Coroutine A)
                         * openai_service.RetryReport * openai_service.World))
    (delays : list Q) (w : openai_service.World)
    : list (result A * openai_service.RetryReport) * openai_service.World :=
  match delays with
  | [] => ([], w)
  | d :: rest =>
      match openai_service.awaited method (openai_service.advance d w) with
      | Some (r, report, w') =>
          let '(outcomes, w'') := run_awaited method rest w' in
          ((r, report) :: outcomes, w'')
      | None => ([], w)
      end
  end.

(** A tag is well formed when each of its characters is a letter, a
    digit, a hyphen or an underscore, and it has at most 50 characters. *)
Definition well_formed_tag (tag : string) : Prop :=
  Forall (fun c => is_alnum c = true \/ c = "-"%char \/ c = "_"%char) (chars tag)
  /\ (String.length tag <= 50)%nat.

(** The platforms a query may name. *)
Definition known_platform (p : string) : Prop :=
  p = "SIEM" \/ p = "EDR" \/ p = "NSM".

(** The lists a query may carry: none, or one whose elements are all
    acceptable. *)
Definition all_or_none {A : Type} (P : A -> Prop) (v : option (list A)) : Prop :=
  match v with
  | Some l => Forall P l
  | None => True
  end.

(** The keys a detection payload must have, and the shape its metadata
    must have when it is given. *)
Definition required_detection_keys : list string :=
  ["id"; "name"; "description"; "platform_type"; "created_at"; "updated_at"].

(** The first of [keys] that [data] lacks. *)
Fixpoint first_missing (data : gmap string PyVal) (keys : list string) : option string :=
  match keys with
  | [] => None
  | k :: rest =>
      match data !! k with
      | Some _ => first_missing data rest
      | None => Some k
      end
  end.

Definition metadata_is_dict (data : gmap string PyVal) : Prop :=
  match data !! "metadata" with
  | None | Some (VDict _) => True
  | Some _ => False
  end.

(** The document count read in the statistics of an index. *)
Definition docs_count (stats : PyVal) : result PyVal :=
  bind (search_model.py_getitem stats "_all") (fun all =>
  bind (search_model.py_getitem all "total") (fun tot =>
  bind (search_model.py_getitem tot "docs") (fun docs =>
  search_model.py_getitem docs "count"))).

(** The status a health answer reports, when the request succeeded and
    the answer has one. *)
Definition health_status (answer : result PyVal) : result PyVal :=
  bind answer (fun health => search_model.py_getitem health "status").

(** A health answer that lets operations proceed: it reports a status,
    and that status is not red. *)
Definition usable_health (answer : result PyVal) : Prop :=
  exists status, health_status answer = Ok status
                 /\ search_model.py_eq_str status "red" = false.

(** How one hit of the response becomes a [SearchHit]: its document is
    built and turned into a hit, which then receives the score and the
    highlights of the response, or no highlight when it has none. *)
Definition assembled_from
    (to_search_hit : search_model.DetectionDocument -> result search_model.SearchHit)
    (hit : search_service.Hit) (h : search_model.SearchHit) : Prop :=
  exists doc h0,
    search_model.from_detection (search_service.hit_dict hit) = Ok doc
    /\ to_search_hit doc = Ok h0
    /\ h = search_model.set_highlights
             (search_model.set_score h0 (search_service.meta_score hit))
             (default ∅ (search_service.meta_highlight hit)).

(** A world after one more call to the model. *)
Definition after_model_call (model : nat -> openai_service.ModelAnswer)
    (w : openai_service.World) : openai_service.World :=
  snd (openai_service.model_call model w).

(** An outcome of a method body started in [w]: the body raises, either
    before it calls the model, the world being as it was, or at the await
    of its one call to the model, with the exception of the model or, when
    the model answers, the error of awaiting a plain value. *)
Definition ends_by_the_await (model : nat -> openai_service.ModelAnswer)
    (w : openai_service.World) (outcome : result PyVal * openai_service.World) : Prop :=
  exists e,
    fst outcome = Raise e
    /\ (snd outcome = w
        \/ (snd outcome = after_model_call model w
            /\ e = match openai_service.answer (model (openai_service.backend_calls w)) with
                   | Ok plain => openai_service.not_awaitable plain
                   | Raise e' => e'
                   end)).

(** A breaker that has recorded nothing since [before]: the time of its
    last failure is the same, and its count is the same or was cleared. *)
Definition nothing_recorded (before after : openai_service.CircuitBreaker) : Prop :=
  openai_service._last_failure_time after = openai_service._last_failure_time before
  /\ (openai_service._failures after = openai_service._failures before
      \/ openai_service._failures after = 0).

(** A query whose fields are all within their declared ranges. *)
Definition valid_query (q : search_model.SearchQuery) : Prop :=
  (3 <= String.length (search_model.query_text q) <= 500)%nat
  /\ all_or_none known_platform (search_model.platforms q)
  /\ all_or_none well_formed_tag (search_model.tags q)
  /\ match search_model.min_quality_score q with
     | Some s => (0 <= s <= 1)%Q
     | None => True
     end
  /\ match search_model.from_ q with
     | Some n => 0 <= n
     | None => True
     end
  /\ match search_model.size q with
     | Some n => 1 <= n <= 100
     | None => True
     end.

(** A value is nan, or a number on the given side of a bound. *)
Definition nan_or_at_least (bound : Q) (v : PyVal) : Prop :=
  v = VNaN \/ exists q, as_number v = Some (Finite q) /\ (bound <= q)%Q.

Definition nan_or_at_most (bound : Q) (v : PyVal) : Prop :=
  v = VNaN \/ exists q, as_number v = Some (Finite q) /\ (q <= bound)%Q.

(** New metrics pass the threshold checks when they give an accuracy
    score that is nan or a number of at least 0.99, and a false positive
    rate that is nan or a number of at most 0.05. *)
Definition passes_thresholds (new_metrics : gmap string PyVal) : Prop :=
  exists a f,
    new_metrics !! "accuracy_score" = Some a
    /\ nan_or_at_least model_utils.MIN_ACCURACY_THRESHOLD a
    /\ new_metrics !! "false_positive_rate" = Some f
    /\ nan_or_at_most model_utils.MAX_FALSE_POSITIVE_RATE f.

(** The scores of the hits of a result are within [0, 1]; a cache holds
    such results only. *)
Definition unit_scores (r : search_model.SearchResult) : Prop :=
  Forall (fun h => (0 <= search_model.score h <= 1)%Q) (search_model.hits r).

Definition cache_of_unit_scores (cache : gmap string search_service.CacheEntry) : Prop :=
  forall key entry,
    cache !! key = Some entry -> unit_scores (search_service.cached_result entry).

(** The states of a search service: the one [__init__] leaves, with an
    empty cache, and those the calls of its methods lead to, whatever the
    cluster answers. *)
Inductive reachable (index_name : string) : search_service.Service -> Prop :=
| reachable_init (sent : list elasticsearch_client.BackendCall) :
    reachable index_name
      {| search_service._cache := ∅; search_service.requests := sent |}
| reachable_search (s : search_service.Service)
    (key : search_model.SearchQuery -> string)
    (execute : query_builder.Search -> result search_service.Response)
    (now stored : datetime) (query : search_model.SearchQuery) :
    reachable index_name s ->
    reachable index_name
      (snd (search_service.search index_name key execute now stored query s))
| reachable_index_detection (s : search_service.Service)
    (backend : elasticsearch_client.Backend) (now : datetime)
    (data : gmap string PyVal) :
    reachable index_name s ->
    reachable index_name
      (snd (search_service.index_detection index_name backend now data s))
| reachable_refresh_index (s : search_service.Service)
    (backend : elasticsearch_client.Backend) :
    reachable index_name s ->
    reachable index_name (snd (search_service.refresh_index index_name backend s)).

End notions.

(* ===================================================================== *)
(** ** Properties *)
(* ===================================================================== *)

Import py.

(** *** Floats *)

Lemma Qlt_bool_true (x y : Q) : Qlt_bool x y = true <-> (x < y)%Q.
Proof.
  unfold Qlt_bool. rewrite negb_true_iff.
  split.
  - intros H. apply Qnot_le_lt. intros Hle.
    apply Qle_bool_iff in Hle. congruence.
  - intros H. destruct (Qle_bool y x) eqn:E; [|reflexivity].
    apply Qle_bool_iff in E. exfalso. exact (Qlt_not_le _ _ H E).
Qed.

Lemma Qlt_bool_false (x y : Q) : Qlt_bool x y = false <-> (y <= x)%Q.
Proof.
  unfold Qlt_bool. rewrite negb_false_iff. apply Qle_bool_iff.
Qed.

(** The validator itself clamps: whatever it is given, it answers in
    [0, 1]. *)
Lemma normalize_score_bounds (v : Q) :
  (0 <= search_model.normalize_score v <= 1)%Q.
Proof.
  unfold search_model.normalize_score, py_max, py_min.
  destruct (Qlt_bool v 1) eqn:E1.
  - apply Qlt_bool_true in E1.
    destruct (Qlt_bool 0 v) eqn:E2.
    + apply Qlt_bool_true in E2. lra.
    + lra.
  - destruct (Qlt_bool 0 1) eqn:E2; lra.
Qed.

(** The constructor does not clamp either: a score outside [0, 1] is
    refused by the bounds declared on the field, before the validator. *)
Example SearchHit_new_refuses_large_score :
  search_model.SearchHit_new
    {| search_model.id := "det-1"; search_model.name := "n";
       search_model.description := "d"; search_model.platform_type := "EDR";
       search_model.score := 15 # 2; search_model.highlights := ∅;
       search_model.created_at := 0; search_model.updated_at := 0;
       search_model.metadata := ∅ |}
  = Raise (ValidationError ["score"]).
Proof. reflexivity. Qed.

(** *** The assembly of hits *)

Section Assembly.
Import search_model search_service.
Variable to_search_hit : DetectionDocument -> result SearchHit.

(** The scores of the assembled hits are the scores the cluster reported,
    in order and unchanged. *)
Lemma process_hits_scores (hs : list Hit) (out : list SearchHit) :
  process_hits to_search_hit hs = Ok out ->
  map score out = map meta_score hs.
Proof.
  revert out. induction hs as [|hit rest IH]; intros out H; simpl in H.
  - injection H as <-. reflexivity.
  - destruct (from_detection (hit_dict hit)) as [doc|e]; simpl in H; [|discriminate].
    destruct (to_search_hit doc) as [h|e]; simpl in H; [|discriminate].
    destruct (process_hits to_search_hit rest) as [tl|e]; simpl in H; [|discriminate].
    injection H as <-. simpl. f_equal. apply IH. reflexivity.
Qed.

End Assembly.

(** *** The cache *)

Section Cache.
Import search_model search_service.

Lemma get_after_add (cache : gmap string CacheEntry) (t0 now : datetime)
    (key : string) (r : SearchResult) :
  _get_from_cache (_add_to_cache cache t0 key r) now key
  = if td_seconds (now - t0) <? CACHE_TTL then Some r else None.
Proof.
  unfold _get_from_cache, _add_to_cache.
  rewrite lookup_insert_eq. reflexivity.
Qed.

(** Less than a day after the store, the entry is served exactly while
    less than 300 seconds have passed. *)
Lemma cache_ttl_within_a_day (cache : gmap string CacheEntry) (t0 now : datetime)
    (key : string) (r : SearchResult) :
  0 <= now - t0 < 86400 * 1000000 ->
  (_get_from_cache (_add_to_cache cache t0 key r) now key = Some r
   <-> now - t0 < CACHE_TTL * 1000000).
Proof.
  intros Hday. rewrite get_after_add.
  unfold td_seconds, td_total_seconds, CACHE_TTL.
  assert (Hs : 0 <= (now - t0) / 1000000 < 86400).
  { split.
    - apply Z.div_pos; lia.
    - apply Z.div_lt_upper_bound; lia. }
  rewrite Z.mod_small by exact Hs.
  destruct (Z.ltb_spec ((now - t0) / 1000000) 300) as [Hlt|Hge].
  - split; [intros _|reflexivity].
    pose proof (Z.div_mod (now - t0) 1000000 ltac:(lia)) as Hdm.
    pose proof (Z.mod_pos_bound (now - t0) 1000000 ltac:(lia)) as Hm.
    lia.
  - split; [discriminate|]. intros Hlt. exfalso.
    assert ((now - t0) / 1000000 < 300); [|lia].
    apply Z.div_lt_upper_bound; lia.
Qed.

(** A lookup reads the cache and leaves it as it is: nothing is evicted
    at read time. *)
Lemma missing_key_is_a_miss (cache : gmap string CacheEntry) (now : datetime)
    (key : string) :
  cache !! key = None -> _get_from_cache cache now key = None.
Proof. intros H. unfold _get_from_cache. rewrite H. reflexivity. Qed.

End Cache.

(** C2, one day after the store: the lookup compares the [seconds]
    component of the elapsed time, which is 0 after exactly one day, with
    the TTL; the entry stored at [t0] is served at [t0] + 86400 s, although
    more than 300 seconds have passed. *)
Theorem cache_entry_served_one_day_after_store
    (cache : gmap string search_service.CacheEntry) (t0 : datetime)
    (key : string) (r : search_model.SearchResult) :
  search_service._get_from_cache
    (search_service._add_to_cache cache t0 key r)
    (t0 + 86400 * 1000000) key
  = Some r.
Proof.
  rewrite get_after_add.
  replace (t0 + 86400 * 1000000 - t0) with (86400 * 1000000) by lia.
  reflexivity.
Qed.

(** *** The filter compiler *)

(** C3 as stated fails: a query whose platform list is present and empty
    passes validation, and its filter context holds no clause at all; the
    empty list is neither rejected nor turned into a clause. *)
Lemma empty_platform_list_accepted_without_clause :
  search_model.SearchQuery_new samples.query_with_empty_platforms
  = Ok samples.query_with_empty_platforms
  /\ search_model.platforms samples.query_with_empty_platforms = Some []
  /\ query_builder.build_filter_context
       (search_model.platforms samples.query_with_empty_platforms)
       (search_model.tags samples.query_with_empty_platforms)
       (search_model.min_quality_score samples.query_with_empty_platforms)
     = [].
Proof. repeat split; reflexivity. Qed.

(** C3, amended: the filter context holds a terms clause on
    [platform_type] exactly when the platform list is present and not
    empty, with that list as its values; a terms clause on [tags] exactly
    when the tag list is present and not empty; and a range clause with
    lower bound [b] on [quality_score] exactly when the minimum quality
    score is present and is [b], whatever its value, 0 included.  An absent
    or empty list contributes no clause. *)
Theorem filter_context_clauses
    (platforms tags : option (list string)) (min_quality_score : option Q) :
  let ctx := query_builder.build_filter_context platforms tags min_quality_score in
  (forall n f vs,
      In (query_builder.Terms n f vs) ctx <->
      (n = "platform_filter" /\ f = "platform_type"
       /\ platforms = Some vs /\ vs <> [])
      \/ (n = "tags_filter" /\ f = "tags" /\ tags = Some vs /\ vs <> []))
  /\ (forall n f b,
      In (query_builder.Range n f b) ctx <->
      n = "quality_filter" /\ f = "quality_score"
      /\ min_quality_score = Some b).
Proof.
  unfold query_builder.build_filter_context.
  destruct platforms as [[|p ps]|], tags as [[|t ts]|],
    min_quality_score as [b0|]; simpl;
    (split; intros n f x; (split;
     [ intros H;
       repeat match goal with
              | H : _ \/ _ |- _ => destruct H
              | H : False |- _ => destruct H
              | H : query_builder.Terms _ _ _ = query_builder.Terms _ _ _ |- _ =>
                  injection H as <- <- <-
              | H : query_builder.Range _ _ _ = query_builder.Range _ _ _ |- _ =>
                  injection H as <- <- <-
              | H : query_builder.Terms _ _ _ = query_builder.Range _ _ _ |- _ =>
                  discriminate H
              | H : query_builder.Range _ _ _ = query_builder.Terms _ _ _ |- _ =>
                  discriminate H
              end;
       try (left; repeat split; congruence);
       try (right; repeat split; congruence);
       try (repeat split; congruence)
     | intros H;
       repeat match goal with
              | H : _ \/ _ |- _ => destruct H
              | H : _ /\ _ |- _ => destruct H
              end;
       subst; try congruence;
       repeat match goal with
              | H : Some _ = Some _ |- _ => injection H as <-
              end;
       auto 6 ])).
Qed.

(** *** The query builder *)

(** [page_number] is not a field the query model declares. *)
Lemma page_number_is_not_a_field (q : search_model.SearchQuery) :
  search_model.SearchQuery_getattr q "page_number"
  = Raise (AttributeError "page_number").
Proof. reflexivity. Qed.

Lemma page_size_is_not_a_field (q : search_model.SearchQuery) :
  search_model.SearchQuery_getattr q "page_size"
  = Raise (AttributeError "page_size").
Proof. reflexivity. Qed.

(** C6, on every query: the pagination step reads [page_number] and
    [page_size], which the query model does not declare (it declares
    [from_] and [size]); the builder raises before any pagination,
    profiling flag or field projection is set, and no query expression is
    built. *)
Theorem build_search_query_raises (q : search_model.SearchQuery) :
  query_builder.build_search_query q = Raise (AttributeError "page_number").
Proof. reflexivity. Qed.

(** The sample query of the test suite is accepted by the model and
    makes the builder raise. *)
Lemma build_search_query_on_valid_query :
  search_model.SearchQuery_new
    (search_model.SearchQuery_of_text "ransomware detection windows")
  = Ok (search_model.SearchQuery_of_text "ransomware detection windows")
  /\ query_builder.build_search_query
       (search_model.SearchQuery_of_text "ransomware detection windows")
     = Raise (AttributeError "page_number").
Proof. split; reflexivity. Qed.

(** [split] yields as many strings as the text has tokens. *)
Lemma truthy_str_snoc (cur : string) (c : ascii) :
  truthy_str (cur +:+ String c EmptyString) = true.
Proof. destruct cur; reflexivity. Qed.

Lemma length_split_from (s cur : string) :
  length (split_from cur s)
  = (notions.count_token_starts (negb (truthy_str cur)) s
     + (if truthy_str cur then 1 else 0))%nat.
Proof.
  revert cur. induction s as [|c s IH]; intros cur; simpl.
  - destruct (truthy_str cur); reflexivity.
  - destruct (is_space c) eqn:Hc; simpl.
    + rewrite andb_false_r. simpl.
      destruct (truthy_str cur) eqn:Hcur; simpl; rewrite (IH EmptyString); simpl; lia.
    + rewrite IH, truthy_str_snoc, andb_true_r. simpl.
      destruct (truthy_str cur); simpl; lia.
Qed.

Lemma length_split (s : string) : length (split s) = notions.token_count s.
Proof.
  unfold split, notions.token_count. rewrite length_split_from. simpl. lia.
Qed.

(** The strings [split] yields are tokens. *)
Lemma chars_snoc (cur : string) (c : ascii) :
  chars (cur +:+ String c EmptyString) = chars cur ++ [c].
Proof. induction cur as [|a cur IH]; simpl; [reflexivity|]. rewrite IH. reflexivity. Qed.

Lemma split_from_tokens (s cur : string) :
  forallb (fun c => negb (is_space c)) (chars cur) = true ->
  Forall notions.is_token (split_from cur s).
Proof.
  revert cur. induction s as [|c s IH]; intros cur Hcur; simpl.
  - destruct (truthy_str cur) eqn:E; constructor; [split; assumption|constructor].
  - destruct (is_space c) eqn:Hc.
    + destruct (truthy_str cur) eqn:E.
      * constructor; [split; assumption|]. apply IH. reflexivity.
      * apply IH. reflexivity.
    + apply IH. rewrite chars_snoc, forallb_app, Hcur. simpl. rewrite Hc. reflexivity.
Qed.

Lemma split_tokens (s : string) : Forall notions.is_token (split s).
Proof. apply split_from_tokens. reflexivity. Qed.

(** C9: the multi-match clause of the query expression built for a text
    has type [best_fields] when the text has at most 3 white-space
    delimited tokens, and [most_fields] when it has more. *)
Theorem query_type_by_token_count (query_text : string) :
  query_builder.mm_type
    (query_builder.fs_query (query_builder.build_text_query query_text))
  = if (notions.token_count query_text <=? 3)%nat
    then "best_fields" else "most_fields".
Proof.
  simpl. unfold query_builder.query_type_of. rewrite length_split.
  destruct (Nat.leb_spec (notions.token_count query_text) 3) as [H|H];
    destruct (Z.leb_spec (Z.of_nat (notions.token_count query_text)) 3) as [H'|H'];
    try reflexivity; lia.
Qed.

Example three_tokens_best_fields :
  query_builder.mm_type
    (query_builder.fs_query
       (query_builder.build_text_query "ransomware detection windows"))
  = "best_fields".
Proof. reflexivity. Qed.

Example four_tokens_most_fields :
  query_builder.mm_type
    (query_builder.fs_query
       (query_builder.build_text_query "  lateral	movement in  windows "))
  = "most_fields".
Proof. reflexivity. Qed.

(** *** Index management *)

Section IndexManagement.
Import search_model elasticsearch_client search_service.
Variable index_name : string.
Variable backend : Backend.

(** [index_detection] never raises and answers a boolean. *)
Lemma index_detection_total (now : datetime) (data : gmap string PyVal) (s : Service) :
  exists b, fst (index_detection index_name backend now data s) = Ok b.
Proof.
  unfold index_detection, error_handler, try_except, ebind, lift, request,
    _clear_related_caches, ret, raise.
  destruct (from_detection data) as [doc|e]; simpl; [|eexists; reflexivity].
  destruct (doc_save backend) as [[]|e]; simpl; eexists; reflexivity.
Qed.

(** When the payload is well formed, the document is sent to the cluster
    whatever its health, and nothing else is: no health request is made. *)
Lemma index_detection_requests (now : datetime) (data : gmap string PyVal)
    (s : Service) (doc : DetectionDocument) :
  from_detection data = Ok doc ->
  requests (snd (index_detection index_name backend now data s))
  = requests s
    ++ [DocSave (set_meta_version doc "external" (timestamp_int now)) index_name].
Proof.
  intros Hdoc.
  unfold index_detection, error_handler, try_except, ebind, lift, request,
    _clear_related_caches, ret, raise.
  rewrite Hdoc. simpl.
  destruct (doc_save backend) as [[]|e]; reflexivity.
Qed.

Lemma index_detection_true_iff_saved (now : datetime) (data : gmap string PyVal)
    (s : Service) :
  fst (index_detection index_name backend now data s) = Ok true
  <-> is_ok (from_detection data) = true /\ doc_save backend = Ok tt.
Proof.
  unfold index_detection, error_handler, try_except, ebind, lift, request,
    _clear_related_caches, ret, raise.
  destruct (from_detection data) as [doc|e]; simpl.
  - destruct (doc_save backend) as [[]|e]; simpl; split; intros H;
      try discriminate; try (split; reflexivity); try reflexivity.
    destruct H as [_ H]. discriminate.
  - split; [discriminate|]. intros [H _]. discriminate.
Qed.

End IndexManagement.

(** C10: when the save of the document raises, whatever the exception
    and whatever the payload, [index_detection] returns [False] instead of
    raising, and the cache is the one it started with. *)
Theorem index_detection_save_failure
    (index_name : string) (backend : elasticsearch_client.Backend)
    (now : datetime) (detection_data : gmap string PyVal)
    (s : search_service.Service) (e : PyExn) :
  elasticsearch_client.doc_save backend = Raise e ->
  fst (search_service.index_detection index_name backend now detection_data s)
  = Ok false
  /\ search_service._cache
       (snd (search_service.index_detection index_name backend now detection_data s))
     = search_service._cache s.
Proof.
  intros Hsave.
  unfold search_service.index_detection, search_service.error_handler,
    try_except, ebind, lift, search_service.request,
    search_service._clear_related_caches, ret, raise.
  destruct (search_model.from_detection detection_data) as [doc|e']; simpl.
  - rewrite Hsave. simpl. split; reflexivity.
  - split; reflexivity.
Qed.

Lemma index_detection_save_failure_witness :
  fst (search_service.index_detection "detections"
         (samples.cluster_rejecting_saves "green") 1700000600000000
         samples.detection samples.warm_service)
  = Ok false
  /\ search_service._cache
       (snd (search_service.index_detection "detections"
               (samples.cluster_rejecting_saves "green") 1700000600000000
               samples.detection samples.warm_service))
     = search_service._cache samples.warm_service.
Proof.
  apply (index_detection_save_failure "detections"
           (samples.cluster_rejecting_saves "green") 1700000600000000
           samples.detection samples.warm_service ConnectionTimeout).
  reflexivity.
Defined.

(** *** The health guard *)

(** C7 as stated fails for indexing: on a cluster whose health is red
    and that still accepts the document, [index_detection] sends the
    write, without any health request, and returns [True]. *)
Lemma index_detection_on_red_cluster_writes :
  bind (elasticsearch_client.cluster_health (samples.cluster "red")
          (Some "detections"))
       (fun h => search_model.py_getitem h "status") = Ok (VStr "red")
  /\ fst (search_service.index_detection "detections" (samples.cluster "red")
            1700000600000000 samples.detection samples.warm_service)
     = Ok true
  /\ map elasticsearch_client.is_write
       (search_service.requests
          (snd (search_service.index_detection "detections" (samples.cluster "red")
                  1700000600000000 samples.detection samples.warm_service)))
     = [true]
  /\ existsb elasticsearch_client.is_health_check
       (search_service.requests
          (snd (search_service.index_detection "detections" (samples.cluster "red")
                  1700000600000000 samples.detection samples.warm_service)))
     = false.
Proof. repeat split; reflexivity. Qed.

(** C7, amended: when the health of the cluster is red, [refresh_index]
    returns [False] after its health request, without sending the refresh
    and leaving the cache alone, and [validate_connection] returns [False]
    without sending any write; [index_detection] does not consult the
    health: for a well-formed payload it sends the document as its only
    request and returns [True] exactly when the save succeeds. *)
Theorem red_cluster_guard
    (index_name : string) (backend : elasticsearch_client.Backend) (health : PyVal) :
  (forall index, elasticsearch_client.cluster_health backend index = Ok health) ->
  search_model.py_getitem health "status" = Ok (VStr "red") ->
  (forall s,
      search_service.refresh_index index_name backend s
      = (Ok false,
         {| search_service._cache := search_service._cache s;
            search_service.requests :=
              search_service.requests s
              ++ [elasticsearch_client.ClusterHealth (Some index_name)] |}))
  /\ (forall log, exists sent,
      elasticsearch_config.validate_connection index_name backend log
      = (Ok false, log ++ sent)
      /\ existsb elasticsearch_client.is_write sent = false)
  /\ (forall now data s doc,
      search_model.from_detection data = Ok doc ->
      search_service.requests
        (snd (search_service.index_detection index_name backend now data s))
      = search_service.requests s
        ++ [elasticsearch_client.DocSave
              (search_model.set_meta_version doc "external" (timestamp_int now))
              index_name]
      /\ (fst (search_service.index_detection index_name backend now data s) = Ok true
          <-> elasticsearch_client.doc_save backend = Ok tt)).
Proof.
  intros Hhealth Hred. split; [|split].
  - intros s.
    unfold search_service.refresh_index, search_service.error_handler,
      try_except, ebind, lift, search_service.request, ret, raise.
    rewrite Hhealth, Hred. reflexivity.
  - intros log.
    unfold elasticsearch_config.validate_connection, try_except, ebind, lift,
      elasticsearch_config.request, ret.
    destruct (elasticsearch_client.client_init backend) as [[]|e].
    + rewrite Hhealth, Hred. simpl.
      exists [elasticsearch_client.ClientInit; elasticsearch_client.ClusterHealth None].
      split; [|reflexivity]. rewrite <- app_assoc. reflexivity.
    + exists [elasticsearch_client.ClientInit]. split; reflexivity.
  - intros now data s doc Hdoc. split.
    + apply index_detection_requests. exact Hdoc.
    + rewrite index_detection_true_iff_saved, Hdoc. simpl. tauto.
Qed.

Lemma red_cluster_guard_witness :
  search_model.py_getitem (VDict [("status", VStr "red")]) "status" = Ok (VStr "red")
  /\ search_service.refresh_index "detections" (samples.cluster "red")
       samples.warm_service
     = (Ok false,
        {| search_service._cache := search_service._cache samples.warm_service;
           search_service.requests :=
             [elasticsearch_client.ClusterHealth (Some "detections")] |})
  /\ (fst (search_service.index_detection "detections" (samples.cluster "red")
             1700000600000000 samples.detection samples.warm_service)
      = Ok true
      <-> elasticsearch_client.doc_save (samples.cluster "red") = Ok tt).
Proof.
  assert (Hred : search_model.py_getitem (VDict [("status", VStr "red")]) "status"
                 = Ok (VStr "red")) by reflexivity.
  destruct (red_cluster_guard "detections" (samples.cluster "red")
              (VDict [("status", VStr "red")]) (fun _ => eq_refl) Hred)
    as (Hrefresh & _ & Hindex).
  split; [exact Hred|]. split.
  - exact (Hrefresh samples.warm_service).
  - destruct (search_model.from_detection samples.detection) as [doc|e] eqn:Hdoc.
    + exact (proj2 (Hindex 1700000600000000 samples.detection samples.warm_service
                      doc Hdoc)).
    + vm_compute in Hdoc. discriminate Hdoc.
Defined.

(** *** Result integrity *)

Lemma handle_error_uniform (e : PyExn) :
  exists msg, search_service.handle_error e = SearchServiceError msg.
Proof. destruct e; eexists; reflexivity. Qed.

Lemma validate_performance_missing (v : gmap string PyVal) (k : string) :
  k ∈ search_model.required_metrics -> v !! k = None ->
  search_model.validate_performance v
  = Raise (ValueError "Missing required performance metrics").
Proof.
  intros Hk Hv. unfold search_model.validate_performance.
  destruct (decide (search_model.missing_metrics v = ∅)) as [Hempty|Hne];
    [|reflexivity].
  exfalso.
  assert (Hin : k ∈ search_model.missing_metrics v).
  { unfold search_model.missing_metrics. apply elem_of_difference.
    split; [exact Hk|]. apply not_elem_of_dom. exact Hv. }
  rewrite Hempty in Hin. set_solver.
Qed.

Lemma validate_performance_complete (v : gmap string PyVal) :
  is_Some (v !! "query_time_ms") -> is_Some (v !! "total_shards") ->
  is_Some (v !! "successful_shards") ->
  search_model.validate_performance v = Ok v.
Proof.
  intros H1 H2 H3. unfold search_model.validate_performance.
  destruct (decide (search_model.missing_metrics v = ∅)) as [Hempty|Hne];
    [reflexivity|].
  exfalso. apply Hne. unfold search_model.missing_metrics, search_model.required_metrics.
  apply elem_of_equiv_empty_L. intros x Hx.
  apply elem_of_difference in Hx as [Hx Hnd]. apply Hnd.
  rewrite !elem_of_union, !elem_of_singleton in Hx.
  destruct Hx as [[->| ->]| ->]; apply elem_of_dom; assumption.
Qed.

(** Construction with every argument given reports the failing fields or
    returns the record as given. *)
Lemma SearchResult_new_unfold (r : search_model.SearchResult) :
  search_model.SearchResult_new r
  = match search_model.field_errors r with
    | [] => Ok r
    | errs => Raise (ValidationError errs)
    end.
Proof.
  unfold search_model.SearchResult_new, search_model.SearchResult_init,
    search_model.field_errors.
  destruct (search_model.init_errors _ _ _ _); [destruct r|]; reflexivity.
Qed.

(** A record that is given and lacks the query time, the total shard
    count or the successful shard count is refused: construction raises a
    validation error naming the record. *)
Lemma given_metrics_are_validated (hits : list search_model.SearchHit)
    (total took_ms : Z) (max_score : Q) (aggregations : option (gmap string PyVal))
    (metrics : gmap string PyVal) :
  metrics !! "query_time_ms" = None
  \/ metrics !! "total_shards" = None
  \/ metrics !! "successful_shards" = None ->
  exists errs,
    search_model.SearchResult_init hits total took_ms max_score aggregations
      (Some metrics) = Raise (ValidationError errs)
    /\ In "performance_metrics" errs.
Proof.
  intros Hmissing.
  assert (Hv : search_model.validate_performance metrics
               = Raise (ValueError "Missing required performance metrics")).
  { destruct Hmissing as [H|[H|H]];
      (eapply validate_performance_missing; [|exact H]);
      unfold search_model.required_metrics; set_solver. }
  unfold search_model.SearchResult_init.
  assert (Hin : In "performance_metrics"
                  (search_model.init_errors total took_ms max_score (Some metrics))).
  { unfold search_model.init_errors. rewrite Hv. simpl.
    rewrite !in_app_iff. right. right. right. left. reflexivity. }
  destruct (search_model.init_errors total took_ms max_score (Some metrics))
    as [|x errs] eqn:E.
  - destruct Hin.
  - exists (x :: errs). split; [reflexivity|exact Hin].
Qed.

(** A response without shard telemetry yields no result: [search], from
    the response on, raises the service error, and the service, its cache
    included, is as before. *)
Lemma response_without_telemetry_yields_no_result
    (to_search_hit : search_model.DetectionDocument -> result search_model.SearchHit)
    (now : datetime) (key : string) (response : search_service.Response)
    (s : search_service.Service) :
  notions.lacks_shard_telemetry response ->
  exists msg,
    search_service.search_from_response to_search_hit now key response s
    = (Raise (SearchServiceError msg), s).
Proof.
  intros Hmissing.
  unfold search_service.search_from_response, search_service.assemble,
    search_service.error_handler, try_except, ebind, lift, raise.
  destruct (search_service.process_hits to_search_hit
              (search_service.resp_hits response)) as [hs|e].
  - assert (Hb : exists e, search_service.build_result response hs = Raise e).
    { unfold search_service.build_result, search_service.shards_attr.
      destruct Hmissing as [H|(sh & H & [Ht|Hs])]; rewrite H.
      - eexists; reflexivity.
      - rewrite Ht. eexists; reflexivity.
      - rewrite Hs. destruct (sh !! "total"); eexists; reflexivity. }
    destruct Hb as [e He]. rewrite He.
    destruct (handle_error_uniform e) as [msg Hmsg]. exists msg.
    rewrite Hmsg. reflexivity.
  - destruct (handle_error_uniform e) as [msg Hmsg]. exists msg.
    rewrite Hmsg. reflexivity.
Qed.

(** C8, at [SearchResult(hits=[], total=0, took_ms=0, max_score=0.0)]:
    the record of performance metrics is left out, the field takes its
    default, the empty record, and no validator runs on it: the result is
    constructed, with a record that lacks the three required keys.  The
    same empty record, when it is given, is refused. *)
Theorem omitted_metrics_are_not_validated :
  search_model.SearchResult_init [] 0 0 0 None None
  = Ok {| search_model.hits := []; search_model.total := 0;
          search_model.took_ms := 0; search_model.max_score := 0;
          search_model.aggregations := ∅;
          search_model.performance_metrics := ∅ |}
  /\ search_model.missing_metrics ∅ = search_model.required_metrics
  /\ search_model.SearchResult_init [] 0 0 0 None (Some ∅)
     = Raise (ValidationError ["performance_metrics"]).
Proof.
  split; [reflexivity|]. split.
  - unfold search_model.missing_metrics. rewrite dom_empty_L.
    apply difference_empty_L.
  - vm_compute. reflexivity.
Qed.

(** *** The circuit breaker *)

Section Breaker.
Import openai_service.
Context {A : Type}.
Variable func : Eff World A.
Hypothesis func_leaves_breaker :
  forall w, _circuit_breaker (snd (func w)) = _circuit_breaker w.

(** A call made within the reset timeout of the last failure finds the
    breaker as it was left. *)
Lemma is_open_within_timeout (cb : CircuitBreaker) (now : Q) :
  (now - _last_failure_time cb <= 60)%Q ->
  is_open cb now = (failure_threshold <=? _failures cb, cb).
Proof.
  intros H. unfold is_open, reset_timeout.
  apply Qlt_bool_false in H. rewrite H. reflexivity.
Qed.

(** Past the reset timeout the breaker is closed again, its count
    cleared. *)
Lemma is_open_after_timeout (cb : CircuitBreaker) (now : Q) :
  (60 < now - _last_failure_time cb)%Q ->
  is_open cb now
  = (false, {| _failures := 0; _last_failure_time := _last_failure_time cb |}).
Proof.
  intros H. unfold is_open, reset_timeout.
  apply Qlt_bool_true in H. rewrite H. reflexivity.
Qed.

(** One failure of the function, seen from the breaker: the failure is
    recorded at the time the call ends, and the count is at least 1; it is
    one more than before when the call was made within the timeout. *)
Lemma failing_call_recorded (w : World) :
  fst (is_open (_circuit_breaker w) (clock w)) = false ->
  is_ok (fst (func (notions.let_through w))) = false ->
  let w' := snd (circuit_breaker func w) in
  _last_failure_time (_circuit_breaker w') = clock w'
  /\ (0 <= _failures (_circuit_breaker w) -> 1 <= _failures (_circuit_breaker w'))
  /\ ((clock w - _last_failure_time (_circuit_breaker w) <= 60)%Q ->
      _failures (_circuit_breaker w') = _failures (_circuit_breaker w) + 1).
Proof.
  unfold circuit_breaker, notions.let_through.
  destruct (is_open (_circuit_breaker w) (clock w)) as [open cb] eqn:Hopen.
  simpl. intros -> Hraise.
  pose proof (func_leaves_breaker (set_breaker w cb)) as Hsame.
  destruct (func (set_breaker w cb)) as [[a|e] w1]; [discriminate|].
  simpl in Hsame |- *. rewrite Hsame.
  split; [reflexivity|]. split.
  - intros Hpos. unfold is_open in Hopen.
    destruct (Qlt_bool reset_timeout (clock w - _last_failure_time (_circuit_breaker w)));
      [injection Hopen as <-|injection Hopen as _ <-]; simpl; lia.
  - intros Hwithin.
    rewrite is_open_within_timeout in Hopen by exact Hwithin.
    injection Hopen as _ <-. reflexivity.
Qed.

(** Failures that follow one another within the timeout add up. *)
Lemma failures_add_up (delays : list Q) (w : World) (n : Z) :
  n <= _failures (_circuit_breaker w) ->
  _last_failure_time (_circuit_breaker w) = clock w ->
  Forall (fun d => (d <= 60)%Q) delays ->
  notions.all_fail func delays w = true ->
  n + Z.of_nat (length delays)
    <= _failures (_circuit_breaker (notions.run_calls func delays w))
  /\ _last_failure_time (_circuit_breaker (notions.run_calls func delays w))
     = clock (notions.run_calls func delays w).
Proof.
  revert w n. induction delays as [|d rest IH]; intros w n Hn Hlast Hwin Hfail.
  - simpl. split; [lia|exact Hlast].
  - inversion Hwin as [|? ? Hd Hrest]; subst.
    simpl in Hfail. apply andb_prop in Hfail as [Hfail Hrun].
    apply andb_prop in Hfail as [Hthrough Hraise].
    apply negb_true_iff in Hthrough. apply negb_true_iff in Hraise.
    destruct (failing_call_recorded (advance d w) Hthrough Hraise) as (Hl & _ & Hcount).
    assert (Hwithin : (clock (advance d w)
                       - _last_failure_time (_circuit_breaker (advance d w)) <= 60)%Q).
    { simpl. rewrite Hlast. lra. }
    specialize (Hcount Hwithin). simpl in Hcount.
    destruct (IH (snd (circuit_breaker func (advance d w))) (n + 1)) as [Hsum Hl'];
      [lia|exact Hl|exact Hrest|exact Hrun|].
    simpl. split; [lia|exact Hl'].
Qed.

End Breaker.

(** C4 as stated fails.  Six awaited calls of [generate_detection_content]
    made one second apart while the model times out: each of the six
    reaches the model and ends with the time-out of the model, in one
    attempt; the sixth is not rejected, and the breaker has counted
    nothing.  And around a plain function that fails whenever it is
    called, with failures 61 seconds apart: the sixth call, one second
    after the fifth failure, reaches the function again. *)
Lemma six_failures_leave_breaker_closed :
  (let run :=
     notions.run_awaited
       (openai_service.generate_detection_content samples.platform_settings
          samples.failing_model "Detect Mimikatz" "EDR" (VDict []) None)
       [1; 1; 1; 1; 1; 1]%Q samples.fresh_world in
   fst run
   = repeat (Raise samples.timed_out,
             {| openai_service.attempts := 1; openai_service.waits := [] |}) 6
   /\ openai_service.backend_calls (snd run) = 6%nat
   /\ openai_service._failures (openai_service._circuit_breaker (snd run)) = 0)
  /\ (let w5 := notions.run_calls samples.failing_function [61; 61; 61; 61; 61]%Q
                  samples.fresh_world in
      notions.all_fail samples.failing_function [61; 61; 61; 61; 61]%Q
        samples.fresh_world = true
      /\ openai_service.circuit_breaker samples.failing_function
           (openai_service.advance 1 w5)
         = (Raise ConnectionError,
            openai_service.set_breaker
              (openai_service.advance 1 (openai_service.advance 1 w5))
              {| openai_service._failures := 2;
                 openai_service._last_failure_time
                 := openai_service.clock w5 + 1 + 1 |})).
Proof.
  split; [vm_compute; repeat split; reflexivity|].
  split; [vm_compute; reflexivity|].
  vm_compute. reflexivity.
Qed.

(** C4, amended: when 5 calls in a row have failed in the function the
    breaker wraps, each made within the reset timeout of the failure
    before it, the next call made at most 60 seconds after the last
    failure raises the service-unavailable exception and the function is
    not called.  And a call made more than 60 seconds after the last
    recorded failure finds the breaker closed, whatever the failure count
    was: the count is cleared at the time of the call, the function is
    called, and the call returns or raises what the function does. *)
Theorem circuit_breaker_opens_and_resets {A : Type}
    (func : Eff openai_service.World A) :
  (forall w, openai_service._circuit_breaker (snd (func w))
             = openai_service._circuit_breaker w) ->
  (forall (w : openai_service.World) (delays : list Q) (next : Q),
      0 <= openai_service._failures (openai_service._circuit_breaker w) ->
      length delays = 5%nat ->
      Forall (fun d => (d <= 60)%Q) (tail delays) ->
      notions.all_fail func delays w = true ->
      (next <= 60)%Q ->
      openai_service.circuit_breaker func
        (openai_service.advance next (notions.run_calls func delays w))
      = (Raise openai_service.unavailable,
         openai_service.advance next (notions.run_calls func delays w)))
  /\ (forall (w : openai_service.World),
      (60 < openai_service.clock w
            - openai_service._last_failure_time (openai_service._circuit_breaker w))%Q ->
      let cleared :=
        openai_service.set_breaker w
          {| openai_service._failures := 0;
             openai_service._last_failure_time :=
               openai_service._last_failure_time (openai_service._circuit_breaker w) |} in
      fst (openai_service.circuit_breaker func w) = fst (func cleared)
      /\ openai_service._failures
           (openai_service._circuit_breaker (snd (openai_service.circuit_breaker func w)))
         = if is_ok (fst (func cleared)) then 0 else 1).
Proof.
  intros Hleaves. split.
  - intros w delays next Hpos Hlen Hwin Hfail Hnext.
    destruct delays as [|d1 rest]; [discriminate|].
    simpl in Hlen, Hwin. injection Hlen as Hlen.
    simpl in Hfail. apply andb_prop in Hfail as [Hfail Hrun].
    apply andb_prop in Hfail as [Hthrough Hraise].
    apply negb_true_iff in Hthrough. apply negb_true_iff in Hraise.
    destruct (failing_call_recorded func Hleaves (openai_service.advance d1 w)
                Hthrough Hraise) as (Hl & Hone & _).
    specialize (Hone Hpos).
    destruct (failures_add_up func Hleaves rest _ 1 Hone Hl Hwin Hrun) as [Hsum Hlast].
    rewrite Hlen in Hsum. simpl.
    set (w5 := notions.run_calls func rest
                 (snd (openai_service.circuit_breaker func
                         (openai_service.advance d1 w)))) in *.
    unfold openai_service.circuit_breaker.
    rewrite is_open_within_timeout by (simpl; rewrite Hlast; lra).
    simpl.
    destruct (Z.leb_spec openai_service.failure_threshold
                (openai_service._failures (openai_service._circuit_breaker w5)))
      as [_|Hlt].
    + unfold openai_service.set_breaker, openai_service.advance. simpl.
      destruct w5 as [[f l] c b sl]; reflexivity.
    + unfold openai_service.failure_threshold in Hlt. lia.
  - intros w Hlate cleared.
    unfold openai_service.circuit_breaker.
    rewrite is_open_after_timeout by exact Hlate.
    fold cleared.
    pose proof (Hleaves cleared) as Hsame.
    destruct (func cleared) as [[a|e] w1]; simpl in Hsame |- *;
      (split; [reflexivity|]); rewrite ?Hsame; reflexivity.
Qed.

Lemma circuit_breaker_opens_and_resets_witness :
  notions.all_fail samples.failing_function [0; 10; 10; 10; 10]%Q
    samples.fresh_world = true
  /\ openai_service.circuit_breaker samples.failing_function
       (openai_service.advance 5
          (notions.run_calls samples.failing_function [0; 10; 10; 10; 10]%Q
             samples.fresh_world))
     = (Raise openai_service.unavailable,
        openai_service.advance 5
          (notions.run_calls samples.failing_function [0; 10; 10; 10; 10]%Q
             samples.fresh_world))
  /\ fst (openai_service.circuit_breaker samples.failing_function
            (openai_service.advance 61
               (notions.run_calls samples.failing_function [0; 10; 10; 10; 10]%Q
                  samples.fresh_world)))
     = Raise ConnectionError.
Proof.
  destruct (circuit_breaker_opens_and_resets samples.failing_function
              (fun w => eq_refl)) as [Hopens Hresets].
  assert (Hfail : notions.all_fail samples.failing_function [0; 10; 10; 10; 10]%Q
                    samples.fresh_world = true) by (vm_compute; reflexivity).
  split; [exact Hfail|]. split.
  - apply (Hopens samples.fresh_world [0; 10; 10; 10; 10]%Q 5%Q).
    + simpl. lia.
    + reflexivity.
    + simpl. repeat constructor; discriminate.
    + exact Hfail.
    + discriminate.
  - destruct (Hresets (openai_service.advance 61
                         (notions.run_calls samples.failing_function
                            [0; 10; 10; 10; 10]%Q samples.fresh_world)))
      as (Hr & _).
    + vm_compute. reflexivity.
    + rewrite Hr. reflexivity.
Defined.

(** *** Retries *)

Lemma py_min_spec (a b : Q) :
  (py_min a b <= a)%Q /\ (py_min a b <= b)%Q
  /\ (py_min a b = a \/ py_min a b = b).
Proof.
  unfold py_min. destruct (Qlt_bool b a) eqn:E.
  - apply Qlt_bool_true in E. repeat split; [lra|lra|right; reflexivity].
  - apply Qlt_bool_false in E. repeat split; [lra|lra|left; reflexivity].
Qed.

Lemma py_max_spec (a b : Q) :
  (a <= py_max a b)%Q /\ (b <= py_max a b)%Q
  /\ (py_max a b = a \/ py_max a b = b).
Proof.
  unfold py_max. destruct (Qlt_bool a b) eqn:E.
  - apply Qlt_bool_true in E. repeat split; [lra|lra|right; reflexivity].
  - apply Qlt_bool_false in E. repeat split; [lra|lra|left; reflexivity].
Qed.

(** Every pause lasts between 4 and 10 seconds, whatever the attempt. *)
Lemma wait_exponential_bounds (attempt_number : nat) :
  (4 <= openai_service.wait_exponential 1 4 10 attempt_number <= 10)%Q.
Proof.
  unfold openai_service.wait_exponential.
  generalize (1 * 2 ^ Z.of_nat (attempt_number - 1))%Q. intros x.
  replace (py_max 0 4) with 4%Q by reflexivity.
  destruct (py_min_spec x 10) as (_ & Hle & _).
  destruct (py_max_spec 4 (py_min x 10)) as (Hge & Hge' & [Heq|Heq]);
    rewrite Heq in Hge, Hge' |- *; split; lra.
Qed.

Example waits_between_three_attempts :
  map (openai_service.wait_exponential 1 4 10) [1; 2]%nat = [4; 4]%Q.
Proof. reflexivity. Qed.

(** What a wrapped call does, attempt by attempt: after an attempt that
    raises, the call pauses 4 seconds and tries again, at most twice; the
    retry error carries the exception of the last attempt. *)
Lemma retry_steps {A : Type}
    (fn : Eff openai_service.World A) (w : openai_service.World) :
  openai_service.retry fn w
  = match fn w with
    | (Ok a, w1) =>
        Some (Ok a, {| openai_service.attempts := 1; openai_service.waits := [] |}, w1)
    | (Raise _, w1) =>
        match fn (openai_service.sleep 4 w1) with
        | (Ok a, w2) =>
            Some (Ok a, {| openai_service.attempts := 2;
                           openai_service.waits := [4%Q] |}, w2)
        | (Raise _, w2) =>
            match fn (openai_service.sleep 4 w2) with
            | (Ok a, w3) =>
                Some (Ok a, {| openai_service.attempts := 3;
                               openai_service.waits := [4; 4]%Q |}, w3)
            | (Raise e3, w3) =>
                Some (Raise (RetryError e3),
                      {| openai_service.attempts := 3;
                         openai_service.waits := [4; 4]%Q |}, w3)
            end
        end
    end.
Proof.
  unfold openai_service.retry. simpl.
  change (openai_service.wait_exponential 1 4 10 1) with 4%Q.
  change (openai_service.wait_exponential 1 4 10 2) with 4%Q.
  destruct (fn w) as [[a|e1] w1]; [reflexivity|].
  destruct (fn (openai_service.sleep 4 w1)) as [[a|e2] w2]; [reflexivity|].
  destruct (fn (openai_service.sleep 4 w2)) as [[a|e3] w3]; reflexivity.
Qed.

(** A call of a decorated method whose breaker lets it through, awaited:
    the wrapper of the breaker returns the coroutine of the body without
    running it, which is a success for [retry]; the body runs once, when
    the caller awaits the coroutine, outside both decorators. *)
Lemma awaited_call_runs_body_once {A : Type}
    (body : Eff openai_service.World A) (w : openai_service.World) :
  fst (openai_service.is_open (openai_service._circuit_breaker w)
         (openai_service.clock w)) = false ->
  openai_service.awaited
    (openai_service.retry (openai_service.circuit_breaker (openai_service.async_def body)))
    w
  = Some (fst (body (notions.let_through w)),
          {| openai_service.attempts := 1; openai_service.waits := [] |},
          snd (body (notions.let_through w))).
Proof.
  intros Hclosed. unfold openai_service.awaited. rewrite retry_steps.
  unfold openai_service.circuit_breaker, openai_service.async_def, ret,
    notions.let_through.
  destruct (openai_service.is_open (openai_service._circuit_breaker w)
              (openai_service.clock w)) as [open cb].
  simpl in Hclosed. subst open. simpl.
  destruct (body (openai_service.set_breaker w cb)) as [r w']. reflexivity.
Qed.

(** C5, on every call the breaker lets through: whatever exception the
    body raises, a time-out of the model like any other, the caller gets
    that exception as it is after one run of the body; no second attempt
    is made and no pause is taken.  (The only exception the decorator
    retries is the rejection of an open breaker, raised by the wrapper
    itself.) *)
Theorem backend_failure_is_not_retried {A : Type}
    (body : Eff openai_service.World A) (w : openai_service.World) (e : PyExn) :
  fst (openai_service.is_open (openai_service._circuit_breaker w)
         (openai_service.clock w)) = false ->
  fst (body (notions.let_through w)) = Raise e ->
  exists w',
    openai_service.awaited
      (openai_service.retry
         (openai_service.circuit_breaker (openai_service.async_def body))) w
    = Some (Raise e,
            {| openai_service.attempts := 1; openai_service.waits := [] |}, w')
    /\ w' = snd (body (notions.let_through w)).
Proof.
  intros Hclosed Hraise. eexists. split; [|reflexivity].
  rewrite awaited_call_runs_body_once by exact Hclosed.
  rewrite Hraise. reflexivity.
Qed.

Lemma backend_failure_is_not_retried_witness :
  exists w',
    openai_service.awaited
      (openai_service.generate_detection_content samples.platform_settings
         samples.failing_model "Detect Mimikatz" "EDR" (VDict []) None)
      samples.fresh_world
    = Some (Raise samples.timed_out,
            {| openai_service.attempts := 1; openai_service.waits := [] |}, w')
    /\ openai_service.backend_calls w' = 1%nat
    /\ openai_service.sleeps w' = [].
Proof.
  destruct (backend_failure_is_not_retried
              (openai_service.generate_detection_content_body
                 samples.platform_settings samples.failing_model
                 "Detect Mimikatz" "EDR" (VDict []) None)
              samples.fresh_world samples.timed_out)
    as (w' & Hcall & Hw'); [reflexivity|reflexivity|].
  exists w'. split; [exact Hcall|].
  rewrite Hw'. split; reflexivity.
Defined.

(** A malformed request is not retried either: the [ValueError] of the
    body reaches the caller after one attempt. *)
Example malformed_request_surfaces_at_once :
  option_map (fun x => (fst (fst x), snd (fst x),
                        openai_service.backend_calls (snd x),
                        openai_service.sleeps (snd x)))
    (openai_service.awaited
       (openai_service.generate_detection_content samples.platform_settings
          samples.answering_model "" "EDR" (VDict []) None) samples.fresh_world)
  = Some (Raise (ValueError "Missing required parameters"),
          {| openai_service.attempts := 1; openai_service.waits := [] |},
          0%nat, []).
Proof. vm_compute. reflexivity. Qed.

(** A wrapped call always ends within 3 attempts, with one pause of 4 to
    10 seconds between two attempts. *)
Lemma retry_bounded {A : Type}
    (fn : Eff openai_service.World A) (w : openai_service.World) :
  exists r rep w',
    openai_service.retry fn w = Some (r, rep, w')
    /\ (1 <= openai_service.attempts rep <= 3)%nat
    /\ length (openai_service.waits rep) = (openai_service.attempts rep - 1)%nat
    /\ Forall (fun d => (4 <= d <= 10)%Q) (openai_service.waits rep).
Proof.
  rewrite retry_steps.
  destruct (fn w) as [[a|e1] w1].
  { do 3 eexists. split; [reflexivity|]. simpl.
    repeat split; try lia; constructor. }
  destruct (fn (openai_service.sleep 4 w1)) as [[a|e2] w2].
  { do 3 eexists. split; [reflexivity|]. simpl.
    repeat split; try lia; repeat constructor; simpl; discriminate. }
  destruct (fn (openai_service.sleep 4 w2)) as [[a|e3] w3];
    do 3 eexists; (split; [reflexivity|]); simpl;
    repeat split; try lia; repeat constructor; simpl; discriminate.
Qed.

(* ===================================================================== *)
(** ** Further properties of the search models *)
(* ===================================================================== *)

Section QueryValidation.
Import search_model.

Lemma in_strings_iff (s : string) (l : list string) :
  in_strings s l = true <-> In s l.
Proof.
  unfold in_strings. rewrite existsb_exists. split.
  - intros (x & Hin & Heq). apply String.eqb_eq in Heq. subst. exact Hin.
  - intros Hin. exists s. split; [exact Hin|apply String.eqb_refl].
Qed.

Lemma tag_char_ok_iff (c : ascii) :
  tag_char_ok c = true <-> is_alnum c = true \/ c = "-"%char \/ c = "_"%char.
Proof.
  unfold tag_char_ok. rewrite orb_true_iff, in_strings_iff. simpl.
  split.
  - intros [H|[H|[H|[]]]]; [left; exact H| |];
      injection H as H; subst; auto.
  - intros [H|[->| ->]]; auto.
Qed.

Lemma str_isalnum_chars (tag : string) :
  str_isalnum tag = true -> forallb tag_char_ok (chars tag) = true.
Proof.
  unfold str_isalnum. intros H. apply andb_prop in H as [_ H].
  rewrite forallb_forall in *. intros c Hc.
  unfold tag_char_ok. rewrite (H c Hc). reflexivity.
Qed.

Lemma length_chars (s : string) : length (chars s) = String.length s.
Proof. induction s as [|c s IH]; simpl; [reflexivity|]. rewrite IH. reflexivity. Qed.

Lemma validate_tag_list_ok (l : list string) :
  validate_tag_list l = Ok tt <-> Forall notions.well_formed_tag l.
Proof.
  induction l as [|tag rest IH]; simpl.
  - split; [constructor|reflexivity].
  - assert (Hchars : forallb tag_char_ok (chars tag) = true
                     <-> Forall (fun c => is_alnum c = true \/ c = "-"%char \/ c = "_"%char)
                                (chars tag)).
    { rewrite forallb_forall, List.Forall_forall.
      split; intros H c Hc; apply tag_char_ok_iff, H, Hc. }
    destruct (str_isalnum tag) eqn:Halnum; simpl.
    + pose proof (str_isalnum_chars tag Halnum) as Hok.
      destruct (Z.ltb_spec 50 (Z.of_nat (String.length tag))) as [Hlong|Hshort].
      * split; [discriminate|]. intros H. inversion H as [|? ? [_ Hlen] _]; subst. lia.
      * rewrite IH. split.
        -- intros H. constructor; [|exact H]. split; [apply Hchars, Hok|lia].
        -- intros H. inversion H; assumption.
    + destruct (forallb tag_char_ok (chars tag)) eqn:Hok; simpl.
      * destruct (Z.ltb_spec 50 (Z.of_nat (String.length tag))) as [Hlong|Hshort].
        -- split; [discriminate|]. intros H. inversion H as [|? ? [_ Hlen] _]; subst. lia.
        -- rewrite IH. split.
           ++ intros H. constructor; [|exact H]. split; [apply Hchars; reflexivity|lia].
           ++ intros H. inversion H; assumption.
      * split; [discriminate|]. intros H. inversion H as [|? ? [Hc _] _]; subst.
        apply Hchars in Hc. congruence.
Qed.

Lemma validate_tag_list_result (l : list string) :
  validate_tag_list l = Ok tt
  \/ validate_tag_list l = Raise (ValueError "Invalid tag format")
  \/ validate_tag_list l = Raise (ValueError "Tag too long").
Proof.
  induction l as [|tag rest IH]; simpl; [left; reflexivity|].
  destruct (negb (str_isalnum tag) && negb (forallb tag_char_ok (chars tag)));
    [right; left; reflexivity|].
  destruct (50 <? Z.of_nat (String.length tag)); [right; right; reflexivity|exact IH].
Qed.

End QueryValidation.

Lemma validate_tags_spec (v : option (list string)) :
  (search_model.validate_tags v = Ok v <-> notions.all_or_none notions.well_formed_tag v)
  /\ (forall v', search_model.validate_tags v = Ok v' -> v' = v)
  /\ (search_model.validate_tags v = Ok v
      \/ exists msg, search_model.validate_tags v = Raise (ValueError msg))
  /\ search_model.validate_tags (Some [""]) = Ok (Some [""]).
Proof.
  assert (Hcases : forall l,
             (search_model.validate_tag_list l = Ok tt
              /\ search_model.validate_tags (Some l) = Ok (Some l))
             \/ (exists msg,
                   search_model.validate_tag_list l = Raise (ValueError msg)
                   /\ search_model.validate_tags (Some l) = Raise (ValueError msg))).
  { intros l. unfold search_model.validate_tags.
    destruct (validate_tag_list_result l) as [H|[H|H]].
    - left. split; [exact H|]. destruct l; simpl; [reflexivity|].
      simpl in H. rewrite H. reflexivity.
    - right. eexists. split; [exact H|]. destruct l; [discriminate|].
      simpl in *. rewrite H. reflexivity.
    - right. eexists. split; [exact H|]. destruct l; [discriminate|].
      simpl in *. rewrite H. reflexivity. }
  split; [|split; [|split; [|reflexivity]]].
  - destruct v as [l|]; simpl; [|split; reflexivity].
    rewrite <- validate_tag_list_ok.
    destruct (Hcases l) as [[Hl Hv]|(msg & Hl & Hv)]; rewrite Hl, Hv;
      split; (reflexivity || discriminate).
  - intros v'. destruct v as [l|]; [|intros H; injection H as <-; reflexivity].
    destruct (Hcases l) as [[Hl Hv]|(msg & Hl & Hv)]; rewrite Hv;
      [intros H; injection H as <-; reflexivity|discriminate].
  - destruct v as [l|]; [|left; reflexivity].
    destruct (Hcases l) as [[Hl Hv]|(msg & Hl & Hv)]; rewrite Hv;
      [left; reflexivity|right; exists msg; reflexivity].
Qed.

Lemma known_platforms_forallb (l : list string) :
  forallb (fun p => search_model.in_strings p search_model.valid_platforms) l = true
  <-> Forall notions.known_platform l.
Proof.
  rewrite forallb_forall, List.Forall_forall.
  split; intros H x Hx; specialize (H x Hx).
  - apply in_strings_iff in H. simpl in H.
    unfold notions.known_platform. intuition.
  - apply in_strings_iff. simpl. unfold notions.known_platform in H. intuition.
Qed.

Lemma validate_platforms_spec (v : option (list string)) :
  (search_model.validate_platforms v = Ok v
   <-> notions.all_or_none notions.known_platform v)
  /\ (forall v', search_model.validate_platforms v = Ok v' -> v' = v)
  /\ search_model.validate_platforms (Some ["siem"])
     = Raise (ValueError "Invalid platform types").
Proof.
  split; [|split; [|reflexivity]].
  - unfold search_model.validate_platforms.
    destruct v as [[|p ps]|]; cbn [truthy_list notions.all_or_none].
    + split; [intros _; constructor|reflexivity].
    + rewrite <- known_platforms_forallb.
      destruct (forallb (fun p0 => search_model.in_strings p0 search_model.valid_platforms)
                  (p :: ps)); split; (reflexivity || discriminate).
    + split; reflexivity.
  - intros v'. unfold search_model.validate_platforms.
    destruct v as [[|p ps]|]; cbn [truthy_list];
      try (intros H; injection H as <-; reflexivity).
    destruct (forallb (fun p0 => search_model.in_strings p0 search_model.valid_platforms)
                (p :: ps));
      [intros H; injection H as <-; reflexivity|discriminate].
Qed.

(** X1: [validate_tags] accepts a list of tags exactly when every tag
    is made of letters, digits, hyphens and underscores only and has at
    most 50 characters; the empty tag is such a tag.  The accepted value is
    returned unchanged, and a refusal is a [ValueError]. *)
Theorem validate_tags_accepts_well_formed (v : option (list string)) :
  (search_model.validate_tags v = Ok v <-> notions.all_or_none notions.well_formed_tag v)
  /\ (forall v', search_model.validate_tags v = Ok v' -> v' = v)
  /\ (search_model.validate_tags v = Ok v
      \/ exists msg, search_model.validate_tags v = Raise (ValueError msg))
  /\ search_model.validate_tags (Some [""]) = Ok (Some [""]).
Proof. exact (validate_tags_spec v). Qed.

(** X2: [validate_platforms] accepts a list exactly when each of its
    elements is SIEM, EDR or NSM (names are case sensitive); the accepted
    value is returned unchanged. *)
Theorem validate_platforms_accepts_known (v : option (list string)) :
  (search_model.validate_platforms v = Ok v
   <-> notions.all_or_none notions.known_platform v)
  /\ (forall v', search_model.validate_platforms v = Ok v' -> v' = v)
  /\ search_model.validate_platforms (Some ["siem"])
     = Raise (ValueError "Invalid platform types").
Proof. exact (validate_platforms_spec v). Qed.

(** X3: a [SearchQuery] is constructed exactly when its text has 3 to
    500 characters, its platforms are known, its tags are well formed, its
    minimum quality score is within [0, 1], its offset is not negative and
    its page size is within 1 to 100 (absent optional fields are accepted);
    construction returns the query as given. *)
Theorem SearchQuery_new_accepts_valid (q : search_model.SearchQuery) :
  (search_model.SearchQuery_new q = Ok q <-> notions.valid_query q)
  /\ (forall q', search_model.SearchQuery_new q = Ok q' -> q' = q).
Proof.
  destruct (validate_platforms_spec (search_model.platforms q)) as (Hp & Hp' & _).
  destruct (validate_tags_spec (search_model.tags q)) as (Ht & Ht' & Htr & _).
  assert (Hsame : forall q', search_model.SearchQuery_new q = Ok q' -> q' = q).
  { intros q'. unfold search_model.SearchQuery_new.
    destruct (negb _); [discriminate|].
    destruct (search_model.validate_platforms (search_model.platforms q)); [|discriminate].
    destruct (search_model.validate_tags (search_model.tags q)); [|discriminate].
    simpl.
    repeat match goal with
           | |- (if ?b then _ else _) = _ -> _ => destruct b; [discriminate|]
           end.
    intros H. injection H as <-. reflexivity. }
  split; [|exact Hsame].
  unfold notions.valid_query. rewrite <- Hp, <- Ht.
  unfold search_model.SearchQuery_new, search_model.MIN_QUERY_LENGTH,
    search_model.MAX_QUERY_LENGTH, search_model.MAX_PAGE_SIZE,
    search_model.MIN_QUALITY_SCORE, search_model.MAX_QUALITY_SCORE.
  set (n := String.length (search_model.query_text q)).
  destruct (Z.leb_spec 3 (Z.of_nat n)) as [Hlo|Hlo];
    destruct (Z.leb_spec (Z.of_nat n) 500) as [Hhi|Hhi]; simpl;
    try (split; [discriminate|intros (Hlen & _); lia]).
  destruct (search_model.validate_platforms (search_model.platforms q)) as [vp|e] eqn:Evp;
    simpl.
  2: { split; [discriminate|]. intros (_ & H & _). discriminate. }
  pose proof (Hp' vp eq_refl) as ->.
  destruct (search_model.validate_tags (search_model.tags q)) as [vt|e] eqn:Evt; simpl.
  2: { split; [discriminate|]. intros (_ & _ & H & _). discriminate. }
  pose proof (Ht' vt eq_refl) as ->.
  unfold search_model.in_range_Q, search_model.at_least_Z, search_model.in_range_Z.
  destruct (search_model.min_quality_score q) as [s|];
    destruct (search_model.from_ q) as [f|];
    destruct (search_model.size q) as [z|];
    repeat match goal with
           | |- context [Qle_bool ?a ?b] =>
               let E := fresh "E" in
               destruct (Qle_bool a b) eqn:E;
               [apply Qle_bool_iff in E
               |assert (~ (a <= b)%Q) by (rewrite <- Qle_bool_iff; congruence)]
           | |- context [Z.leb ?a ?b] => destruct (Z.leb_spec a b)
           end; simpl;
    (split; [try discriminate; intros _; repeat split; (lia || assumption || reflexivity)
            |try reflexivity; intros (_ & _ & _ & Hs & Hf & Hz);
             try (destruct Hs; contradiction); lia]).
Qed.

Lemma normalize_score_fixes_range (v : Q) :
  (0 <= v <= 1)%Q -> (search_model.normalize_score v == v)%Q.
Proof.
  intros [H0 H1]. unfold search_model.normalize_score, py_max, py_min.
  destruct (Qlt_bool v 1) eqn:E1.
  - destruct (Qlt_bool 0 v) eqn:E2; [reflexivity|].
    apply Qlt_bool_false in E2. lra.
  - apply Qlt_bool_false in E1.
    destruct (Qlt_bool 0 1) eqn:E2; [lra|]. apply Qlt_bool_false in E2. lra.
Qed.

(** X4: a [SearchHit] is constructed exactly when the score it is given
    is within [0, 1]; the constructed hit then carries that score (up to
    equality of numbers) and the other fields as given, and any other score
    is refused with a validation error on [score]: the constructor never
    clamps. *)
Theorem SearchHit_new_accepts_unit_scores (h : search_model.SearchHit) :
  (is_ok (search_model.SearchHit_new h) = true
   <-> (0 <= search_model.score h <= 1)%Q)
  /\ (forall h', search_model.SearchHit_new h = Ok h' ->
        (search_model.score h' == search_model.score h)%Q
        /\ (0 <= search_model.score h' <= 1)%Q
        /\ search_model.set_score h' (search_model.score h) = h)
  /\ (is_ok (search_model.SearchHit_new h) = false ->
      search_model.SearchHit_new h = Raise (ValidationError ["score"])).
Proof.
  unfold search_model.SearchHit_new.
  destruct (Qle_bool 0 (search_model.score h)) eqn:E0;
    destruct (Qle_bool (search_model.score h) 1) eqn:E1; simpl;
    try apply Qle_bool_iff in E0; try apply Qle_bool_iff in E1.
  - split; [split; [intros _; split; assumption|reflexivity]|].
    split; [|discriminate].
    intros h' H. injection H as <-. simpl.
    split; [apply normalize_score_fixes_range; split; assumption|].
    split; [apply normalize_score_bounds|].
    destruct h; reflexivity.
  - split; [split; [discriminate|]|split; [discriminate|reflexivity]].
    intros [_ H]. apply Qle_bool_iff in H. congruence.
  - split; [split; [discriminate|]|split; [discriminate|reflexivity]].
    intros [H _]. apply Qle_bool_iff in H. congruence.
  - split; [split; [discriminate|]|split; [discriminate|reflexivity]].
    intros [H _]. apply Qle_bool_iff in H. congruence.
Qed.

Lemma SearchResult_init_spec (hits : list search_model.SearchHit)
    (total took_ms : Z) (max_score : Q)
    (aggregations performance_metrics : option (gmap string PyVal)) :
  (is_ok (search_model.SearchResult_init hits total took_ms max_score
            aggregations performance_metrics) = true
   <-> 0 <= total /\ 0 <= took_ms /\ (0 <= max_score)%Q
       /\ match performance_metrics with
          | Some given =>
              is_Some (given !! "query_time_ms")
              /\ is_Some (given !! "total_shards")
              /\ is_Some (given !! "successful_shards")
          | None => True
          end)
  /\ (forall r,
        search_model.SearchResult_init hits total took_ms max_score
          aggregations performance_metrics = Ok r ->
        r = {| search_model.hits := hits; search_model.total := total;
               search_model.took_ms := took_ms;
               search_model.max_score := max_score;
               search_model.aggregations := default ∅ aggregations;
               search_model.performance_metrics := default ∅ performance_metrics |}).
Proof.
  split.
  2: { intros r. unfold search_model.SearchResult_init.
       destruct (search_model.init_errors _ _ _ _); [|discriminate].
       intros H. injection H as <-. reflexivity. }
  unfold search_model.SearchResult_init, search_model.init_errors.
  destruct (Z.leb_spec 0 total) as [Ht|Ht]; simpl.
  2: { split; [discriminate|]. intros (H & _). lia. }
  destruct (Z.leb_spec 0 took_ms) as [Hk|Hk]; simpl.
  2: { split; [discriminate|]. intros (_ & H & _). lia. }
  destruct (Qle_bool 0 max_score) eqn:Em; simpl.
  2: { split; [discriminate|]. intros (_ & _ & H & _).
       apply Qle_bool_iff in H. congruence. }
  apply Qle_bool_iff in Em.
  destruct performance_metrics as [given|]; simpl.
  2: { split; [intros _; repeat split; assumption|reflexivity]. }
  destruct (given !! "query_time_ms") as [v1|] eqn:E1.
  2: { rewrite (validate_performance_missing _ "query_time_ms") by
         (try exact E1; unfold search_model.required_metrics; set_solver).
       simpl. split; [discriminate|]. intros (_ & _ & _ & [x Hx] & _). discriminate. }
  destruct (given !! "total_shards") as [v2|] eqn:E2.
  2: { rewrite (validate_performance_missing _ "total_shards") by
         (try exact E2; unfold search_model.required_metrics; set_solver).
       simpl. split; [discriminate|]. intros (_ & _ & _ & _ & [x Hx] & _). discriminate. }
  destruct (given !! "successful_shards") as [v3|] eqn:E3.
  2: { rewrite (validate_performance_missing _ "successful_shards") by
         (try exact E3; unfold search_model.required_metrics; set_solver).
       simpl. split; [discriminate|]. intros (_ & _ & _ & _ & _ & [x Hx]). discriminate. }
  rewrite validate_performance_complete by (rewrite ?E1, ?E2, ?E3; eauto).
  simpl. split; [intros _; repeat split; eauto|reflexivity].
Qed.

Lemma SearchResult_new_spec (r : search_model.SearchResult) :
  (search_model.SearchResult_new r = Ok r
   <-> 0 <= search_model.total r
       /\ 0 <= search_model.took_ms r
       /\ (0 <= search_model.max_score r)%Q
       /\ is_Some (search_model.performance_metrics r !! "query_time_ms")
       /\ is_Some (search_model.performance_metrics r !! "total_shards")
       /\ is_Some (search_model.performance_metrics r !! "successful_shards"))
  /\ (forall r', search_model.SearchResult_new r = Ok r' -> r' = r).
Proof.
  assert (Hsame : forall r', search_model.SearchResult_new r = Ok r' -> r' = r).
  { intros r'. rewrite SearchResult_new_unfold.
    destruct (search_model.field_errors r); [|discriminate].
    intros H. injection H as <-. reflexivity. }
  split; [|exact Hsame].
  destruct (SearchResult_init_spec (search_model.hits r) (search_model.total r)
              (search_model.took_ms r) (search_model.max_score r)
              (Some (search_model.aggregations r))
              (Some (search_model.performance_metrics r))) as [Hok _].
  fold (search_model.SearchResult_new r) in Hok.
  rewrite <- Hok. split.
  - intros ->. reflexivity.
  - intros H. destruct (search_model.SearchResult_new r) as [r'|e] eqn:E;
      [|discriminate].
    rewrite (Hsame r' eq_refl). reflexivity.
Qed.

(** X5: a [SearchResult] is constructed exactly when its total and its
    execution time are not negative, its maximum score is not negative,
    and its performance metrics, when they are given, have the query time,
    the total shard count and the successful shard count.  Metrics that
    are left out are not checked: the result then carries the empty
    record.  Construction returns the fields as given, with the empty
    dictionary for each of the two optional ones that is left out. *)
Theorem SearchResult_init_accepts_complete (hits : list search_model.SearchHit)
    (total took_ms : Z) (max_score : Q)
    (aggregations performance_metrics : option (gmap string PyVal)) :
  (is_ok (search_model.SearchResult_init hits total took_ms max_score
            aggregations performance_metrics) = true
   <-> 0 <= total /\ 0 <= took_ms /\ (0 <= max_score)%Q
       /\ match performance_metrics with
          | Some given =>
              is_Some (given !! "query_time_ms")
              /\ is_Some (given !! "total_shards")
              /\ is_Some (given !! "successful_shards")
          | None => True
          end)
  /\ (forall r,
        search_model.SearchResult_init hits total took_ms max_score
          aggregations performance_metrics = Ok r ->
        r = {| search_model.hits := hits; search_model.total := total;
               search_model.took_ms := took_ms;
               search_model.max_score := max_score;
               search_model.aggregations := default ∅ aggregations;
               search_model.performance_metrics := default ∅ performance_metrics |}).
Proof.
  exact (SearchResult_init_spec hits total took_ms max_score
           aggregations performance_metrics).
Qed.

Section FromDetection.
Import search_model.

Lemma getitem_ok (d : gmap string PyVal) (k : string) (v : PyVal) :
  getitem d k = Ok v <-> d !! k = Some v.
Proof.
  unfold getitem. destruct (d !! k); split; intros H; try discriminate;
    injection H as <-; reflexivity.
Qed.

Lemma getitem_missing (d : gmap string PyVal) (k : string) :
  d !! k = None -> getitem d k = Raise (KeyError k).
Proof. intros H. unfold getitem. rewrite H. reflexivity. Qed.

Lemma first_missing_none (data : gmap string PyVal) (keys : list string) :
  notions.first_missing data keys = None <-> Forall (fun k => is_Some (data !! k)) keys.
Proof.
  induction keys as [|k rest IH]; simpl.
  - split; [constructor|reflexivity].
  - destruct (data !! k) eqn:E.
    + rewrite IH. split.
      * intros H. constructor; [rewrite E; eauto|exact H].
      * intros H. inversion H; assumption.
    + split; [discriminate|]. intros H. inversion H as [|? ? [x Hx] _]; subst.
      congruence.
Qed.

(** The outcome of [from_detection], case by case. *)
Lemma from_detection_cases (data : gmap string PyVal) :
  match notions.first_missing data notions.required_detection_keys with
  | Some k => from_detection data = Raise (KeyError k)
  | None =>
      match data !! "metadata" with
      | None | Some (VDict _) => is_ok (from_detection data) = true
      | Some _ => from_detection data = Raise (AttributeError "get")
      end
  end.
Proof.
  unfold notions.required_detection_keys, notions.first_missing, from_detection, getitem.
  destruct (data !! "id"); simpl; [|reflexivity].
  destruct (data !! "name"); simpl; [|reflexivity].
  destruct (data !! "description"); simpl; [|reflexivity].
  destruct (data !! "platform_type"); simpl; [|reflexivity].
  destruct (data !! "created_at"); simpl; [|reflexivity].
  destruct (data !! "updated_at"); simpl; [|reflexivity].
  destruct (data !! "metadata") as [[]|]; reflexivity.
Qed.

End FromDetection.

(** X6: [from_detection] builds a document exactly when the payload has
    the keys id, name, description, platform_type, created_at and
    updated_at and its metadata, when given, is a dictionary.  A payload
    lacking a required key raises [KeyError] for the first key it lacks, in
    that order. *)
Theorem from_detection_requires_keys (data : gmap string PyVal) :
  (is_ok (search_model.from_detection data) = true
   <-> Forall (fun k => is_Some (data !! k)) notions.required_detection_keys
       /\ notions.metadata_is_dict data)
  /\ (forall k, notions.first_missing data notions.required_detection_keys = Some k ->
        search_model.from_detection data = Raise (KeyError k)).
Proof.
  pose proof (from_detection_cases data) as H.
  rewrite <- first_missing_none. unfold notions.metadata_is_dict.
  destruct (notions.first_missing data notions.required_detection_keys) as [k|].
  - rewrite H. simpl. split.
    + split; [discriminate|]. intros [Hk _]. discriminate.
    + intros k' Hk. injection Hk as <-. reflexivity.
  - split; [|discriminate].
    destruct (data !! "metadata") as [[]|]; try rewrite H; simpl;
      split; try tauto; try discriminate; intros [_ []].
Qed.

(** X7: the document [from_detection] builds carries the payload's id
    both as its field and as its identifier in the index, the required
    fields as given, and for the optional ones the payload's value or a
    default: empty content, no tag, quality score 0, and, in the metadata,
    no tactic, no technique, severity medium and confidence 0.  It carries
    no version yet. *)
Theorem from_detection_fields (data : gmap string PyVal) (doc : search_model.DetectionDocument) :
  search_model.from_detection data = Ok doc ->
  data !! "id" = Some (search_model.doc_id doc)
  /\ search_model.meta_id doc = search_model.doc_id doc
  /\ data !! "name" = Some (search_model.doc_name doc)
  /\ data !! "description" = Some (search_model.doc_description doc)
  /\ data !! "platform_type" = Some (search_model.doc_platform_type doc)
  /\ data !! "created_at" = Some (search_model.doc_created_at doc)
  /\ data !! "updated_at" = Some (search_model.doc_updated_at doc)
  /\ search_model.doc_content doc = default (VStr "") (data !! "content")
  /\ search_model.doc_tags doc = default (VList []) (data !! "tags")
  /\ search_model.doc_quality_score doc = default (VFloat 0) (data !! "quality_score")
  /\ search_model.meta_version doc = None
  /\ search_model.meta_version_type doc = None
  /\ (data !! "metadata" = None ->
      search_model.doc_metadata doc
      = {| search_model.mitre_tactics := VList [];
           search_model.mitre_techniques := VList [];
           search_model.severity := VStr "medium";
           search_model.confidence := VFloat 0 |})
  /\ (forall d, data !! "metadata" = Some (VDict d) ->
      search_model.doc_metadata doc
      = {| search_model.mitre_tactics :=
             default (VList []) (search_model.assoc d "mitre_tactics");
           search_model.mitre_techniques :=
             default (VList []) (search_model.assoc d "mitre_techniques");
           search_model.severity :=
             default (VStr "medium") (search_model.assoc d "severity");
           search_model.confidence :=
             default (VFloat 0) (search_model.assoc d "confidence") |}).
Proof.
  unfold search_model.from_detection, search_model.getitem.
  destruct (data !! "id"); simpl; [|discriminate].
  destruct (data !! "name"); simpl; [|discriminate].
  destruct (data !! "description"); simpl; [|discriminate].
  destruct (data !! "platform_type"); simpl; [|discriminate].
  destruct (data !! "created_at"); simpl; [|discriminate].
  destruct (data !! "updated_at"); simpl; [|discriminate].
  destruct (data !! "metadata") as [[]|]; simpl; try discriminate;
    intros H; injection H as <-; simpl;
    repeat split; try reflexivity; try discriminate.
  intros d' H. injection H as <-. reflexivity.
Qed.

Lemma from_detection_fields_witness :
  search_model.from_detection samples.detection = Ok samples.detection_document
  /\ search_model.meta_id samples.detection_document = VStr "det-1"
  /\ search_model.doc_content samples.detection_document = VStr ""
  /\ search_model.severity (search_model.doc_metadata samples.detection_document)
     = VStr "medium".
Proof.
  assert (H : search_model.from_detection samples.detection
              = Ok samples.detection_document) by reflexivity.
  pose proof (from_detection_fields samples.detection samples.detection_document H)
    as (_ & Hid & _ & _ & _ & _ & _ & Hcontent & _ & _ & _ & _ & Hmeta & _).
  split; [exact H|]. split; [exact Hid|]. split; [exact Hcontent|].
  rewrite (Hmeta eq_refl). reflexivity.
Defined.

(* ===================================================================== *)
(** ** Further properties of the search service *)
(* ===================================================================== *)

Lemma py_min_int_min (a b : Z) : py_min_int a b = Z.min a b.
Proof. unfold py_min_int. destruct (Z.ltb_spec b a); lia. Qed.

(** X8: a prefix of fewer than 2 characters, the empty one included,
    gets the empty list of suggestions, whatever the limit, and no request
    is sent to the cluster. *)
Theorem get_suggestions_short_prefix
    (index_name : string)
    (suggest_backend : search_service.SuggestRequest -> result PyVal)
    (prefix : string) (limit : option Z) (sent : list search_service.SuggestRequest) :
  (String.length prefix < 2)%nat ->
  search_service.get_suggestions index_name suggest_backend prefix limit sent
  = (Ok [], sent).
Proof.
  intros Hlen. unfold search_service.get_suggestions, search_service.error_handler,
    try_except.
  destruct prefix as [|c [|c' rest]]; simpl in *; try reflexivity. lia.
Qed.

Lemma get_suggestions_short_prefix_witness :
  search_service.get_suggestions "detections" samples.completing_cluster "r" (Some 5) []
  = (Ok [], []).
Proof.
  apply (get_suggestions_short_prefix "detections" samples.completing_cluster
           "r" (Some 5) []).
  simpl. lia.
Defined.

(** X9: for a prefix of 2 characters or more and a limit [n],
    [get_suggestions] sends exactly one completion request, on the field
    [name.suggest] of the index, for that prefix, skipping duplicates, with
    automatic fuzziness, and asking for min([n], 20) suggestions: never
    more than 20.  With no limit ([None]) the size cannot be computed: the
    service error is raised and no request is sent. *)
Theorem get_suggestions_request
    (index_name : string)
    (suggest_backend : search_service.SuggestRequest -> result PyVal)
    (prefix : string) (limit : option Z) (sent : list search_service.SuggestRequest) :
  (2 <= String.length prefix)%nat ->
  match limit with
  | Some n =>
      snd (search_service.get_suggestions index_name suggest_backend prefix limit sent)
      = sent ++ [ {| search_service.sg_index := index_name;
                     search_service.sg_prefix := prefix;
                     search_service.sg_field := "name.suggest";
                     search_service.sg_size := Z.min n 20;
                     search_service.sg_skip_duplicates := true;
                     search_service.sg_fuzziness := "AUTO";
                     search_service.sg_min_length := 3;
                     search_service.sg_source := false |} ]
  | None =>
      search_service.get_suggestions index_name suggest_backend prefix limit sent
      = (Raise (SearchServiceError "Internal search service error"), sent)
  end.
Proof.
  intros Hlen.
  unfold search_service.get_suggestions, search_service.error_handler, try_except,
    ebind, lift, raise, search_service.min_limit.
  destruct prefix as [|c [|c' rest]]; simpl in Hlen; try lia.
  cbn [truthy_str negb orb String.length].
  replace (Z.of_nat (S (S (String.length rest))) <? 2) with false
    by (symmetry; apply Z.ltb_ge; lia).
  destruct limit as [n|]; [|reflexivity].
  rewrite py_min_int_min.
  match goal with
  | |- context [suggest_backend ?r] => destruct (suggest_backend r) as [response|e]
  end; [|reflexivity].
  repeat match goal with
         | |- context [match ?x with Ok _ => _ | Raise _ => _ end] =>
             destruct x; try reflexivity
         | |- context [let (_, _) := ?x in _] => destruct x; try reflexivity
         end.
Qed.

Lemma get_suggestions_request_witness :
  snd (search_service.get_suggestions "detections" samples.completing_cluster
         "ran" (Some 50) [])
  = [ {| search_service.sg_index := "detections";
         search_service.sg_prefix := "ran";
         search_service.sg_field := "name.suggest";
         search_service.sg_size := 20;
         search_service.sg_skip_duplicates := true;
         search_service.sg_fuzziness := "AUTO";
         search_service.sg_min_length := 3;
         search_service.sg_source := false |} ].
Proof.
  apply (get_suggestions_request "detections" samples.completing_cluster
           "ran" (Some 50) []).
  simpl. lia.
Defined.

Lemma suggestion_texts_ok (options texts : list PyVal) :
  Forall2 (fun o t => search_model.py_getitem o "text" = Ok t) options texts ->
  search_service.suggestion_texts options = Ok texts.
Proof.
  induction 1 as [|o t options texts Ho _ IH]; simpl; [reflexivity|].
  rewrite Ho. simpl. rewrite IH. reflexivity.
Qed.

(** X10: when the cluster answers the completion request, the service
    returns the text of every option of the first suggestion entry, in the
    order the cluster gave them; it neither drops duplicates nor cuts the
    list to the limit itself. *)
Theorem get_suggestions_returns_all_options
    (index_name : string)
    (suggest_backend : search_service.SuggestRequest -> result PyVal)
    (prefix : string) (n : Z) (sent : list search_service.SuggestRequest)
    (response suggest first : PyVal) (others options texts : list PyVal) :
  (2 <= String.length prefix)%nat ->
  suggest_backend
    {| search_service.sg_index := index_name;
       search_service.sg_prefix := prefix;
       search_service.sg_field := "name.suggest";
       search_service.sg_size := Z.min n 20;
       search_service.sg_skip_duplicates := true;
       search_service.sg_fuzziness := "AUTO";
       search_service.sg_min_length := 3;
       search_service.sg_source := false |} = Ok response ->
  search_model.py_getitem response "suggest" = Ok suggest ->
  search_model.py_getitem suggest "suggestions" = Ok (VList (first :: others)) ->
  search_model.py_getitem first "options" = Ok (VList options) ->
  Forall2 (fun o t => search_model.py_getitem o "text" = Ok t) options texts ->
  fst (search_service.get_suggestions index_name suggest_backend prefix (Some n) sent)
  = Ok texts.
Proof.
  intros Hlen Hresp Hsuggest Hsuggestions Hoptions Htexts.
  unfold search_service.get_suggestions, search_service.error_handler, try_except,
    ebind, lift, raise, search_service.min_limit.
  destruct prefix as [|c [|c' rest]]; simpl in Hlen; try lia.
  cbn [truthy_str negb orb String.length].
  replace (Z.of_nat (S (S (String.length rest))) <? 2) with false
    by (symmetry; apply Z.ltb_ge; lia).
  rewrite py_min_int_min, Hresp, Hsuggest, Hsuggestions. simpl.
  rewrite Hoptions. simpl.
  rewrite (suggestion_texts_ok options texts Htexts). reflexivity.
Qed.

Lemma get_suggestions_returns_all_options_witness :
  fst (search_service.get_suggestions "detections" samples.completing_cluster
         "ran" (Some 2) [])
  = Ok [VStr "ransomware detection"; VStr "ransomware encryption";
        VStr "ransomware detection"].
Proof.
  eapply (get_suggestions_returns_all_options "detections" samples.completing_cluster
            "ran" 2 []);
    [simpl; lia|reflexivity|reflexivity|reflexivity|reflexivity|].
  repeat constructor.
Defined.

Section RefreshIndex.
Import search_model elasticsearch_client search_service.
Variable index_name : string.
Variable backend : Backend.

Lemma usable_health_ok (health status : PyVal) :
  cluster_health backend (Some index_name) = Ok health ->
  py_getitem health "status" = Ok status ->
  (notions.usable_health (cluster_health backend (Some index_name))
   <-> py_eq_str status "red" = false).
Proof.
  intros Hh Hs. unfold notions.usable_health, notions.health_status.
  rewrite Hh. simpl. rewrite Hs. split.
  - intros (st & Heq & Hred). injection Heq as <-. exact Hred.
  - intros Hred. exists status. split; [reflexivity|exact Hred].
Qed.

Lemma unusable_health_raise (e : PyExn) :
  notions.health_status (cluster_health backend (Some index_name)) = Raise e ->
  ~ notions.usable_health (cluster_health backend (Some index_name)).
Proof. intros H (st & Heq & _). congruence. Qed.

Ltac refresh_leaf :=
  repeat split; simpl; try lia; try tauto; try discriminate;
  try (let H := fresh in intros (_ & H & _); discriminate H);
  try (let H := fresh in intros (_ & _ & H); discriminate H);
  try (let H := fresh in intros [H|[]]; discriminate H).

(** What [refresh_index] answers and sends, case by case. *)
Lemma refresh_index_cases (s : Service) :
  exists b sent,
    refresh_index index_name backend s
    = (Ok b, {| _cache := _cache s; requests := requests s ++ sent |})
    /\ (b = true
        <-> notions.usable_health (cluster_health backend (Some index_name))
            /\ indices_refresh backend = Ok tt
            /\ is_ok (bind (indices_stats backend) notions.docs_count) = true)
    /\ (In (IndicesRefresh index_name) sent
        <-> notions.usable_health (cluster_health backend (Some index_name)))
    /\ hd_error sent = Some (ClusterHealth (Some index_name))
    /\ (length sent <= 3)%nat.
Proof.
  unfold refresh_index, error_handler, try_except, ebind, lift, request, ret, raise.
  destruct (cluster_health backend (Some index_name)) as [health|e] eqn:Eh; simpl.
  2: { exists false, [ClusterHealth (Some index_name)].
       split; [reflexivity|].
       assert (Hno : ~ notions.usable_health (cluster_health backend (Some index_name))).
       { apply (unusable_health_raise e). unfold notions.health_status.
         rewrite Eh. reflexivity. }
       rewrite Eh in Hno.
       refresh_leaf. }
  destruct (py_getitem health "status") as [status|e] eqn:Es; simpl.
  2: { exists false, [ClusterHealth (Some index_name)].
       split; [reflexivity|].
       assert (Hno : ~ notions.usable_health (cluster_health backend (Some index_name))).
       { apply (unusable_health_raise e). unfold notions.health_status.
         rewrite Eh. simpl. exact Es. }
       rewrite Eh in Hno.
       refresh_leaf. }
  pose proof (usable_health_ok health status Eh Es) as Hu. rewrite Eh in Hu.
  destruct (py_eq_str status "red") eqn:Er; simpl.
  { exists false, [ClusterHealth (Some index_name)].
    split; [reflexivity|].
    repeat split; simpl; try lia; try discriminate;
      try (intros [H|[]]; discriminate H);
      try (intros (H & _); apply Hu in H; discriminate H);
      try (intros H; apply Hu in H; discriminate H). }
  assert (Husable : notions.usable_health (Ok health)) by (apply Hu; reflexivity).
  destruct (indices_refresh backend) as [[]|e] eqn:Erf; simpl.
  2: { exists false, [ClusterHealth (Some index_name); IndicesRefresh index_name].
       split; [rewrite <- app_assoc; reflexivity|].
       refresh_leaf. }
  destruct (indices_stats backend) as [stats|e] eqn:Est; simpl.
  2: { exists false, [ClusterHealth (Some index_name); IndicesRefresh index_name;
                      IndicesStats index_name].
       split; [rewrite <- !app_assoc; reflexivity|].
       refresh_leaf. }
  unfold notions.docs_count.
  destruct (py_getitem stats "_all") as [all|e] eqn:E1; simpl.
  2: { exists false, [ClusterHealth (Some index_name); IndicesRefresh index_name;
                      IndicesStats index_name].
       split; [rewrite <- !app_assoc; reflexivity|].
       refresh_leaf. }
  destruct (py_getitem all "total") as [tot|e] eqn:E2; simpl.
  2: { exists false, [ClusterHealth (Some index_name); IndicesRefresh index_name;
                      IndicesStats index_name].
       split; [rewrite <- !app_assoc; reflexivity|].
       refresh_leaf. }
  destruct (py_getitem tot "docs") as [docs|e] eqn:E3; simpl.
  2: { exists false, [ClusterHealth (Some index_name); IndicesRefresh index_name;
                      IndicesStats index_name].
       split; [rewrite <- !app_assoc; reflexivity|].
       refresh_leaf. }
  destruct (py_getitem docs "count") as [count|e] eqn:E4; simpl.
  2: { exists false, [ClusterHealth (Some index_name); IndicesRefresh index_name;
                      IndicesStats index_name].
       split; [rewrite <- !app_assoc; reflexivity|].
       refresh_leaf. }
  exists true, [ClusterHealth (Some index_name); IndicesRefresh index_name;
                IndicesStats index_name].
  split; [rewrite <- !app_assoc; reflexivity|].
  refresh_leaf.
Qed.

End RefreshIndex.

(** *** Search as a whole *)

Section SearchAsAWhole.
Import search_model search_service elasticsearch_client.
Variable index_name : string.
Variable _generate_cache_key : SearchQuery -> string.
Variable execute : query_builder.Search -> result Response.

(** [search] answers from its cache, or not at all: on a miss the query
    builder raises, the handler turns that into the service error, and
    nothing is sent to the cluster nor stored. *)
Lemma search_cases (now stored : datetime) (q : SearchQuery) (s : Service) :
  search index_name _generate_cache_key execute now stored q s
  = match _get_from_cache (_cache s) now (_generate_cache_key q) with
    | Some cached => (Ok cached, s)
    | None => (Raise (SearchServiceError "Internal search service error"), s)
    end.
Proof.
  unfold search, error_handler, try_except.
  destruct (_get_from_cache (_cache s) now (_generate_cache_key q)); reflexivity.
Qed.

Lemma search_keeps_service (now stored : datetime) (q : SearchQuery) (s : Service) :
  snd (search index_name _generate_cache_key execute now stored q s) = s.
Proof.
  rewrite search_cases.
  destruct (_get_from_cache (_cache s) now (_generate_cache_key q)); reflexivity.
Qed.


End SearchAsAWhole.

(** The cache of a service used through its methods is empty: [search]
    stores nothing, and the other methods at most clear it. *)
Lemma reachable_cache_empty (index_name : string) (s : search_service.Service) :
  notions.reachable index_name s -> search_service._cache s = ∅.
Proof.
  induction 1 as [sent|s key execute now stored q _ IH|s backend now data _ IH
                  |s backend _ IH].
  - reflexivity.
  - rewrite search_keeps_service. exact IH.
  - unfold search_service.index_detection, search_service.error_handler,
      try_except, ebind, lift, search_service.request,
      search_service._clear_related_caches, ret, raise.
    destruct (search_model.from_detection data) as [doc|e]; simpl; [|exact IH].
    destruct (elasticsearch_client.doc_save backend) as [[]|e]; simpl;
      [reflexivity|exact IH].
  - destruct (refresh_index_cases index_name backend s) as (b & sent & Heq & _).
    rewrite Heq. exact IH.
Qed.

Lemma reachable_cache_of_unit_scores (index_name : string) (s : search_service.Service) :
  notions.reachable index_name s ->
  notions.cache_of_unit_scores (search_service._cache s).
Proof.
  intros H key entry. rewrite (reachable_cache_empty index_name s H).
  rewrite lookup_empty. discriminate.
Qed.

(** On a service used through its methods every search raises the service
    error: no query gets a result. *)
Lemma reachable_search_raises (index_name : string) (s : search_service.Service)
    (key : search_model.SearchQuery -> string)
    (execute : query_builder.Search -> result search_service.Response)
    (now stored : datetime) (q : search_model.SearchQuery) :
  notions.reachable index_name s ->
  search_service.search index_name key execute now stored q s
  = (Raise (SearchServiceError "Internal search service error"), s).
Proof.
  intros H. rewrite search_cases.
  unfold search_service._get_from_cache.
  rewrite (reachable_cache_empty index_name s H), lookup_empty. reflexivity.
Qed.



(** X11: [refresh_index] never raises and never touches the cache.  It
    first asks for the health of the index, sends the refresh exactly when
    that answer reports a status other than red, and sends at most 3
    requests.  It returns [True] exactly when the health is usable, the
    refresh succeeds, and the statistics read afterwards succeed and hold
    the document count. *)
Theorem refresh_index_outcome
    (index_name : string) (backend : elasticsearch_client.Backend)
    (s : search_service.Service) :
  exists b sent,
    search_service.refresh_index index_name backend s
    = (Ok b, {| search_service._cache := search_service._cache s;
                search_service.requests := search_service.requests s ++ sent |})
    /\ (b = true
        <-> notions.usable_health
              (elasticsearch_client.cluster_health backend (Some index_name))
            /\ elasticsearch_client.indices_refresh backend = Ok tt
            /\ is_ok (bind (elasticsearch_client.indices_stats backend)
                           notions.docs_count) = true)
    /\ (In (elasticsearch_client.IndicesRefresh index_name) sent
        <-> notions.usable_health
              (elasticsearch_client.cluster_health backend (Some index_name)))
    /\ hd_error sent = Some (elasticsearch_client.ClusterHealth (Some index_name))
    /\ (length sent <= 3)%nat.
Proof. exact (refresh_index_cases index_name backend s). Qed.

(** X12: when the payload is well formed and the cluster accepts the
    document, [index_detection] returns [True], having sent as its only
    request the save of the document, versioned externally with the whole
    seconds of the current time; the whole cache is dropped, so that every
    lookup that follows is a miss, whatever the key and the time. *)
Theorem index_detection_success_clears_cache
    (index_name : string) (backend : elasticsearch_client.Backend)
    (now : datetime) (detection_data : gmap string PyVal)
    (s : search_service.Service) (doc : search_model.DetectionDocument) :
  search_model.from_detection detection_data = Ok doc ->
  elasticsearch_client.doc_save backend = Ok tt ->
  search_service.index_detection index_name backend now detection_data s
  = (Ok true,
     {| search_service._cache := ∅;
        search_service.requests :=
          search_service.requests s
          ++ [elasticsearch_client.DocSave
                (search_model.set_meta_version doc "external" (timestamp_int now))
                index_name] |})
  /\ (forall key later,
        search_service._get_from_cache
          (search_service._cache
             (snd (search_service.index_detection index_name backend now
                     detection_data s)))
          later key
        = None).
Proof.
  intros Hdoc Hsave.
  assert (Hrun : search_service.index_detection index_name backend now detection_data s
                 = (Ok true,
                    {| search_service._cache := ∅;
                       search_service.requests :=
                         search_service.requests s
                         ++ [elasticsearch_client.DocSave
                               (search_model.set_meta_version doc "external"
                                  (timestamp_int now))
                               index_name] |})).
  { unfold search_service.index_detection, search_service.error_handler,
      try_except, ebind, lift, search_service.request,
      search_service._clear_related_caches, ret, raise.
    rewrite Hdoc. simpl. rewrite Hsave. reflexivity. }
  split; [exact Hrun|].
  intros key later. rewrite Hrun. simpl.
  apply missing_key_is_a_miss. apply lookup_empty.
Qed.

Lemma index_detection_success_clears_cache_witness :
  fst (search_service.index_detection "detections" (samples.cluster "green")
         1700000600000000 samples.detection samples.warm_service)
  = Ok true
  /\ search_service._get_from_cache
       (search_service._cache
          (snd (search_service.index_detection "detections" (samples.cluster "green")
                  1700000600000000 samples.detection samples.warm_service)))
       1700000600000001 "search:1"
     = None.
Proof.
  destruct (index_detection_success_clears_cache "detections" (samples.cluster "green")
              1700000600000000 samples.detection samples.warm_service
              samples.detection_document eq_refl eq_refl) as [Hrun Hmiss].
  split; [rewrite Hrun; reflexivity|apply Hmiss].
Defined.

(** X13: a result [search] assembles from a response is stored under the
    key of the query with the time of the call, other entries and the
    requests sent being left alone; a lookup of that key less than 300
    seconds later gives the very same result back. *)
Theorem assembled_result_is_cached
    (to_search_hit : search_model.DetectionDocument -> result search_model.SearchHit)
    (now later : datetime) (cache_key : string)
    (response : search_service.Response) (s : search_service.Service)
    (r : search_model.SearchResult) :
  fst (search_service.search_from_response to_search_hit now cache_key response s)
  = Ok r ->
  0 <= later - now < 300 * 1000000 ->
  let s' := snd (search_service.search_from_response to_search_hit now cache_key
                   response s) in
  search_service._get_from_cache (search_service._cache s') later cache_key = Some r
  /\ (forall key, key <> cache_key ->
        search_service._cache s' !! key = search_service._cache s !! key)
  /\ search_service.requests s' = search_service.requests s.
Proof.
  intros Hok Hsoon.
  unfold search_service.search_from_response, search_service.assemble,
    search_service.error_handler, try_except, ebind, lift, raise in *.
  destruct (search_service.process_hits to_search_hit (search_service.resp_hits response))
    as [hs|e]; simpl in *; [|discriminate].
  destruct (search_service.build_result response hs) as [r0|e]; simpl in *;
    [|discriminate].
  injection Hok as ->.
  split; [|split; [|reflexivity]].
  - apply cache_ttl_within_a_day; unfold search_service.CACHE_TTL; lia.
  - intros key Hne. unfold search_service._add_to_cache.
    apply lookup_insert_ne. congruence.
Qed.

Lemma assembled_result_is_cached_witness :
  exists r,
    fst (search_service.search_from_response search_model.to_search_hit
           1700000600000000 "search:2" samples.empty_response
           samples.warm_service) = Ok r
    /\ search_service._get_from_cache
         (search_service._cache
            (snd (search_service.search_from_response search_model.to_search_hit
                    1700000600000000 "search:2" samples.empty_response
                    samples.warm_service)))
         1700000899999999 "search:2"
       = Some r.
Proof.
  destruct (fst (search_service.search_from_response search_model.to_search_hit
                   1700000600000000 "search:2" samples.empty_response
                   samples.warm_service)) as [r|e] eqn:E.
  - exists r. split; [reflexivity|].
    apply (assembled_result_is_cached search_model.to_search_hit 1700000600000000
             1700000899999999 "search:2" samples.empty_response
             samples.warm_service r E).
    lia.
  - vm_compute in E. discriminate E.
Defined.

(** X14: the result [search] builds from a response carries the hits it
    was given, the total and the execution time of the response, both
    checked not to be negative, the maximum score of the response or 0 when
    it has none, its aggregations or none, and performance metrics made of
    exactly the execution time and the total and successful shard counts of
    the response. *)
Theorem build_result_fields
    (response : search_service.Response) (hs : list search_model.SearchHit)
    (r : search_model.SearchResult) :
  search_service.build_result response hs = Ok r ->
  search_model.hits r = hs
  /\ search_model.total r = search_service.hits_total_value response
  /\ search_model.took_ms r = search_service.took response
  /\ 0 <= search_model.total r
  /\ 0 <= search_model.took_ms r
  /\ search_model.max_score r = search_service.or_zero (search_service.hits_max_score response)
  /\ (search_service.hits_max_score response = None -> search_model.max_score r = 0%Q)
  /\ search_model.aggregations r = default ∅ (search_service.resp_aggregations response)
  /\ exists sh total_shards successful_shards,
       search_service._shards response = Some sh
       /\ sh !! "total" = Some total_shards
       /\ sh !! "successful" = Some successful_shards
       /\ search_model.performance_metrics r
          = <[ "successful_shards" := successful_shards ]>
            (<[ "total_shards" := total_shards ]>
            (<[ "query_time_ms" := VInt (search_service.took response) ]> ∅)).
Proof.
  unfold search_service.build_result, search_service.shards_attr.
  destruct (search_service._shards response) as [sh|]; simpl; [|discriminate].
  destruct (sh !! "total") as [t|] eqn:Et; simpl; [|discriminate].
  destruct (sh !! "successful") as [u|] eqn:Eu; simpl; [|discriminate].
  intros Hnew.
  destruct (SearchResult_new_spec
              {| search_model.hits := hs;
                 search_model.total := search_service.hits_total_value response;
                 search_model.took_ms := search_service.took response;
                 search_model.max_score :=
                   search_service.or_zero (search_service.hits_max_score response);
                 search_model.aggregations :=
                   default ∅ (search_service.resp_aggregations response);
                 search_model.performance_metrics :=
                   <[ "successful_shards" := u ]>
                   (<[ "total_shards" := t ]>
                   (<[ "query_time_ms" := VInt (search_service.took response) ]> ∅)) |})
    as [Hiff Hsame].
  pose proof (Hsame r Hnew) as ->. rewrite Hnew in Hiff.
  destruct (proj1 Hiff eq_refl) as (Htot & Htook & _). simpl in *.
  repeat split; try assumption.
  - intros Hnone. rewrite Hnone. reflexivity.
  - exists sh, t, u. repeat split; assumption.
Qed.

Lemma build_result_fields_witness :
  exists r,
    search_service.build_result samples.scored_response [] = Ok r
    /\ search_model.total r = 1
    /\ search_model.max_score r = (15 # 2)%Q.
Proof.
  destruct (search_service.build_result samples.scored_response []) as [r|e] eqn:E.
  - exists r. split; [reflexivity|].
    pose proof (build_result_fields samples.scored_response [] r E)
      as (_ & Htot & _ & _ & _ & Hmax & _).
    split; [exact Htot|exact Hmax].
  - vm_compute in E. discriminate E.
Defined.

Section ProcessHits.
Import search_model search_service.
Variable to_search_hit : DetectionDocument -> result SearchHit.

Lemma process_hits_assembled (hs : list Hit) (out : list SearchHit) :
  process_hits to_search_hit hs = Ok out
  <-> Forall2 (notions.assembled_from to_search_hit) hs out.
Proof.
  revert out. induction hs as [|hit rest IH]; intros out; simpl.
  - split.
    + intros H. injection H as <-. constructor.
    + intros H. inversion H. reflexivity.
  - split.
    + intros H.
      destruct (from_detection (hit_dict hit)) as [doc|e] eqn:Ed; simpl in H;
        [|discriminate].
      destruct (to_search_hit doc) as [h0|e] eqn:Eh; simpl in H; [|discriminate].
      destruct (process_hits to_search_hit rest) as [tl|e] eqn:Er; simpl in H;
        [|discriminate].
      injection H as <-. constructor.
      * exists doc, h0. repeat split; assumption.
      * apply IH. reflexivity.
    + intros H. inversion H as [|? h ? tl (doc & h0 & Hd & Hh & ->) Hrest]; subst.
      rewrite Hd. simpl. rewrite Hh. simpl.
      apply IH in Hrest. rewrite Hrest. reflexivity.
Qed.

Lemma process_hits_ok_iff (hs : list Hit) :
  is_ok (process_hits to_search_hit hs) = true
  <-> Forall (fun hit => is_ok (bind (from_detection (hit_dict hit)) to_search_hit) = true)
             hs.
Proof.
  induction hs as [|hit rest IH]; simpl.
  - split; [constructor|reflexivity].
  - destruct (from_detection (hit_dict hit)) as [doc|e] eqn:Ed; simpl.
    + destruct (to_search_hit doc) as [h0|e] eqn:Eh; simpl.
      * destruct (process_hits to_search_hit rest) as [tl|e]; simpl in *.
        -- split; [intros _|reflexivity].
           constructor; [rewrite Ed; simpl; rewrite Eh; reflexivity|apply IH; reflexivity].
        -- split; [discriminate|]. intros H. inversion H as [|? ? _ Hrest]; subst.
           apply IH in Hrest. discriminate.
      * split; [discriminate|]. intros H. inversion H as [|? ? Hhit _]; subst.
        rewrite Ed in Hhit. simpl in Hhit. rewrite Eh in Hhit. discriminate.
    + split; [discriminate|]. intros H. inversion H as [|? ? Hhit _]; subst.
      rewrite Ed in Hhit. discriminate.
Qed.

Lemma process_hits_highlights (hs : list Hit) (out : list SearchHit) :
  process_hits to_search_hit hs = Ok out ->
  length out = length hs
  /\ map highlights out = map (fun hit => default ∅ (meta_highlight hit)) hs.
Proof.
  revert out. induction hs as [|hit rest IH]; intros out H; simpl in H.
  - injection H as <-. split; reflexivity.
  - destruct (from_detection (hit_dict hit)) as [doc|e]; simpl in H; [|discriminate].
    destruct (to_search_hit doc) as [h|e]; simpl in H; [|discriminate].
    destruct (process_hits to_search_hit rest) as [tl|e]; simpl in H; [|discriminate].
    injection H as <-. destruct (IH tl eq_refl) as [Hlen Hhl].
    simpl. split; [lia|]. f_equal. exact Hhl.
Qed.

End ProcessHits.

(** X15: the hits of a response are assembled all or none: the list
    [search] builds exists exactly when every hit of the response gives a
    document and that document a [SearchHit]; it then has one hit per hit
    of the response, in the same order, each carrying the score the cluster
    reported and its highlights, or no highlight when the cluster gave
    none. *)
Theorem process_hits_all_or_none
    (to_search_hit : search_model.DetectionDocument -> result search_model.SearchHit)
    (hs : list search_service.Hit) :
  (is_ok (search_service.process_hits to_search_hit hs) = true
   <-> Forall (fun hit =>
                 is_ok (bind (search_model.from_detection (search_service.hit_dict hit))
                             to_search_hit) = true) hs)
  /\ (forall out,
        search_service.process_hits to_search_hit hs = Ok out
        <-> Forall2 (notions.assembled_from to_search_hit) hs out)
  /\ (forall out,
        search_service.process_hits to_search_hit hs = Ok out ->
        length out = length hs
        /\ map search_model.score out = map search_service.meta_score hs
        /\ map search_model.highlights out
           = map (fun hit => default ∅ (search_service.meta_highlight hit)) hs).
Proof.
  split; [apply process_hits_ok_iff|].
  split; [intros out; apply process_hits_assembled|].
  intros out H.
  destruct (process_hits_highlights to_search_hit hs out H) as [Hlen Hhl].
  split; [exact Hlen|]. split; [|exact Hhl].
  apply (process_hits_scores to_search_hit hs out H).
Qed.

(* ===================================================================== *)
(** ** Further properties of the configuration *)
(* ===================================================================== *)

Lemma usable_health_iff (answer : result PyVal) :
  notions.usable_health answer
  <-> match notions.health_status answer with
      | Ok status => search_model.py_eq_str status "red" = false
      | Raise _ => False
      end.
Proof.
  unfold notions.usable_health.
  destruct (notions.health_status answer) as [status|e]; split.
  - intros (st & Heq & Hred). injection Heq as <-. exact Hred.
  - intros Hred. exists status. split; [reflexivity|exact Hred].
  - intros (st & Heq & _). discriminate.
  - intros [].
Qed.

(** X16: [validate_connection] never raises.  It creates the index
    exactly when the client could be built, the cluster reported a status
    other than red, and the index was reported absent: an existing index
    is never created again.  It returns [True] exactly when, in addition,
    the index exists or its creation succeeds, and the test search
    succeeds; it sends at most 5 requests. *)
Theorem validate_connection_outcome
    (index_name : string) (backend : elasticsearch_client.Backend)
    (log : list elasticsearch_client.BackendCall) :
  exists b sent,
    elasticsearch_config.validate_connection index_name backend log
    = (Ok b, log ++ sent)
    /\ (In (elasticsearch_client.IndexCreate index_name) sent
        <-> elasticsearch_client.client_init backend = Ok tt
            /\ notions.usable_health (elasticsearch_client.cluster_health backend None)
            /\ elasticsearch_client.index_exists backend = Ok false)
    /\ (b = true
        <-> elasticsearch_client.client_init backend = Ok tt
            /\ notions.usable_health (elasticsearch_client.cluster_health backend None)
            /\ (elasticsearch_client.index_exists backend = Ok true
                \/ (elasticsearch_client.index_exists backend = Ok false
                    /\ elasticsearch_client.index_create backend = Ok tt))
            /\ elasticsearch_client.client_search backend = Ok tt)
    /\ (length sent <= 5)%nat.
Proof.
  setoid_rewrite usable_health_iff. unfold notions.health_status.
  unfold elasticsearch_config.validate_connection, try_except, ebind, lift,
    elasticsearch_config.request, ret.
  destruct (elasticsearch_client.client_init backend) as [[]|e0]; simpl.
  2: { exists false, [elasticsearch_client.ClientInit].
       split; [reflexivity|]. simpl.
       repeat split; try lia; intuition discriminate. }
  destruct (elasticsearch_client.cluster_health backend None) as [health|e1]; simpl.
  2: { exists false, [elasticsearch_client.ClientInit;
                      elasticsearch_client.ClusterHealth None].
       split; [rewrite <- !app_assoc; reflexivity|]. simpl.
       repeat split; try lia; intuition discriminate. }
  destruct (search_model.py_getitem health "status") as [status|e2]; simpl.
  2: { exists false, [elasticsearch_client.ClientInit;
                      elasticsearch_client.ClusterHealth None].
       split; [rewrite <- !app_assoc; reflexivity|]. simpl.
       repeat split; try lia; intuition discriminate. }
  destruct (search_model.py_eq_str status "red") eqn:Ered; simpl.
  { exists false, [elasticsearch_client.ClientInit;
                   elasticsearch_client.ClusterHealth None].
    split; [rewrite <- !app_assoc; reflexivity|]. simpl.
    repeat split; try lia; intuition discriminate. }
  destruct (elasticsearch_client.index_exists backend) as [[|]|e3]; simpl.
  - destruct (elasticsearch_client.client_search backend) as [[]|e5]; simpl.
    + exists true, [elasticsearch_client.ClientInit;
                    elasticsearch_client.ClusterHealth None;
                    elasticsearch_client.IndexExists index_name;
                    elasticsearch_client.ClientSearch index_name].
      split; [rewrite <- !app_assoc; reflexivity|]. simpl.
      repeat split; try lia; intuition discriminate.
    + exists false, [elasticsearch_client.ClientInit;
                     elasticsearch_client.ClusterHealth None;
                     elasticsearch_client.IndexExists index_name;
                     elasticsearch_client.ClientSearch index_name].
      split; [rewrite <- !app_assoc; reflexivity|]. simpl.
      repeat split; try lia; intuition discriminate.
  - destruct (elasticsearch_client.index_create backend) as [[]|e4]; simpl.
    + destruct (elasticsearch_client.client_search backend) as [[]|e5]; simpl.
      * exists true, [elasticsearch_client.ClientInit;
                      elasticsearch_client.ClusterHealth None;
                      elasticsearch_client.IndexExists index_name;
                      elasticsearch_client.IndexCreate index_name;
                      elasticsearch_client.ClientSearch index_name].
        split; [rewrite <- !app_assoc; reflexivity|]. simpl.
        repeat split; try lia; intuition discriminate.
      * exists false, [elasticsearch_client.ClientInit;
                       elasticsearch_client.ClusterHealth None;
                       elasticsearch_client.IndexExists index_name;
                       elasticsearch_client.IndexCreate index_name;
                       elasticsearch_client.ClientSearch index_name].
        split; [rewrite <- !app_assoc; reflexivity|]. simpl.
        repeat split; try lia; intuition discriminate.
    + exists false, [elasticsearch_client.ClientInit;
                     elasticsearch_client.ClusterHealth None;
                     elasticsearch_client.IndexExists index_name;
                     elasticsearch_client.IndexCreate index_name].
      split; [rewrite <- !app_assoc; reflexivity|]. simpl.
      repeat split; try lia; intuition discriminate.
  - exists false, [elasticsearch_client.ClientInit;
                   elasticsearch_client.ClusterHealth None;
                   elasticsearch_client.IndexExists index_name].
    split; [rewrite <- !app_assoc; reflexivity|]. simpl.
    repeat split; try lia; intuition discriminate.
Qed.

Lemma split_on_not_nil (sep : ascii) (s : string) : split_on sep s <> [].
Proof.
  induction s as [|c s IH]; simpl; [discriminate|].
  destruct (Ascii.eqb c sep); [discriminate|].
  destruct (split_on sep s); discriminate.
Qed.

Lemma join_split_on (sep : ascii) (s : string) :
  join (String sep EmptyString) (split_on sep s) = s.
Proof.
  induction s as [|c s IH]; simpl; [reflexivity|].
  pose proof (split_on_not_nil sep s) as Hne.
  destruct (Ascii.eqb_spec c sep) as [->|Hc].
  - destruct (split_on sep s) as [|p rest]; [congruence|].
    change (join (String sep EmptyString) (EmptyString :: p :: rest))
      with (String sep (join (String sep EmptyString) (p :: rest))).
    rewrite IH. reflexivity.
  - destruct (split_on sep s) as [|p rest]; [congruence|].
    destruct rest as [|q rest]; rewrite <- IH; reflexivity.
Qed.

Lemma length_split_on (sep : ascii) (s : string) :
  length (split_on sep s)
  = S (length (filter (fun c => Ascii.eqb c sep) (chars s))).
Proof.
  induction s as [|c s IH]; simpl; [reflexivity|].
  pose proof (split_on_not_nil sep s) as Hne.
  destruct (Ascii.eqb c sep) eqn:E.
  - rewrite filter_cons. rewrite decide_True by (rewrite E; exact I).
    simpl. rewrite IH. reflexivity.
  - rewrite filter_cons. rewrite decide_False by (rewrite E; exact id).
    destruct (split_on sep s) as [|p rest]; [congruence|]. simpl in *. exact IH.
Qed.

Ltac config_lookup :=
  unfold elasticsearch_config.get_client_config, elasticsearch_config.update;
  repeat match goal with
         | |- context [bool_decide ?P] => destruct (bool_decide P)
         end;
  cbn [negb];
  repeat match goal with
         | |- context [if ?b then _ else _] => destruct b
         end;
  repeat (rewrite lookup_union_r by (simplify_map_eq; done));
  simplify_map_eq; done.

(** X18: the client configuration always carries the time-out, the
    retry flag and the retry count of the settings, and as hosts the
    pieces of the hosts setting between its commas: one more piece than
    there are commas, which joined by commas give the setting back. *)
Theorem client_config_hosts (self : elasticsearch_config.ElasticsearchSettings) :
  elasticsearch_config.get_client_config self !! "hosts"
  = Some (elasticsearch_config.CHosts (split_on "," (elasticsearch_config.hosts self)))
  /\ join "," (split_on "," (elasticsearch_config.hosts self))
     = elasticsearch_config.hosts self
  /\ length (split_on "," (elasticsearch_config.hosts self))
     = S (length (filter (fun c => Ascii.eqb c ",")
                    (chars (elasticsearch_config.hosts self))))
  /\ elasticsearch_config.get_client_config self !! "timeout"
     = Some (elasticsearch_config.CInt (elasticsearch_config.timeout_seconds self))
  /\ elasticsearch_config.get_client_config self !! "retry_on_timeout"
     = Some (elasticsearch_config.CBool (elasticsearch_config.retry_on_timeout self))
  /\ elasticsearch_config.get_client_config self !! "max_retries"
     = Some (elasticsearch_config.CInt (elasticsearch_config.max_retries self)).
Proof.
  split; [config_lookup|].
  split; [apply join_split_on|].
  split; [apply length_split_on|].
  split; [config_lookup|].
  split; config_lookup.
Qed.

(** X19: the client configuration carries credentials exactly when the
    settings have both a user name and a password that are not empty, and
    then carries that pair; with a user name alone or a password alone it
    carries none. *)
Theorem client_config_credentials (self : elasticsearch_config.ElasticsearchSettings) :
  elasticsearch_config.get_client_config self !! "basic_auth"
  = match elasticsearch_config.username self, elasticsearch_config.password self with
    | Some (String a u), Some (String b p) =>
        Some (elasticsearch_config.CAuth (String a u) (String b p))
    | _, _ => None
    end.
Proof.
  unfold elasticsearch_config.get_client_config, elasticsearch_config.update.
  destruct (elasticsearch_config.username self) as [[|a u]|];
    destruct (elasticsearch_config.password self) as [[|b p]|]; simpl;
    repeat match goal with
           | |- context [if ?b then _ else _] => destruct b
           end;
    repeat (rewrite lookup_union_r by (simplify_map_eq; done));
    simplify_map_eq; done.
Qed.

(** X20: the client configuration has a TLS section exactly when TLS is
    enabled.  The section then holds the TLS options of the settings, and
    for the two options [verify_certs] and [use_ssl] the value [True] unless
    the settings give another one: the settings can switch certificate
    verification off.  Pool options and the connection class are present
    exactly when pool settings are given, and monitoring options exactly
    when monitoring settings are given. *)
Theorem client_config_sections (self : elasticsearch_config.ElasticsearchSettings) :
  elasticsearch_config.get_client_config self !! "ssl"
  = (if elasticsearch_config.use_ssl self
     then Some (elasticsearch_config.CDict
                  (elasticsearch_config.ssl_config self
                   ∪ (<[ "use_ssl" := VBool true ]>
                      (<[ "verify_certs" := VBool true ]> ∅))))
     else None)
  /\ (forall k,
        (elasticsearch_config.ssl_config self
         ∪ (<[ "use_ssl" := VBool true ]> (<[ "verify_certs" := VBool true ]> ∅)))
        !! k
        = match elasticsearch_config.ssl_config self !! k with
          | Some v => Some v
          | None => if bool_decide (k = "use_ssl" \/ k = "verify_certs")
                    then Some (VBool true) else None
          end)
  /\ elasticsearch_config.get_client_config self !! "pool_options"
     = (if bool_decide (elasticsearch_config.connection_pool_config self = ∅)
        then None
        else Some (elasticsearch_config.CDict
                     (elasticsearch_config.connection_pool_config self)))
  /\ elasticsearch_config.get_client_config self !! "connection_class"
     = (if bool_decide (elasticsearch_config.connection_pool_config self = ∅)
        then None else Some (elasticsearch_config.CStr "requests"))
  /\ elasticsearch_config.get_client_config self !! "apm_config"
     = (if bool_decide (elasticsearch_config.monitoring_config self = ∅)
        then None
        else Some (elasticsearch_config.CDict
                     (elasticsearch_config.monitoring_config self))).
Proof.
  split; [|split; [|split; [|split]]].
  - config_lookup.
  - intros k. rewrite lookup_union.
    destruct (elasticsearch_config.ssl_config self !! k) as [v|]; simpl.
    + destruct (_ !! k); reflexivity.
    + case_bool_decide as Hk.
      * destruct Hk as [-> | ->]; reflexivity.
      * rewrite lookup_insert_ne by (intros <-; apply Hk; left; reflexivity).
        rewrite lookup_insert_ne by (intros <-; apply Hk; right; reflexivity).
        reflexivity.
  - config_lookup.
  - config_lookup.
  - config_lookup.
Qed.

(** X17: less than a day after an entry was stored, a lookup of its key
    gives the stored result exactly while less than 300 seconds have
    passed, and is a miss from 300 seconds on; the lookup leaves the entry
    in place. *)
Theorem cache_entry_expires_after_ttl
    (cache : gmap string search_service.CacheEntry) (t0 now : datetime)
    (key : string) (r : search_model.SearchResult) :
  0 <= now - t0 < 86400 * 1000000 ->
  (search_service._get_from_cache (search_service._add_to_cache cache t0 key r) now key
   = Some r <-> now - t0 < 300 * 1000000)
  /\ (300 * 1000000 <= now - t0 ->
      search_service._get_from_cache (search_service._add_to_cache cache t0 key r) now key
      = None).
Proof.
  intros Hday.
  pose proof (cache_ttl_within_a_day cache t0 now key r Hday) as Hiff.
  unfold search_service.CACHE_TTL in Hiff.
  split; [exact Hiff|].
  intros Hlate. rewrite get_after_add in *.
  destruct (td_seconds (now - t0) <? search_service.CACHE_TTL); [|reflexivity].
  exfalso. assert (now - t0 < 300 * 1000000) by (apply Hiff; reflexivity). lia.
Qed.

Lemma cache_entry_expires_after_ttl_witness :
  search_service._get_from_cache
    (search_service._add_to_cache ∅ 1700000000000000 "search:1" samples.empty_result)
    1700000300000000 "search:1"
  = None.
Proof.
  apply (cache_entry_expires_after_ttl ∅ 1700000000000000 1700000300000000
           "search:1" samples.empty_result); lia.
Defined.

(* ===================================================================== *)
(** ** Further properties of the AI service *)
(* ===================================================================== *)

(** X21: within the reset timeout of the last failure, the breaker
    counts failures only.  A call that succeeds is left as the function
    made it: nothing is added to the count nor to the time of the last
    failure, so that a success between failures does not clear the count.
    A call that is rejected does not reach the function and is not
    recorded either, so that rejections do not prolong the time the
    breaker stays open; and a call is rejected only when 5 failures or
    more are counted: with fewer, the function is called, the outcome is
    its own, and the one thing added is the record of its failure when it
    raises. *)
Theorem breaker_counts_only_failures {A : Type}
    (func : Eff openai_service.World A) (w : openai_service.World) :
  (openai_service.clock w
   - openai_service._last_failure_time (openai_service._circuit_breaker w) <= 60)%Q ->
  (is_ok (fst (openai_service.circuit_breaker func w)) = true ->
   openai_service.circuit_breaker func w = func w)
  /\ (5 <= openai_service._failures (openai_service._circuit_breaker w) ->
      openai_service.circuit_breaker func w = (Raise openai_service.unavailable, w))
  /\ (openai_service._failures (openai_service._circuit_breaker w) < 5 ->
      openai_service.circuit_breaker func w
      = match func w with
        | (Ok a, w') => (Ok a, w')
        | (Raise e, w') =>
            (Raise e,
             openai_service.set_breaker w'
               (openai_service.record_failure (openai_service._circuit_breaker w')
                  (openai_service.clock w')))
        end).
Proof.
  intros Hwithin.
  unfold openai_service.circuit_breaker.
  rewrite is_open_within_timeout by exact Hwithin.
  unfold openai_service.failure_threshold.
  assert (Hsame : openai_service.set_breaker w (openai_service._circuit_breaker w) = w)
    by (destruct w; reflexivity).
  rewrite Hsame.
  destruct (Z.leb_spec 5 (openai_service._failures (openai_service._circuit_breaker w)))
    as [Hopen|Hclosed].
  - split; [discriminate|]. split; [reflexivity|]. intros. lia.
  - destruct (func w) as [[a|e] w'] eqn:Ef; simpl.
    + split; [reflexivity|]. split; [intros; lia|reflexivity].
    + split; [discriminate|]. split; [intros; lia|reflexivity].
Qed.

Lemma breaker_counts_only_failures_witness :
  openai_service.circuit_breaker
    (openai_service.async_def
       (openai_service.generate_detection_content_body samples.platform_settings
          samples.answering_model "Detect Mimikatz" "EDR" (VDict []) None))
    samples.strained_world
  = (Ok (openai_service.generate_detection_content_body samples.platform_settings
           samples.answering_model "Detect Mimikatz" "EDR" (VDict []) None),
     samples.strained_world).
Proof.
  destruct (breaker_counts_only_failures
              (openai_service.async_def
                 (openai_service.generate_detection_content_body
                    samples.platform_settings samples.answering_model
                    "Detect Mimikatz" "EDR" (VDict []) None))
              samples.strained_world) as (Hsuccess & _).
  - vm_compute. discriminate.
  - rewrite Hsuccess; reflexivity.
Defined.

Lemma rejected_when_open {A : Type} (func : Eff openai_service.World A)
    (w : openai_service.World) :
  (openai_service.clock w
   - openai_service._last_failure_time (openai_service._circuit_breaker w) <= 60)%Q ->
  5 <= openai_service._failures (openai_service._circuit_breaker w) ->
  openai_service.circuit_breaker func w = (Raise openai_service.unavailable, w).
Proof.
  intros Hwithin Hopen. unfold openai_service.circuit_breaker.
  rewrite is_open_within_timeout by exact Hwithin.
  unfold openai_service.failure_threshold.
  destruct (Z.leb_spec 5 (openai_service._failures (openai_service._circuit_breaker w)));
    [|lia].
  destruct w; reflexivity.
Qed.

(** X23: when the breaker is open and stays so for the 8 seconds the
    pauses take, a decorated method makes its 3 attempts without ever
    running its body: the model is not called, the breaker is left as it
    was, 8 seconds pass, and the caller gets the retry error carrying the
    service-unavailable exception. *)
Theorem open_breaker_exhausts_retries {A : Type}
    (func : Eff openai_service.World A) (w : openai_service.World) :
  5 <= openai_service._failures (openai_service._circuit_breaker w) ->
  (openai_service.clock w + 8
   - openai_service._last_failure_time (openai_service._circuit_breaker w) <= 60)%Q ->
  openai_service.retry (openai_service.circuit_breaker func) w
  = Some (Raise (RetryError openai_service.unavailable),
          {| openai_service.attempts := 3; openai_service.waits := [4; 4]%Q |},
          openai_service.sleep 4 (openai_service.sleep 4 w)).
Proof.
  intros Hopen Hwithin.
  rewrite retry_steps.
  rewrite (rejected_when_open func w) by (try assumption; lra).
  rewrite (rejected_when_open func (openai_service.sleep 4 w))
    by (simpl; try assumption; lra).
  rewrite (rejected_when_open func (openai_service.sleep 4 (openai_service.sleep 4 w)))
    by (simpl; try assumption; lra).
  reflexivity.
Qed.

Lemma open_breaker_exhausts_retries_witness :
  option_map (fun x => (fst (fst x), openai_service.backend_calls (snd x),
                        openai_service.sleeps (snd x)))
    (openai_service.generate_detection_content samples.platform_settings
       samples.answering_model "Detect Mimikatz" "EDR" (VDict []) None
       samples.tripped_world)
  = Some (Raise (RetryError openai_service.unavailable), 0%nat, [4; 4]%Q).
Proof.
  unfold openai_service.generate_detection_content.
  rewrite (open_breaker_exhausts_retries
             (openai_service.async_def
                (openai_service.generate_detection_content_body
                   samples.platform_settings samples.answering_model
                   "Detect Mimikatz" "EDR" (VDict []) None))
             samples.tripped_world).
  - reflexivity.
  - vm_compute. discriminate.
  - vm_compute. discriminate.
Defined.

(** X24: a request that lacks a required parameter, or names a platform
    the settings do not have, is refused with a [ValueError] by the body of
    each of the three methods before the model is called: the world is left
    as it was. *)
Theorem malformed_requests_skip_model
    (platform_settings : gmap string PyVal) (model : nat -> openai_service.ModelAnswer)
    (w : openai_service.World) :
  (forall description platform_type metadata thresholds,
      description = "" \/ platform_type = "" ->
      openai_service.generate_detection_content_body platform_settings model
        description platform_type metadata thresholds w
      = (Raise (ValueError "Missing required parameters"), w))
  /\ (forall content platform_type rules,
      content = "" \/ platform_type = "" ->
      openai_service.validate_detection_content_body platform_settings model
        content platform_type rules w
      = (Raise (ValueError "Missing required parameters"), w))
  /\ (forall content platform_type metrics rules,
      content = "" \/ platform_type = "" \/ truthy metrics = false ->
      openai_service.optimize_detection_content_body platform_settings model
        content platform_type metrics rules w
      = (Raise (ValueError "Missing required parameters"), w))
  /\ (forall text platform_type metadata thresholds rules,
      text <> "" -> platform_type <> "" ->
      platform_settings !! platform_type = None ->
      openai_service.generate_detection_content_body platform_settings model
        text platform_type metadata thresholds w
      = (Raise (ValueError "Unsupported platform type"), w)
      /\ openai_service.validate_detection_content_body platform_settings model
           text platform_type rules w
         = (Raise (ValueError "Unsupported platform type"), w)
      /\ (truthy metadata = true ->
          openai_service.optimize_detection_content_body platform_settings model
            text platform_type metadata rules w
          = (Raise (ValueError "Unsupported platform type"), w))).
Proof.
  split; [|split; [|split]].
  - intros description platform_type metadata thresholds [-> | ->];
      unfold openai_service.generate_detection_content_body;
      [reflexivity|destruct description; reflexivity].
  - intros content platform_type rules [-> | ->];
      unfold openai_service.validate_detection_content_body;
      [reflexivity|destruct content; reflexivity].
  - intros content platform_type metrics rules H.
    unfold openai_service.optimize_detection_content_body.
    destruct H as [-> |[-> |Hm]].
    + reflexivity.
    + destruct content; reflexivity.
    + rewrite Hm. destruct content, platform_type; reflexivity.
  - intros text platform_type metadata thresholds rules Ht Hp Hnone.
    unfold openai_service.generate_detection_content_body,
      openai_service.validate_detection_content_body,
      openai_service.optimize_detection_content_body.
    rewrite Hnone.
    destruct text; [congruence|]. destruct platform_type; [congruence|].
    simpl. repeat split. intros Hm. rewrite Hm. reflexivity.
Qed.

Lemma malformed_requests_skip_model_witness :
  openai_service.generate_detection_content_body samples.platform_settings
    samples.answering_model "Detect Mimikatz" "" (VDict []) None samples.fresh_world
  = (Raise (ValueError "Missing required parameters"), samples.fresh_world)
  /\ openai_service.validate_detection_content_body samples.platform_settings
       samples.answering_model "Detect Mimikatz" "XDR" None samples.fresh_world
     = (Raise (ValueError "Unsupported platform type"), samples.fresh_world).
Proof.
  destruct (malformed_requests_skip_model samples.platform_settings
              samples.answering_model samples.fresh_world)
    as (Hgen & _ & _ & Hplatform).
  split.
  - apply Hgen. right. reflexivity.
  - apply (Hplatform "Detect Mimikatz" "XDR" (VDict []) None None);
      [discriminate|discriminate|reflexivity].
Defined.

(** X25: no body of the three methods returns.  Each calls the model
    at most once and awaits what that plain call gives: the body raises
    before the call, leaving the world as it was, or at the await, with
    the exception of the model or, when the model answers, the
    [TypeError] of awaiting a value that is no awaitable. *)
Theorem method_bodies_end_by_the_await
    (platform_settings : gmap string PyVal) (model : nat -> openai_service.ModelAnswer)
    (w : openai_service.World) :
  (forall description platform_type metadata thresholds,
      notions.ends_by_the_await model w
        (openai_service.generate_detection_content_body platform_settings model
           description platform_type metadata thresholds w))
  /\ (forall content platform_type rules,
      notions.ends_by_the_await model w
        (openai_service.validate_detection_content_body platform_settings model
           content platform_type rules w))
  /\ (forall content platform_type metrics rules,
      notions.ends_by_the_await model w
        (openai_service.optimize_detection_content_body platform_settings model
           content platform_type metrics rules w)).
Proof.
  assert (Hawait : forall (dflt : result PyVal) (given : option PyVal)
                     (rest : PyVal -> PyVal -> Eff openai_service.World PyVal),
             notions.ends_by_the_await model w
               (ebind (lift (openai_service.or_default given dflt))
                  (fun rules =>
                     ebind (ebind (openai_service.model_call model)
                              openai_service.await_value)
                       (rest rules)) w)).
  { intros dflt given rest. unfold ebind, lift, notions.ends_by_the_await.
    destruct (openai_service.or_default given dflt) as [rules|e]; simpl.
    - unfold openai_service.model_call, notions.after_model_call,
        openai_service.model_call, openai_service.await_value, raise.
      destruct (openai_service.answer (model (openai_service.backend_calls w)))
        as [plain|e]; simpl; eexists; (split; [reflexivity|]); right;
        split; reflexivity.
    - exists e. split; [reflexivity|left; reflexivity]. }
  assert (Hraise : forall e, notions.ends_by_the_await model w (Raise e, w)).
  { intros e. exists e. split; [reflexivity|left; reflexivity]. }
  split; [|split].
  - intros description platform_type metadata thresholds.
    unfold openai_service.generate_detection_content_body.
    destruct (negb (truthy_str description) || negb (truthy_str platform_type));
      [apply Hraise|].
    destruct (negb (truthy (default VNone (platform_settings !! platform_type))));
      [apply Hraise|].
    apply (Hawait _ _ (fun quality_thresholds generation_result => _)).
  - intros content platform_type rules.
    unfold openai_service.validate_detection_content_body.
    destruct (negb (truthy_str content) || negb (truthy_str platform_type));
      [apply Hraise|].
    destruct (negb (truthy (default VNone (platform_settings !! platform_type))));
      [apply Hraise|].
    apply (Hawait _ _ (fun validation_rules validation_result => _)).
  - intros content platform_type metrics rules.
    unfold openai_service.optimize_detection_content_body.
    destruct (negb (truthy_str content) || negb (truthy_str platform_type)
              || negb (truthy metrics));
      [apply Hraise|].
    destruct (negb (truthy (default VNone (platform_settings !! platform_type))));
      [apply Hraise|].
    apply (Hawait _ _ (fun optimization_rules optimization_result => _)).
Qed.

(** A model that answers is of no help: the answer is a dictionary, and
    the body raises at the await. *)
Example answered_generation_raises :
  fst (openai_service.generate_detection_content_body samples.platform_settings
         samples.answering_model "Detect Mimikatz" "EDR" (VDict []) None
         samples.fresh_world)
  = Raise (TypeError "object dict can't be used in 'await' expression").
Proof. vm_compute. reflexivity. Qed.

Section NothingRecorded.
Import openai_service.

Lemma nothing_recorded_refl (cb : CircuitBreaker) : notions.nothing_recorded cb cb.
Proof. split; [reflexivity|left; reflexivity]. Qed.

Lemma nothing_recorded_trans (a b c : CircuitBreaker) :
  notions.nothing_recorded a b -> notions.nothing_recorded b c ->
  notions.nothing_recorded a c.
Proof.
  intros [Hl1 Hf1] [Hl2 Hf2]. split; [congruence|].
  destruct Hf2 as [Hf2|Hf2]; [|right; exact Hf2].
  destruct Hf1 as [Hf1|Hf1]; [left|right]; congruence.
Qed.

(** The [is_open] test records nothing. *)
Lemma let_through_records_nothing (w : World) :
  notions.nothing_recorded (_circuit_breaker w)
    (_circuit_breaker (notions.let_through w)).
Proof.
  unfold notions.let_through, is_open.
  destruct (Qlt_bool reset_timeout (clock w - _last_failure_time (_circuit_breaker w)));
    simpl.
  - split; [reflexivity|right; reflexivity].
  - apply nothing_recorded_refl.
Qed.

(** A call of an [async def] method through the breaker: it is rejected,
    or it returns the coroutine; the body is not run and nothing is
    recorded. *)
Lemma async_call_through_breaker {A : Type} (body : Eff World A) (w : World) :
  circuit_breaker (async_def body) w
  = (if fst (is_open (_circuit_breaker w) (clock w))
     then Raise unavailable else Ok body,
     notions.let_through w).
Proof.
  unfold circuit_breaker, async_def, ret, notions.let_through.
  destruct (is_open (_circuit_breaker w) (clock w)) as [[] cb]; reflexivity.
Qed.

Lemma closed_below_threshold (w : World) :
  _failures (_circuit_breaker w) < 5 ->
  fst (is_open (_circuit_breaker w) (clock w)) = false.
Proof.
  intros Hlt. unfold is_open, failure_threshold.
  destruct (Qlt_bool reset_timeout (clock w - _last_failure_time (_circuit_breaker w)));
    simpl; [reflexivity|].
  apply Z.leb_gt. exact Hlt.
Qed.

End NothingRecorded.

(** X26: an awaited call of a decorated method never records a failure,
    whatever its body does and however it ends: afterwards the time of the
    last failure is what it was, and the count is what it was or has been
    cleared.  So a breaker that counts fewer than 5 failures, as a new one
    does, rejects no call: the body is run, once, and the breaker still
    counts fewer than 5 failures afterwards. *)
Theorem body_failures_are_never_recorded {A : Type}
    (body : Eff openai_service.World A) (w : openai_service.World) :
  (forall w0, openai_service._circuit_breaker (snd (body w0))
              = openai_service._circuit_breaker w0) ->
  exists r report w',
    openai_service.awaited
      (openai_service.retry
         (openai_service.circuit_breaker (openai_service.async_def body))) w
    = Some (r, report, w')
    /\ notions.nothing_recorded (openai_service._circuit_breaker w)
         (openai_service._circuit_breaker w')
    /\ (openai_service._failures (openai_service._circuit_breaker w) < 5 ->
        report = {| openai_service.attempts := 1; openai_service.waits := [] |}
        /\ (r, w') = body (notions.let_through w)).
Proof.
  intros Hleaves.
  assert (Hrun : forall w0,
             notions.nothing_recorded (openai_service._circuit_breaker w)
               (openai_service._circuit_breaker w0) ->
             notions.nothing_recorded (openai_service._circuit_breaker w)
               (openai_service._circuit_breaker (snd (body (notions.let_through w0))))).
  { intros w0 H0. rewrite Hleaves.
    eapply nothing_recorded_trans; [exact H0|apply let_through_records_nothing]. }
  assert (Hnext : forall w0,
             notions.nothing_recorded (openai_service._circuit_breaker w)
               (openai_service._circuit_breaker w0) ->
             notions.nothing_recorded (openai_service._circuit_breaker w)
               (openai_service._circuit_breaker
                  (openai_service.sleep 4 (notions.let_through w0)))).
  { intros w0 H0. simpl.
    eapply nothing_recorded_trans; [exact H0|apply let_through_records_nothing]. }
  unfold openai_service.awaited. rewrite retry_steps.
  rewrite !async_call_through_breaker.
  destruct (fst (openai_service.is_open (openai_service._circuit_breaker w)
                   (openai_service.clock w))) eqn:E1.
  2: { destruct (body (notions.let_through w)) as [r w'] eqn:Eb.
       exists r. eexists. exists w'. split; [reflexivity|]. split.
       - pose proof (Hrun w (nothing_recorded_refl _)) as H. rewrite Eb in H. exact H.
       - intros _. split; reflexivity. }
  set (w1 := openai_service.sleep 4 (notions.let_through w)).
  assert (H1 : notions.nothing_recorded (openai_service._circuit_breaker w)
                 (openai_service._circuit_breaker w1))
    by (apply Hnext, nothing_recorded_refl).
  assert (Hopen : openai_service._failures (openai_service._circuit_breaker w) < 5 ->
                  False).
  { intros Hlt. rewrite closed_below_threshold in E1 by exact Hlt. discriminate. }
  destruct (fst (openai_service.is_open (openai_service._circuit_breaker w1)
                   (openai_service.clock w1))) eqn:E2.
  2: { destruct (body (notions.let_through w1)) as [r w'] eqn:Eb.
       exists r. eexists. exists w'. split; [reflexivity|]. split.
       - pose proof (Hrun w1 H1) as H. rewrite Eb in H. exact H.
       - intros Hlt. destruct (Hopen Hlt). }
  set (w2 := openai_service.sleep 4 (notions.let_through w1)).
  assert (H2 : notions.nothing_recorded (openai_service._circuit_breaker w)
                 (openai_service._circuit_breaker w2))
    by (apply Hnext, H1).
  destruct (fst (openai_service.is_open (openai_service._circuit_breaker w2)
                   (openai_service.clock w2))) eqn:E3.
  2: { destruct (body (notions.let_through w2)) as [r w'] eqn:Eb.
       exists r. eexists. exists w'. split; [reflexivity|]. split.
       - pose proof (Hrun w2 H2) as H. rewrite Eb in H. exact H.
       - intros Hlt. destruct (Hopen Hlt). }
  do 3 eexists. split; [reflexivity|]. split.
  - eapply nothing_recorded_trans; [exact H2|apply let_through_records_nothing].
  - intros Hlt. destruct (Hopen Hlt).
Qed.

Lemma body_failures_are_never_recorded_witness :
  exists w',
    openai_service.awaited
      (openai_service.generate_detection_content samples.platform_settings
         samples.failing_model "Detect Mimikatz" "EDR" (VDict []) None)
      samples.strained_world
    = Some (Raise samples.timed_out,
            {| openai_service.attempts := 1; openai_service.waits := [] |}, w')
    /\ openai_service._failures (openai_service._circuit_breaker w') = 3.
Proof.
  destruct (body_failures_are_never_recorded
              (openai_service.generate_detection_content_body
                 samples.platform_settings samples.failing_model
                 "Detect Mimikatz" "EDR" (VDict []) None)
              samples.strained_world)
    as (r & report & w' & Hcall & _ & Hclosed).
  - intros w0. unfold openai_service.generate_detection_content_body. simpl.
    reflexivity.
  - destruct Hclosed as [-> Hbody]; [reflexivity|].
    vm_compute in Hbody. injection Hbody as Hr Hw'. subst r w'.
    eexists. split; [exact Hcall|reflexivity].
Defined.

(* ===================================================================== *)
(** ** Properties of the model utilities *)
(* ===================================================================== *)

Lemma split_from_lstrip (s : string) :
  split_from EmptyString (lstrip s) = split_from EmptyString s.
Proof.
  induction s as [|c s IH]; simpl; [reflexivity|].
  destruct (is_space c) eqn:Hc; [exact IH|].
  simpl. rewrite Hc. reflexivity.
Qed.

Lemma split_from_rstrip (s cur : string) :
  split_from cur (rstrip s) = split_from cur s.
Proof.
  revert cur. induction s as [|c s IH]; intros cur; [reflexivity|].
  simpl rstrip.
  destruct (rstrip s) as [|a r] eqn:Er.
  - destruct (is_space c) eqn:Hc; simpl; rewrite Hc.
    + rewrite <- (IH EmptyString). simpl. reflexivity.
    + rewrite <- IH. reflexivity.
  - simpl. destruct (is_space c); rewrite <- ?IH; reflexivity.
Qed.

Lemma split_strip (s : string) : split (strip s) = split s.
Proof.
  unfold split, strip. rewrite split_from_rstrip. apply split_from_lstrip.
Qed.

Lemma append_empty_r (s : string) : s +:+ EmptyString = s.
Proof.
  induction s as [|a s IH]; [reflexivity|].
  change (String a s +:+ EmptyString) with (String a (s +:+ EmptyString)).
  rewrite IH. reflexivity.
Qed.

Lemma append_snoc (cur t : string) (c : ascii) :
  (cur +:+ String c EmptyString) +:+ t = cur +:+ String c t.
Proof.
  induction cur as [|a cur IH]; [reflexivity|].
  change ((String a cur +:+ String c EmptyString) +:+ t)
    with (String a ((cur +:+ String c EmptyString) +:+ t)).
  rewrite IH. reflexivity.
Qed.

Lemma split_from_token (t cur rest : string) :
  forallb (fun c => negb (is_space c)) (chars t) = true ->
  split_from cur (t +:+ rest) = split_from (cur +:+ t) rest.
Proof.
  revert cur. induction t as [|c t IH]; intros cur Ht.
  - rewrite append_empty_r. reflexivity.
  - simpl in Ht. apply andb_prop in Ht as [Hc Ht].
    apply negb_true_iff in Hc.
    change (String c t +:+ rest) with (String c (t +:+ rest)).
    cbn [split_from]. rewrite Hc.
    rewrite IH by exact Ht. rewrite append_snoc. reflexivity.
Qed.

Lemma split_join_tokens (tokens : list string) :
  Forall notions.is_token tokens ->
  split (join " " tokens) = tokens.
Proof.
  unfold split. induction 1 as [|t ts [Hne Hchars] Hts IH]; [reflexivity|].
  destruct ts as [|u ts].
  - cbn [join]. rewrite <- (append_empty_r t) at 1.
    rewrite split_from_token by exact Hchars.
    change (EmptyString +:+ t) with t.
    cbn [split_from]. rewrite Hne. reflexivity.
  - change (join " " (t :: u :: ts)) with (t +:+ " " +:+ join " " (u :: ts)).
    rewrite split_from_token by exact Hchars.
    change (EmptyString +:+ t) with t.
    change (" " +:+ join " " (u :: ts)) with (String " " (join " " (u :: ts))).
    cbn [split_from]. change (is_space " ") with true. cbn iota.
    rewrite Hne. f_equal. exact IH.
Qed.

(** X27: [_clean_text] joins the white-space delimited tokens of the
    text with single spaces (stripping first changes nothing), so that the
    cleaned text has the same tokens as the text, and cleaning a cleaned
    text leaves it as it is. *)
Theorem clean_text_normalises_whitespace (content : string) :
  model_utils._clean_text content = join " " (split content)
  /\ split (model_utils._clean_text content) = split content
  /\ model_utils._clean_text (model_utils._clean_text content)
     = model_utils._clean_text content.
Proof.
  assert (H1 : forall s, model_utils._clean_text s = join " " (split s)).
  { intros s. unfold model_utils._clean_text. rewrite split_strip. reflexivity. }
  assert (H2 : forall s, split (model_utils._clean_text s) = split s).
  { intros s. rewrite H1. apply split_join_tokens, split_tokens. }
  split; [apply H1|]. split; [apply H2|].
  rewrite (H1 (model_utils._clean_text content)), H2, <- H1. reflexivity.
Qed.

Example clean_text_example :
  model_utils._clean_text "  process   where
	commandline  " = "process where commandline".
Proof. reflexivity. Qed.

(** Comparisons with a number: a value that is no number cannot be
    ordered with it, and nan is neither below nor above it. *)
Lemma py_lt_number (v bound : PyVal) (q : Q) :
  as_number bound = Some (Finite q) ->
  py_lt v bound
  = match as_number v with
    | Some x => Ok (number_lt x (Finite q))
    | None => Raise unorderable
    end.
Proof.
  intros Hb. destruct bound; try discriminate; simpl in Hb;
    injection Hb as <-; destruct v; reflexivity.
Qed.

Lemma py_gt_number (v bound : PyVal) (q : Q) :
  as_number bound = Some (Finite q) ->
  py_gt v bound
  = match as_number v with
    | Some x => Ok (number_lt (Finite q) x)
    | None => Raise unorderable
    end.
Proof.
  intros Hb. unfold py_gt. destruct bound; try discriminate; simpl in Hb;
    injection Hb as <-; destruct v; reflexivity.
Qed.

Lemma not_below_iff (v bound : PyVal) (q : Q) :
  as_number bound = Some (Finite q) ->
  py_lt v bound = Ok false <-> notions.nan_or_at_least q v.
Proof.
  intros Hb. rewrite (py_lt_number v bound q Hb). unfold notions.nan_or_at_least.
  destruct (as_number v) as [[a|]|] eqn:Ev.
  - simpl. split.
    + intros H. injection H as H. apply Qlt_bool_false in H.
      right. exists a. split; [reflexivity|exact H].
    + intros [->|(x & Hx & Hle)]; [discriminate|].
      injection Hx as <-. apply Qlt_bool_false in Hle. rewrite Hle. reflexivity.
  - split; [intros _|reflexivity].
    left. destruct v; try discriminate. reflexivity.
  - split; [discriminate|].
    intros [->|(x & Hx & _)]; discriminate.
Qed.

Lemma not_above_iff (v bound : PyVal) (q : Q) :
  as_number bound = Some (Finite q) ->
  py_gt v bound = Ok false <-> notions.nan_or_at_most q v.
Proof.
  intros Hb. rewrite (py_gt_number v bound q Hb). unfold notions.nan_or_at_most.
  destruct (as_number v) as [[a|]|] eqn:Ev.
  - simpl. split.
    + intros H. injection H as H. apply Qlt_bool_false in H.
      right. exists a. split; [reflexivity|exact H].
    + intros [->|(x & Hx & Hle)]; [discriminate|].
      injection Hx as <-. apply Qlt_bool_false in Hle. rewrite Hle. reflexivity.
  - split; [intros _|reflexivity].
    left. destruct v; try discriminate. reflexivity.
  - split; [discriminate|].
    intros [->|(x & Hx & _)]; discriminate.
Qed.

Lemma check_new_metrics_ok (new_metrics : gmap string PyVal) :
  model_utils.check_new_metrics new_metrics = Ok tt
  <-> notions.passes_thresholds new_metrics.
Proof.
  unfold model_utils.check_new_metrics, notions.passes_thresholds, search_model.getitem.
  destruct (new_metrics !! "accuracy_score") as [a|] eqn:Ea; cbn [bind default from_option id].
  2: { split; [discriminate|]. intros (a & f & Ha & _). discriminate. }
  pose proof (not_below_iff a (VFloat model_utils.MIN_ACCURACY_THRESHOLD) _ eq_refl)
    as Hbelow.
  destruct (py_lt a (VFloat model_utils.MIN_ACCURACY_THRESHOLD)) as [[]|e]; cbn [bind default from_option id].
  - split; [discriminate|]. intros (a' & f & Ha & Hok & _).
    injection Ha as <-. apply Hbelow in Hok. discriminate.
  - destruct (new_metrics !! "false_positive_rate") as [f|] eqn:Ef; cbn [bind default from_option id].
    2: { split; [discriminate|]. intros (a' & f & _ & _ & Hf & _). discriminate. }
    pose proof (not_above_iff f (VFloat model_utils.MAX_FALSE_POSITIVE_RATE) _ eq_refl)
      as Habove.
    destruct (py_gt f (VFloat model_utils.MAX_FALSE_POSITIVE_RATE)) as [[]|e]; cbn [bind default from_option id].
    + split; [discriminate|]. intros (a' & f' & _ & _ & Hf & Hok).
      injection Hf as <-. apply Habove in Hok. discriminate.
    + split; [intros _|reflexivity].
      exists a, f. split; [reflexivity|]. split; [apply Hbelow; reflexivity|].
      split; [reflexivity|apply Habove; reflexivity].
    + split; [discriminate|]. intros (a' & f' & _ & _ & Hf & Hok).
      injection Hf as <-. apply Habove in Hok. discriminate.
  - split; [discriminate|]. intros (a' & f & Ha & Hok & _).
    injection Ha as <-. apply Hbelow in Hok. discriminate.
Qed.

(** X28: [update_metrics] with threshold validation succeeds exactly when
    the new metrics give an accuracy score that is a number of at least
    0.99 or nan, and a false positive rate that is a number of at most
    0.05 or nan: nan, which no comparison finds below or above a
    threshold, passes both checks.  Both keys have to be there (the
    defaults 0 and 1 read for a missing key are refused), and a value that
    is no number fails.  An update that does not succeed leaves the
    tracker as it was. *)
Theorem update_metrics_validated (new_metrics : gmap string PyVal)
    (t1 t2 t3 : datetime) (self : model_utils.ModelMetrics) :
  (is_ok (fst (model_utils.update_metrics new_metrics true t1 t2 t3 self)) = true
   <-> notions.passes_thresholds new_metrics)
  /\ (is_ok (fst (model_utils.update_metrics new_metrics true t1 t2 t3 self)) = true
      \/ snd (model_utils.update_metrics new_metrics true t1 t2 t3 self) = self).
Proof.
  rewrite <- check_new_metrics_ok.
  unfold model_utils.update_metrics, ebind, lift.
  destruct (model_utils.check_new_metrics new_metrics) as [[]|e]; simpl.
  - split; [split; reflexivity | left; reflexivity].
  - split; [split; discriminate | right; reflexivity].
Qed.

(** X29: an update that reads no accuracy score while validating raises
    [KeyError], not the [ValueError] of the threshold (the message of the
    error reads the missing key), and changes nothing; the same update
    without validation succeeds, keeps the current accuracy score and
    records it once more in the accuracy trend. *)
Theorem update_metrics_missing_score (new_metrics : gmap string PyVal)
    (t1 t2 t3 : datetime) (self : model_utils.ModelMetrics) :
  new_metrics !! "accuracy_score" = None ->
  model_utils.update_metrics new_metrics true t1 t2 t3 self
  = (Raise (KeyError "accuracy_score"), self)
  /\ exists summary self',
       model_utils.update_metrics new_metrics false t1 t2 t3 self
       = (Ok summary, self')
       /\ model_utils.accuracy_score self' = model_utils.accuracy_score self
       /\ model_utils.accuracy_trend self'
          = model_utils.accuracy_trend self
            ++ [(model_utils.accuracy_score self, t1)].
Proof.
  intros Hnone. split.
  - unfold model_utils.update_metrics, ebind, lift,
      model_utils.check_new_metrics, search_model.getitem.
    rewrite Hnone. reflexivity.
  - unfold model_utils.update_metrics, ebind, lift. simpl.
    rewrite Hnone. simpl. eexists _, _. split; [reflexivity|].
    split; reflexivity.
Qed.

Lemma update_metrics_missing_score_witness :
  (∅ : gmap string PyVal) !! "accuracy_score" = None
  /\ model_utils.update_metrics ∅ true 1 2 3 samples.fresh_metrics
     = (Raise (KeyError "accuracy_score"), samples.fresh_metrics).
Proof.
  split; [reflexivity|].
  apply (update_metrics_missing_score ∅ 1 2 3 samples.fresh_metrics).
  reflexivity.
Defined.

Lemma length_last_n {A : Type} (n : nat) (l : list A) :
  length (model_utils.last_n n l) = Nat.min n (length l).
Proof. unfold model_utils.last_n. rewrite length_skipn. lia. Qed.

Lemma last_n_snoc {A : Type} (n : nat) (l : list A) (x : A) :
  last (model_utils.last_n (S n) (l ++ [x])) = Some x.
Proof.
  unfold model_utils.last_n. rewrite length_app. simpl.
  replace (length l + 1 - S n)%nat with (length l - n)%nat by lia.
  rewrite skipn_app.
  replace (length l - n - length l)%nat with 0%nat by lia.
  simpl. apply last_snoc.
Qed.

(** X30: every successful update stores the metrics it was given at the
    end of the history, and the summary it returns shows the last ten
    entries of the history at most, the one just stored being the last. *)
Theorem update_metrics_history (new_metrics : gmap string PyVal)
    (validate : bool) (t1 t2 t3 : datetime)
    (self self' : model_utils.ModelMetrics)
    (summary : model_utils.MetricsSummary) :
  model_utils.update_metrics new_metrics validate t1 t2 t3 self
  = (Ok summary, self') ->
  model_utils.historical_metrics self'
  = model_utils.historical_metrics self ++ [(t3, new_metrics)]
  /\ length (model_utils.historical_data summary)
     = Nat.min 10 (S (length (model_utils.historical_metrics self)))
  /\ last (model_utils.historical_data summary) = Some (t3, new_metrics).
Proof.
  unfold model_utils.update_metrics, ebind, lift.
  destruct (if validate then model_utils.check_new_metrics new_metrics else Ok tt)
    as [[]|e]; [|discriminate].
  intros H. injection H as <- <-.
  cbn [model_utils.historical_metrics model_utils.historical_data
       model_utils.get_metrics_summary].
  split; [reflexivity|]. split.
  - rewrite length_last_n, length_app. simpl.
    replace (length (model_utils.historical_metrics self) + 1)%nat
      with (S (length (model_utils.historical_metrics self))) by lia.
    reflexivity.
  - apply last_n_snoc.
Qed.

Lemma update_metrics_history_witness :
  exists summary self',
    model_utils.update_metrics samples.good_metrics true 1 2 3
      samples.fresh_metrics = (Ok summary, self')
    /\ model_utils.historical_metrics self' = [(3, samples.good_metrics)]
    /\ length (model_utils.historical_data summary) = 1%nat.
Proof.
  eexists _, _.
  assert (H : model_utils.update_metrics samples.good_metrics true 1 2 3
                samples.fresh_metrics
              = (Ok _, _)) by (vm_compute; reflexivity).
  split; [exact H|].
  destruct (update_metrics_history _ _ _ _ _ _ _ _ H) as (Hh & Hl & _).
  split; [exact Hh | exact Hl].
Defined.

(** Metrics that are nan pass the validation and become the current
    scores of the tracker. *)
Example nan_metrics_are_accepted :
  is_ok (fst (model_utils.update_metrics samples.nan_metrics true 1 2 3
                samples.fresh_metrics)) = true
  /\ model_utils.accuracy_score
       (snd (model_utils.update_metrics samples.nan_metrics true 1 2 3
               samples.fresh_metrics)) = VNaN.
Proof. split; reflexivity. Qed.

Lemma py_min_val_capped (v bound capped : PyVal) (q : Q) :
  as_number bound = Some (Finite q) ->
  py_min_val v bound = Ok capped ->
  notions.nan_or_at_most q capped /\ (capped = v \/ capped = bound).
Proof.
  intros Hb. unfold py_min_val.
  pose proof (py_lt_number bound v) as _.
  assert (Hlt : py_lt bound v
                = match as_number v with
                  | Some x => Ok (number_lt (Finite q) x)
                  | None => Raise unorderable
                  end) by (apply (py_gt_number v bound q Hb)).
  rewrite Hlt.
  destruct (as_number v) as [[a|]|] eqn:Ev; simpl; [| |discriminate].
  - destruct (Qlt_bool q a) eqn:E; intros H; injection H as <-.
    + split; [|right; reflexivity].
      right. exists q. split; [exact Hb|apply Qle_refl].
    + split; [|left; reflexivity].
      right. exists a. split; [exact Ev|apply Qlt_bool_false; exact E].
  - intros H. injection H as <-. split; [|left; reflexivity].
    left. destruct v; try discriminate. reflexivity.
Qed.

(** X22: the parameters [_get_optimized_parameters] returns are capped
    for numbers: the temperature is a number of at most 0.8 and the token
    limit a number of at most 4096, or else nan, which the base model can
    pass through the cap ([min] returns its first argument unless the
    second is below it).  They are 0.7 and 2048 when the base model names
    none; the base model is the configured one, and the two quality
    thresholds are those of the platform's settings. *)
Theorem optimized_parameters_capped (platform_settings model_config : gmap string PyVal)
    (platform : string) (p : model_utils.OptimizedParameters) :
  model_utils._get_optimized_parameters platform_settings model_config platform
  = Ok p ->
  notions.nan_or_at_most (8 # 10) (model_utils.temperature p)
  /\ notions.nan_or_at_most 4096 (model_utils.max_tokens p)
  /\ model_config !! "base_model" = Some (model_utils.base_model p)
  /\ (exists settings,
        platform_settings !! platform = Some settings
        /\ search_model.py_getitem settings "accuracy_threshold"
           = Ok (model_utils.accuracy_threshold p)
        /\ search_model.py_getitem settings "false_positive_threshold"
           = Ok (model_utils.false_positive_threshold p))
  /\ (forall d, model_utils.base_model p = VDict d ->
        (search_model.assoc d "temperature" = None ->
         model_utils.temperature p = VFloat (7 # 10))
        /\ (search_model.assoc d "max_tokens" = None ->
            model_utils.max_tokens p = VInt 2048)).
Proof.
  unfold model_utils._get_optimized_parameters, search_model.getitem.
  destruct (model_config !! "base_model") as [base|] eqn:Eb; [|discriminate].
  cbn [bind].
  destruct (model_utils.py_copy base) as [base'|] eqn:Ec; [|discriminate].
  assert (base' = base) as ->.
  { destruct base; try discriminate; injection Ec as <-; reflexivity. }
  cbn [bind].
  destruct (platform_settings !! platform) as [settings|] eqn:Es; [|discriminate].
  cbn [bind].
  destruct (search_model.py_get base "temperature" (VFloat (7 # 10)))
    as [tv|] eqn:Et; [|discriminate]. cbn [bind].
  destruct (py_min_val tv (VFloat (8 # 10))) as [t|] eqn:Etq; [|discriminate].
  cbn [bind].
  destruct (search_model.py_get base "max_tokens" (VInt 2048))
    as [mv|] eqn:Em; [|discriminate]. cbn [bind].
  destruct (py_min_val mv (VInt 4096)) as [m|] eqn:Emq; [|discriminate].
  cbn [bind].
  destruct (search_model.py_getitem settings "accuracy_threshold")
    as [a|] eqn:Ea; [|discriminate]. cbn [bind].
  destruct (search_model.py_getitem settings "false_positive_threshold")
    as [f|] eqn:Ef; [|discriminate]. cbn [bind].
  intros H. injection H as <-.
  cbn [model_utils.temperature model_utils.max_tokens model_utils.base_model
       model_utils.accuracy_threshold model_utils.false_positive_threshold].
  split; [exact (proj1 (py_min_val_capped tv (VFloat (8 # 10)) t (8 # 10) eq_refl Etq))|].
  split; [exact (proj1 (py_min_val_capped mv (VInt 4096) m 4096%Q eq_refl Emq))|].
  split; [reflexivity|].
  split; [exists settings; repeat split; assumption|].
  intros d ->. simpl in Et, Em. split; intros Hnone.
  - rewrite Hnone in Et. simpl in Et. injection Et as <-.
    vm_compute in Etq. injection Etq as <-. reflexivity.
  - rewrite Hnone in Em. simpl in Em. injection Em as <-.
    vm_compute in Emq. injection Emq as <-. reflexivity.
Qed.

Lemma optimized_parameters_capped_witness :
  exists p,
    model_utils._get_optimized_parameters samples.platform_settings
      samples.eager_model_config "EDR" = Ok p
    /\ model_utils.temperature p = VFloat (8 # 10)
    /\ notions.nan_or_at_most 4096 (model_utils.max_tokens p).
Proof.
  eexists.
  assert (H : model_utils._get_optimized_parameters samples.platform_settings
                samples.eager_model_config "EDR" = Ok _)
    by (vm_compute; reflexivity).
  split; [exact H|].
  destruct (optimized_parameters_capped _ _ _ _ H) as (_ & Hm & _).
  split; [reflexivity | exact Hm].
Defined.

(** A base model whose temperature is nan gets it back. *)
Example nan_temperature_is_not_capped :
  exists p,
    model_utils._get_optimized_parameters samples.platform_settings
      samples.nan_model_config "EDR" = Ok p
    /\ model_utils.temperature p = VNaN.
Proof. eexists. split; [vm_compute; reflexivity|reflexivity]. Qed.
